(** * server.js: the loan-performance reporting API

    A shallow embedding of [src/server.js] (the Express service in front of
    the MySQL reporting tables) and the properties of its query builder,
    its row normaliser and its routing.

    Conventions of the embedding.
    - A JavaScript number is a binary64 value, a primitive [float];
      [parseFloat], [parseInt] and the number-to-text conversion are
      written out over it.
    - A JavaScript string is a [string] of bytes, its UTF-8 encoding.
      Letter case is handled for ASCII, which covers every text the server
      compares with.
    - [req.query] holds one text per parameter, except that [telco] may
      also be an array or object (a repeated or bracketed parameter); a path
      is taken after percent-decoding.
    - The SQL text of a statement is kept as a syntax tree in which a
      placeholder carries the parameter bound to it. Its meaning is the one
      MySQL gives to the text, with three-valued logic for NULL and a
      binary collation for the comparison and ordering of strings.
    - A handler is a function from the connection pool and the request to
      the statements it sends, in order, and its answer. *)

From Stdlib Require Import ZArith String Ascii Floats DecimalString List Bool Lia.
From Stdlib Require Import Sorting.Sorted Sorting.Permutation.
From stdpp Require Import gmap strings sorting.

Local Open Scope string_scope.
Local Open Scope Z_scope.

(** ** JavaScript built-ins used by the server *)

Module JS.

Inductive value :=
| VUndefined
| VNull
| VBool (b : bool)
| VNum (f : float)
| VStr (s : string).

(** *** Characters *)

Definition is_digit (a : ascii) : bool :=
  let n := Z.of_N (N_of_ascii a) in (48 <=? n) && (n <=? 57).

Definition digit_val (a : ascii) : Z := Z.of_N (N_of_ascii a) - 48.

(** StrWhiteSpaceChar, the characters of one byte: TAB, LF, VT, FF, CR and
    SP. *)
Definition is_space (a : ascii) : bool :=
  let n := Z.of_N (N_of_ascii a) in (n =? 32) || ((9 <=? n) && (n <=? 13)).

(** StrWhiteSpaceChar, the character of two bytes: U+00A0. *)
Definition is_space2 (a b : ascii) : bool :=
  (Z.of_N (N_of_ascii a) =? 194) && (Z.of_N (N_of_ascii b) =? 160).

(** StrWhiteSpaceChar, the characters of three bytes: U+1680, U+2000 to
    U+200A, U+2028, U+2029, U+202F, U+205F, U+3000 and U+FEFF. *)
Definition is_space3 (a b c : ascii) : bool :=
  let x := Z.of_N (N_of_ascii a) in
  let y := Z.of_N (N_of_ascii b) in
  let z := Z.of_N (N_of_ascii c) in
  ((x =? 225) && (y =? 154) && (z =? 128))
  || ((x =? 226) && (y =? 128)
      && (((128 <=? z) && (z <=? 138)) || (z =? 168) || (z =? 169) || (z =? 175)))
  || ((x =? 226) && (y =? 129) && (z =? 159))
  || ((x =? 227) && (y =? 128) && (z =? 128))
  || ((x =? 239) && (y =? 187) && (z =? 191)).

Definition hex_val (a : ascii) : option Z :=
  let n := Z.of_N (N_of_ascii a) in
  if (48 <=? n) && (n <=? 57) then Some (n - 48)
  else if (97 <=? n) && (n <=? 102) then Some (n - 87)
  else if (65 <=? n) && (n <=? 70) then Some (n - 55)
  else None.

Definition lower (a : ascii) : ascii :=
  let n := N_of_ascii a in
  if ((65 <=? n) && (n <=? 90))%N then ascii_of_N (n + 32) else a.

(** [String.prototype.toLowerCase] *)
Fixpoint toLowerCase (s : string) : string :=
  match s with
  | String a s' => String (lower a) (toLowerCase s')
  | EmptyString => EmptyString
  end.

(** The text without the white space it starts with. *)
Fixpoint trim_start (s : string) : string :=
  match s with
  | String a s1 =>
      if is_space a then trim_start s1
      else match s1 with
           | String b s2 =>
               if is_space2 a b then trim_start s2
               else match s2 with
                    | String c s3 => if is_space3 a b c then trim_start s3 else s
                    | EmptyString => s
                    end
           | EmptyString => s
           end
  | EmptyString => s
  end.

Fixpoint span_digits (s : string) : list Z * string :=
  match s with
  | String a s' =>
      if is_digit a then let '(ds, r) := span_digits s' in (digit_val a :: ds, r)
      else ([], s)
  | EmptyString => ([], s)
  end.

Fixpoint span_hex (s : string) : list Z :=
  match s with
  | String a s' => match hex_val a with Some d => d :: span_hex s' | None => [] end
  | EmptyString => []
  end.

Definition digits_value (radix : Z) (ds : list Z) : Z :=
  fold_left (fun acc d => acc * radix + d) ds 0.

Definition split_sign (s : string) : bool * string :=
  match s with
  | String "-" s' => (true, s')
  | String "+" s' => (false, s')
  | _ => (false, s)
  end.

(** *** Decimal text to binary64 (round to nearest, ties to even) *)

(** [num / den], correctly rounded: the quotient is taken with at least 56
    significant bits and the remainder decides the rounding position. *)
Definition round_ratio (neg : bool) (num den : positive) : spec_float :=
  let s := Z.max 0 (56 + Z.log2 (Zpos den) - Z.log2 (Zpos num)) in
  let n := Z.shiftl (Zpos num) s in
  let q := n / Zpos den in
  let r := n mod Zpos den in
  let loc := if r =? 0 then loc_Exact else loc_Inexact (2 * r ?= Zpos den) in
  binary_round_aux prec emax neg q (- s) loc.

Definition signed_inf (neg : bool) : float := if neg then neg_infinity else infinity.
Definition signed_zero (neg : bool) : float := if neg then neg_zero else zero.

(** The number nearest to [m * 10 ^ e10], signed by [neg]. Magnitudes far
    outside the binary64 range are settled without building the power. *)
Definition decimal_to_float (neg : bool) (m e10 : Z) : float :=
  match m with
  | Zpos p =>
      if 400 <? e10 + Z.log2 m / 4 then signed_inf neg
      else if e10 + Z.log2 m / 3 + 1 <? -400 then signed_zero neg
      else SF2Prim match e10 with
                   | Zneg e => round_ratio neg p (10 ^ e)%positive
                   | _ => round_ratio neg (Z.to_pos (m * 10 ^ e10)) 1
                   end
  | _ => signed_zero neg
  end.

Definition exponent_part (s : string) : Z * string :=
  match s with
  | String c s1 =>
      if Ascii.eqb c "e" || Ascii.eqb c "E" then
        let '(neg, s2) := split_sign s1 in
        match span_digits s2 with
        | ([], _) => (0, s)
        | (ds, r) => ((if neg then - digits_value 10 ds else digits_value 10 ds), r)
        end
      else (0, s)
  | EmptyString => (0, s)
  end.

(** [parseFloat] after [ToString]: the longest prefix of the trimmed text
    that is a StrDecimalLiteral, or NaN when there is none. *)
Definition StrToFloat (s : string) : float :=
  let '(neg, s1) := split_sign (trim_start s) in
  if String.prefix "Infinity" s1 then signed_inf neg
  else
    let '(ip, s2) := span_digits s1 in
    let '(fp, s3) := match s2 with
                     | String "." s2' => span_digits s2'
                     | _ => ([], s2)
                     end in
    match (ip ++ fp)%list with
    | [] => nan
    | ds => let '(e, _) := exponent_part s3 in
            decimal_to_float neg (digits_value 10 ds) (e - Z.of_nat (length fp))
    end.

(** [parseInt] after [ToString], radix undefined: radix 16 after a 0x
    prefix, radix 10 otherwise; NaN when no digit follows. *)
Definition StrToInt (s : string) : float :=
  let '(neg, s1) := split_sign (trim_start s) in
  match s1 with
  | String "0" (String x s2) =>
      if Ascii.eqb x "x" || Ascii.eqb x "X" then
        match span_hex s2 with
        | [] => nan
        | ds => decimal_to_float neg (digits_value 16 ds) 0
        end
      else decimal_to_float neg (digits_value 10 (fst (span_digits s1))) 0
  | _ => match fst (span_digits s1) with
         | [] => nan
         | ds => decimal_to_float neg (digits_value 10 ds) 0
         end
  end.

(** *** Number::toString, radix 10 *)

Definition Z_to_string (z : Z) : string := NilZero.string_of_uint (N.to_uint (Z.to_N z)).

Fixpoint zeros (n : nat) : string :=
  match n with O => "" | S n' => String "0" (zeros n') end.

(** For [num / den < 1]: the count of zeros between the point and the first
    significant digit. *)
Fixpoint leading_zeros (fuel : nat) (num den j : Z) : Z :=
  match fuel with
  | O => j
  | S fuel' => if den <=? num * 10 then j else leading_zeros fuel' (num * 10) den (j + 1)
  end.

(** The [n] with [10 ^ (n - 1) <= num / den < 10 ^ n]. *)
Definition decimal_exponent (num den : Z) : Z :=
  if den <=? num then Z.of_nat (String.length (Z_to_string (num / den)))
  else - leading_zeros 400 num den 0.

Definition scale10 (num den e : Z) : Z * Z :=
  if 0 <=? e then (num * 10 ^ e, den) else (num, den * 10 ^ (- e)).

Definition reads_back (f : float) (c e : Z) : bool :=
  PrimFloat.eqb (decimal_to_float false c e) f.

(** The [k]-digit decimal next to [num / den] that reads back as [f], the
    nearer one when both neighbours do, with its decimal exponent. *)
Definition candidate (f : float) (num den n k : Z) : option (Z * Z) :=
  let '(a, b) := scale10 num den (k - n) in
  let lo := a / b in
  let hi := lo + 1 in
  let pick :=
    match reads_back f lo (n - k), reads_back f hi (n - k) with
    | true, true => match 2 * a ?= (2 * lo + 1) * b with
                    | Lt => Some lo
                    | Gt => Some hi
                    | Eq => Some (if Z.even lo then lo else hi)
                    end
    | true, false => Some lo
    | false, true => Some hi
    | false, false => None
    end in
  match pick with
  | Some c => if c =? 10 ^ k then Some (10 ^ (k - 1), n + 1) else Some (c, n)
  | None => None
  end.

(** The shortest digit string that reads back as [f]: digits, decimal
    exponent, digit count. Seventeen digits always suffice. *)
Fixpoint shortest (fuel : nat) (f : float) (num den n k : Z) : Z * Z * Z :=
  match fuel with
  | O => (0, n, k)
  | S fuel' => match candidate f num den n k with
               | Some (c, n') => (c, n', k)
               | None => shortest fuel' f num den n (k + 1)
               end
  end.

Definition render (digits : string) (n k : Z) : string :=
  if (k <=? n) && (n <=? 21) then digits ++ zeros (Z.to_nat (n - k))
  else if (0 <? n) && (n <=? 21) then
    substring 0 (Z.to_nat n) digits ++ "." ++ substring (Z.to_nat n) (Z.to_nat (k - n)) digits
  else if (-6 <? n) && (n <=? 0) then "0." ++ zeros (Z.to_nat (- n)) ++ digits
  else
    let e := n - 1 in
    let es := (if e <? 0 then "-" else "+") ++ Z_to_string (Z.abs e) in
    if k =? 1 then digits ++ "e" ++ es
    else substring 0 1 digits ++ "." ++ substring 1 (Z.to_nat (k - 1)) digits ++ "e" ++ es.

Definition Number_toString (f : float) : string :=
  match Prim2SF f with
  | S754_nan => "NaN"
  | S754_zero _ => "0"
  | S754_infinity s => if s then "-Infinity" else "Infinity"
  | S754_finite s m e =>
      let '(num, den) := if 0 <=? e then (Zpos m * 2 ^ e, 1) else (Zpos m, 2 ^ (- e)) in
      let '(c, n, k) := shortest 17 (abs f) num den (decimal_exponent num den) 1 in
      (if s then "-" else "") ++ render (Z_to_string c) n k
  end.

(** *** Conversions and operators *)

Definition ToString (v : value) : string :=
  match v with
  | VUndefined => "undefined"
  | VNull => "null"
  | VBool b => if b then "true" else "false"
  | VNum f => Number_toString f
  | VStr s => s
  end.

Definition parseFloat (v : value) : float := StrToFloat (ToString v).
Definition parseInt (v : value) : float := StrToInt (ToString v).

(** ToBoolean on a number: NaN, +0 and -0 are falsy. *)
Definition truthy_num (f : float) : bool := negb (is_nan f || is_zero f).

Definition truthy_str (s : string) : bool := negb (String.eqb s "").

Definition truthy (v : value) : bool :=
  match v with
  | VUndefined | VNull => false
  | VBool b => b
  | VNum f => truthy_num f
  | VStr s => truthy_str s
  end.

(** [a || b] *)
Definition or_num (a b : float) : float := if truthy_num a then a else b.
Definition or_val (a b : value) : value := if truthy a then a else b.

End JS.

(** ** Dates

    The driver hands DATE and DATETIME columns over as [Date] objects in the
    server's time zone and [moment] formats them in the same zone, so a
    valid [Date] is kept as its calendar fields. The zone is taken to have
    no daylight saving time, so that every time of day exists on every
    date. *)

Record datetime := {
  year : Z; month : Z; day : Z;
  hour : Z; minute : Z; second : Z
}.

Definition is_leap (y : Z) : bool :=
  ((y mod 4 =? 0) && negb (y mod 100 =? 0)) || (y mod 400 =? 0).

Definition days_in_month (y m : Z) : Z :=
  if m =? 2 then (if is_leap y then 29 else 28)
  else if (m =? 4) || (m =? 6) || (m =? 9) || (m =? 11) then 30
  else 31.

(** A calendar date of the range a DATE column holds. *)
Definition valid_date (d : datetime) : bool :=
  (0 <=? year d) && (year d <=? 9999) &&
  (1 <=? month d) && (month d <=? 12) &&
  (1 <=? day d) && (day d <=? days_in_month (year d) (month d)).

(** Days since 1970-01-01 in the proleptic Gregorian calendar. *)
Definition days_from_civil (y m d : Z) : Z :=
  let y' := if m <=? 2 then y - 1 else y in
  let era := y' / 400 in
  let yoe := y' - era * 400 in
  let doy := (153 * ((m + 9) mod 12) + 2) / 5 + d - 1 in
  let doe := yoe * 365 + yoe / 4 - yoe / 100 + doy in
  era * 146097 + doe - 719468.

Definition day_number (d : datetime) : Z := days_from_civil (year d) (month d) (day d).

Definition seconds (d : datetime) : Z :=
  day_number d * 86400 + hour d * 3600 + minute d * 60 + second d.

Definition digit_char (n : Z) : ascii := ascii_of_N (Z.to_N (48 + n mod 10)).

(** The tokens MM, DD, HH, mm, ss (two digits) and YYYY (four digits). *)
Definition two_digits (n : Z) : string :=
  String (digit_char (n / 10)) (String (digit_char n) "").

Definition four_digits (n : Z) : string :=
  String (digit_char (n / 1000)) (String (digit_char (n / 100)) (two_digits n)).

Definition valid_time (d : datetime) : bool :=
  (0 <=? hour d) && (hour d <=? 23) &&
  (0 <=? minute d) && (minute d <=? 59) &&
  (0 <=? second d) && (second d <=? 59).

(** A [Date] object: an invalid one (its time value is NaN), or a time,
    given by its calendar fields in the server's zone. *)
Inductive Date :=
| Invalid_Date
| Date_at (d : datetime).

(** [new Date(y, m - 1, d, h, mi, s)] for fields that name a date and a time
    of day: a year below 100 is taken for a year of the twentieth century
    (and 29 February of the year 0 then falls on 1 March 1900). *)
Definition Date_of_fields (d : datetime) : datetime :=
  if year d <? 100 then
    if (year d =? 0) && (month d =? 2) && (day d =? 29)
    then {| year := 1900; month := 3; day := 1;
            hour := hour d; minute := minute d; second := second d |}
    else {| year := 1900 + year d; month := month d; day := day d;
            hour := hour d; minute := minute d; second := second d |}
  else d.

(** What the driver hands over for a stored DATE or DATETIME value: an
    invalid [Date] for the zero date (and for any other value that names no
    calendar date and time of day), and otherwise the [Date] of its
    fields. *)
Definition driver_Date (d : datetime) : Date :=
  if valid_date d && valid_time d then Date_at (Date_of_fields d) else Invalid_Date.

Inductive format := YYYY_MM_DD | YYYY_MM_DD_HH_mm_ss.

Definition format_date (d : datetime) : string :=
  four_digits (year d) ++ "-" ++ two_digits (month d) ++ "-" ++ two_digits (day d).

Definition format_time (d : datetime) : string :=
  two_digits (hour d) ++ ":" ++ two_digits (minute d) ++ ":" ++ two_digits (second d).

(** [moment(x).format(f)] for [x] a [Date] or [null]: [null] and an
    invalid [Date] both give an invalid moment. *)
Definition moment_format (x : option Date) (f : format) : string :=
  match x with
  | None | Some Invalid_Date => "Invalid date"
  | Some (Date_at d) =>
      match f with
      | YYYY_MM_DD => format_date d
      | YYYY_MM_DD_HH_mm_ss => format_date d ++ " " ++ format_time d
      end
  end.

Definition number2 (a b : ascii) : option Z :=
  if JS.is_digit a && JS.is_digit b then Some (JS.digit_val a * 10 + JS.digit_val b) else None.

(** A date-only text YYYY-MM-DD as a calendar date, when it names one. *)
Definition parse_ymd (s : string) : option datetime :=
  match s with
  | String y1 (String y2 (String y3 (String y4 (String "-"
      (String m1 (String m2 (String "-" (String d1 (String d2 EmptyString))))))))) =>
      match number2 y1 y2, number2 y3 y4, number2 m1 m2, number2 d1 d2 with
      | Some yh, Some yl, Some m, Some d =>
          let t := {| year := yh * 100 + yl; month := m; day := d;
                      hour := 0; minute := 0; second := 0 |} in
          if valid_date t then Some t else None
      | _, _, _, _ => None
      end
  | _ => None
  end.

(** The time value of [new Date(s)] in milliseconds for the texts [moment]
    produces above: UTC midnight of a date-only form, NaN ([None]) for
    "Invalid date". *)
Definition Date_value (s : string) : option Z :=
  match parse_ymd s with
  | Some d => Some (day_number d * 86400000)
  | None => None
  end.

(** ** The result normaliser *)

(** A row as the driver returns it: the two date columns as [Date] or
    [null], every other column by name. A missing property reads as
    [undefined]. *)
Record raw_row := {
  row_load_date : option Date;
  row_processed_at : option Date;
  row_columns : gmap string JS.value
}.

Definition col (row : raw_row) (name : string) : JS.value :=
  default JS.VUndefined (row_columns row !! name).

Record LoanRecord := {
  date : string;
  telco : JS.value;
  country : JS.value;
  loan_type : JS.value;
  denom : float;
  qualified_base : float;
  overall_actives_daily : float;
  overall_actives_wtd : float;
  overall_actives_mtd : float;
  overall_actives_ytd : float;
  lending_transactions : float;
  lending_txns : float;
  gross_lent : float;
  principal_lent : float;
  service_fee_lent : float;
  sfee_lent : float;
  late_fees_charged : float;
  setup_fees_charged : float;
  interest_fees_charged : float;
  daily_fees_charged : float;
  recovery_transactions : float;
  recovery_txns : float;
  principal_recovered : float;
  service_fee_recovered : float;
  sfee_recovered : float;
  late_fees_recovered : float;
  setup_fees_recovered : float;
  interest_fees_recovered : float;
  daily_fees_recovered : float;
  gross_recovered : float;
  unique_users : float;
  overall_unique_users : float;
  fx_rate : float;
  processed_at : string;
  file_source : JS.value
}.

Section Normaliser.
Import JS.
Local Notation "a '||' b" := (or_num a b) (at level 50, left associativity, only parsing).
Local Notation "a '|||' b" := (or_val a b) (at level 50, left associativity, only parsing).
Local Notation "row '.[' name ']'" := (col row name) (at level 1, only parsing).

(** The body of the [rows.map] callback of [convertToDashboardFormat]. *)
Definition convertRow (row : raw_row) : LoanRecord := {|
  date := moment_format (row_load_date row) YYYY_MM_DD;
  telco := row.["telco"] ||| VStr "";
  country := row.["country"] ||| VStr "";
  loan_type := row.["loan_type"] ||| VStr "";
  denom := parseInt row.["denom"] || 0;
  qualified_base := parseInt row.["qualified_base"] || 0;
  overall_actives_daily := parseInt row.["overall_actives_daily"] || 0;
  overall_actives_wtd := parseFloat row.["overall_actives_wtd"] || 0;
  overall_actives_mtd := parseInt row.["overall_actives_mtd"] || 0;
  overall_actives_ytd := parseInt row.["overall_actives_ytd"] || 0;
  lending_transactions := parseFloat row.["lending_txns"] || 0;
  lending_txns := parseFloat row.["lending_txns"] || 0;
  gross_lent := parseFloat row.["gross_lent"] || 0;
  principal_lent :=
    ((parseFloat row.["gross_lent"] || 0) - (parseFloat row.["sfee_lent"] || 0))%float;
  service_fee_lent := parseFloat row.["sfee_lent"] || 0;
  sfee_lent := parseFloat row.["sfee_lent"] || 0;
  late_fees_charged := parseFloat row.["late_fees_charged"] || 0;
  setup_fees_charged := parseFloat row.["setup_fees_charged"] || 0;
  interest_fees_charged := parseFloat row.["interest_fees_charged"] || 0;
  daily_fees_charged := parseFloat row.["daily_fees_charged"] || 0;
  recovery_transactions := parseFloat row.["recovery_txns"] || 0;
  recovery_txns := parseFloat row.["recovery_txns"] || 0;
  principal_recovered := parseFloat row.["principal_recovered"] || 0;
  service_fee_recovered := parseFloat row.["sfee_recovered"] || 0;
  sfee_recovered := parseFloat row.["sfee_recovered"] || 0;
  late_fees_recovered := parseFloat row.["late_fees_recovered"] || 0;
  setup_fees_recovered := parseFloat row.["setup_fees_recovered"] || 0;
  interest_fees_recovered := parseFloat row.["interest_fees_recovered"] || 0;
  daily_fees_recovered := parseFloat row.["daily_fees_recovered"] || 0;
  gross_recovered :=
    ((parseFloat row.["principal_recovered"] || 0) +
     (parseFloat row.["sfee_recovered"] || 0) +
     (parseFloat row.["late_fees_recovered"] || 0) +
     (parseFloat row.["setup_fees_recovered"] || 0) +
     (parseFloat row.["interest_fees_recovered"] || 0) +
     (parseFloat row.["daily_fees_recovered"] || 0))%float;
  unique_users := parseInt row.["overall_actives_daily"] || 0;
  overall_unique_users := parseInt row.["overall_actives_ytd"] || 0;
  fx_rate := 1;
  processed_at :=
    match row_processed_at row with
    | Some _ => moment_format (row_processed_at row) YYYY_MM_DD_HH_mm_ss
    | None => ""
    end;
  file_source := row.["file_source"] ||| VStr ""
|}.

Definition convertToDashboardFormat (rows : list raw_row) : list LoanRecord :=
  map convertRow rows.

End Normaliser.

(** ** The statements the server sends

    One constructor per piece of SQL text the handlers assemble; a
    placeholder and the parameter bound to it are kept together. *)

Inductive table := airtel_loan_data | MTN_loan_data.

Inductive condition :=
| DateBetween (start_date end_date : string)
    (* load_date BETWEEN ? AND ? *)
| DateSince (days : float)
    (* load_date >= DATE_SUB(CURDATE(), INTERVAL ? DAY) *)
| LoanTypeLike (pattern : string)
    (* loan_type LIKE ? *)
| TelcoIs (name1 name2 : string).
    (* (telco = 'name1' OR telco = 'name2') *)

Inductive ordering :=
| ByDateThenType   (* ORDER BY load_date DESC, loan_type *)
| ByDate.          (* ORDER BY load_date DESC *)

(** SELECT ... FROM [from] t1 WHERE [conditions] AND t1.processed_at =
    (SELECT MAX(t2.processed_at) FROM [from] t2 WHERE the three key columns
    agree) ORDER BY [order_by] LIMIT [limit]. *)
Record select_loans := {
  from : table;
  conditions : list condition;
  order_by : ordering;
  limit : float
}.

(** SELECT loan_type, COUNT( * ), SUM(...), ... FROM [summary_from] WHERE
    load_date >= DATE_SUB(CURDATE(), INTERVAL [summary_days] DAY)
    GROUP BY loan_type, telco ORDER BY loan_type, telco. *)
Record select_summary := {
  summary_from : table;
  summary_days : float
}.

Inductive statement :=
| SelectLoans (q : select_loans)
| SelectSummary (q : select_summary)
| SelectNpl.

Inductive db_error :=
| ER_PARSE_ERROR
| ER_BAD_FIELD_ERROR
| ER_SP_UNDECLARED_VAR.

Inductive result (A : Type) :=
| Rows (rows : list A)
| Failed (e : db_error).
Arguments Rows {A} rows.
Arguments Failed {A} e.

(** A row of the summary statement and of the NPL statement: the date
    column apart, the other columns by name. *)
Record dated_row := {
  row_date : option Date;
  row_fields : gmap string JS.value
}.

(** What [pool.query] answers. *)
Record pool := {
  query_loans : select_loans -> result raw_row;
  query_summary : select_summary -> result dated_row;
  query_npl : result dated_row
}.

(** ** A stable sort

    [after x y] says that [x] has to come after [y]; elements that are not
    ordered by it keep their relative position. *)

Fixpoint insert_before {A} (after : A -> A -> bool) (x : A) (l : list A) : list A :=
  match l with
  | [] => [x]
  | y :: l' => if after x y then y :: insert_before after x l' else x :: l
  end.

Definition stable_sort {A} (after : A -> A -> bool) (l : list A) : list A :=
  fold_right (insert_before after) [] l.

(** ** MySQL: the meaning of the loan statement *)

Module MySQL.

(** A stored row of a loan table: the columns the statement compares, typed
    and nullable, and the remaining selected columns in the form the driver
    returns them. *)
Record db_row := {
  c_load_date : option datetime;
  c_loan_type : option string;
  c_denom : option Z;
  c_telco : option string;
  c_processed_at : option datetime;
  c_other : gmap string JS.value
}.

(** The tables, the server's current date, and the server's conversion of
    a text to a DATE (NULL for a text it does not take for a date). *)
Record database := {
  rows_of : table -> list db_row;
  curdate : datetime;
  to_date : string -> option datetime
}.

Definition of_string (o : option string) : JS.value :=
  match o with Some s => JS.VStr s | None => JS.VNull end.

Definition of_int (o : option Z) : JS.value :=
  match o with
  | Some z => JS.VNum (JS.decimal_to_float (z <? 0) (Z.abs z) 0)
  | None => JS.VNull
  end.

(** The driver's view of a stored row. *)
Definition fetch (r : db_row) : raw_row := {|
  row_load_date := option_map driver_Date (c_load_date r);
  row_processed_at := option_map driver_Date (c_processed_at r);
  row_columns :=
    <["loan_type" := of_string (c_loan_type r)]>
      (<["denom" := of_int (c_denom r)]>
         (<["telco" := of_string (c_telco r)]> (c_other r)))
|}.

(** The integer a number stands for once written into the statement;
    [None] for NaN, the infinities and fractions. *)
Definition integer_of (f : float) : option Z :=
  match Prim2SF f with
  | S754_zero _ => Some 0
  | S754_finite s m e =>
      let z := if 0 <=? e then Some (Zpos m * 2 ^ e)
               else if Zpos m mod 2 ^ (- e) =? 0 then Some (Zpos m / 2 ^ (- e))
               else None in
      if s then option_map Z.opp z else z
  | _ => None
  end.

(** LIKE with a binary collation: [%] any run, [_] any one character,
    backslash takes the next pattern character literally. *)
Fixpoint like (p : list ascii) : list ascii -> bool :=
  match p with
  | [] => fun s => match s with [] => true | _ => false end
  | c :: p' =>
      if Ascii.eqb c "%" then
        fix star (s : list ascii) : bool :=
          like p' s || match s with [] => false | _ :: s' => star s' end
      else if Ascii.eqb c "_" then
        fun s => match s with [] => false | _ :: s' => like p' s' end
      else
        match p' with
        | e :: p'' =>
            if Ascii.eqb c "\" then
              fun s => match s with [] => false | a :: s' => Ascii.eqb a e && like p'' s' end
            else
              fun s => match s with [] => false | a :: s' => Ascii.eqb a c && like p' s' end
        | [] => fun s => match s with [] => false | a :: s' => Ascii.eqb a c && like p' s' end
        end
  end.

Definition first_day : Z := days_from_civil 0 1 1.
Definition last_day : Z := days_from_civil 9999 12 31.

(** DATE_SUB(CURDATE(), INTERVAL n DAY) as a day number; NULL when the
    result leaves the range of DATE. *)
Definition date_sub (today : datetime) (n : Z) : option Z :=
  let d := day_number today - n in
  if (first_day <=? d) && (d <=? last_day) then Some d else None.

(** A predicate under three-valued logic: [None] is UNKNOWN. *)
Definition holds (db : database) (c : condition) (r : db_row) : option bool :=
  match c with
  | DateBetween s e =>
      match c_load_date r, to_date db s, to_date db e with
      | Some d, Some lo, Some hi =>
          Some ((day_number lo <=? day_number d) && (day_number d <=? day_number hi))
      | _, _, _ => None
      end
  | DateSince n =>
      match c_load_date r, integer_of n with
      | Some d, Some k =>
          match date_sub (curdate db) k with
          | Some d0 => Some (d0 <=? day_number d)
          | None => None
          end
      | _, _ => None
      end
  | LoanTypeLike p =>
      match c_loan_type r with
      | Some s => Some (like (list_ascii_of_string p) (list_ascii_of_string s))
      | None => None
      end
  | TelcoIs a b =>
      match c_telco r with
      | Some t => Some (String.eqb t a || String.eqb t b)
      | None => None
      end
  end.

Definition is_true (o : option bool) : bool :=
  match o with Some true => true | _ => false end.

(** t2.load_date = t1.load_date AND t2.loan_type = t1.loan_type AND
    t2.denom = t1.denom; a NULL on either side makes it UNKNOWN. *)
Definition same_key (t2 t1 : db_row) : bool :=
  match c_load_date t2, c_load_date t1, c_loan_type t2, c_loan_type t1,
        c_denom t2, c_denom t1 with
  | Some d2, Some d1, Some l2, Some l1, Some n2, Some n1 =>
      (day_number d2 =? day_number d1) && String.eqb l2 l1 && (n2 =? n1)
  | _, _, _, _, _, _ => false
  end.

(** MAX(processed_at) over rows, NULL values skipped, NULL for no value. *)
Fixpoint max_processed_at (l : list db_row) : option Z :=
  match l with
  | [] => None
  | r :: l' =>
      match c_processed_at r, max_processed_at l' with
      | Some p, Some m => Some (Z.max (seconds p) m)
      | Some p, None => Some (seconds p)
      | None, m => m
      end
  end.

(** t1.processed_at = (SELECT MAX(t2.processed_at) FROM the same table t2
    WHERE same_key t2 t1). *)
Definition latest_snapshot (tbl : list db_row) (t1 : db_row) : bool :=
  match c_processed_at t1,
        max_processed_at (List.filter (fun t2 => same_key t2 t1) tbl) with
  | Some p, Some m => seconds p =? m
  | _, _ => false
  end.

(** The WHERE clause: every condition is TRUE and the row is the latest
    snapshot of its key. *)
Definition selected (db : database) (q : select_loans) (t1 : db_row) : bool :=
  forallb (fun c => is_true (holds db c t1)) (conditions q)
  && latest_snapshot (rows_of db (from q)) t1.

(** NULL sorts below every value. *)
Definition date_key (r : db_row) : option Z := option_map day_number (c_load_date r).

Definition lt_option {A} (lt : A -> A -> bool) (a b : option A) : bool :=
  match a, b with
  | None, Some _ => true
  | Some x, Some y => lt x y
  | _, None => false
  end.

Definition eq_option {A} (eq : A -> A -> bool) (a b : option A) : bool :=
  match a, b with
  | None, None => true
  | Some x, Some y => eq x y
  | _, _ => false
  end.

(** ORDER BY load_date DESC and, for the general statement, loan_type
    ascending within a date: [x] has to come after [y]. *)
Definition comes_after (o : ordering) (x y : db_row) : bool :=
  lt_option Z.ltb (date_key x) (date_key y) ||
  match o with
  | ByDate => false
  | ByDateThenType =>
      eq_option Z.eqb (date_key x) (date_key y) &&
      lt_option String.ltb (c_loan_type y) (c_loan_type x)
  end.

(** LIMIT takes an unsigned integer literal of at most 64 bits. *)
Definition row_count (f : float) : option nat :=
  match integer_of f with
  | Some z => if (0 <=? z) && (z <? 2 ^ 64) then Some (Z.to_nat z) else None
  | None => None
  end.

(** A number is written into the text as JavaScript prints it: NaN and the
    infinities as the words NaN, Infinity and -Infinity, in which MySQL
    reads a name. *)
Definition printed_as_word (f : float) : bool :=
  match Prim2SF f with
  | S754_nan | S754_infinity _ => true
  | _ => false
  end.

(** In the WHERE clause such a name is a column MySQL does not know. *)
Definition unknown_column (c : condition) : bool :=
  match c with
  | DateSince n => printed_as_word n
  | _ => false
  end.

(** The stored rows a loan statement returns: WHERE, ORDER BY, LIMIT. *)
Definition stored_rows (db : database) (q : select_loans) : list db_row :=
  match row_count (limit q) with
  | Some n =>
      firstn n (stable_sort (comes_after (order_by q))
                  (List.filter (selected db q) (rows_of db (from q))))
  | None => []
  end.

(** The answer of the server to a loan statement. A name after LIMIT is
    taken for a variable of a stored program, and none is declared; any
    other text there that is not a row count does not parse. Both are found
    while the text is parsed, before the columns of the WHERE clause are
    looked up. *)
Definition run (db : database) (q : select_loans) : result raw_row :=
  if printed_as_word (limit q) then Failed ER_SP_UNDECLARED_VAR
  else match row_count (limit q) with
       | None => Failed ER_PARSE_ERROR
       | Some _ =>
           if existsb unknown_column (conditions q) then Failed ER_BAD_FIELD_ERROR
           else Rows (map fetch (stored_rows db q))
       end.

End MySQL.

(** MySQL: the ORDER BY of the NPL statement. The FROM, JOIN and WHERE part
    of that statement (the latest outstanding-balance snapshot joined with
    the recovered-value and unrecovered-percentage tables) yields the joined
    rows; the CASE expression ranks them. *)

Module Npl.

Record joined_row := {
  o_loan_type : option string;
  o_report_date : option datetime;
  selected_columns : gmap string JS.value
}.

(** CASE o.loan_type WHEN '7 Days Loan' THEN 1 ... ELSE 6 END *)
Definition rank (loan_type : option string) : Z :=
  match loan_type with
  | Some s =>
      if String.eqb s "7 Days Loan" then 1
      else if String.eqb s "14 Days Loan" then 2
      else if String.eqb s "21 Days Loan" then 3
      else if String.eqb s "30 Days Loan" then 4
      else if String.eqb s "Grand Total" then 5
      else 6
  | None => 6
  end.

Definition order (rows : list joined_row) : list joined_row :=
  stable_sort (fun x y => rank (o_loan_type y) <? rank (o_loan_type x)) rows.

Definition fetch (r : joined_row) : dated_row := {|
  row_date := option_map driver_Date (o_report_date r);
  row_fields := <["loan_type" := MySQL.of_string (o_loan_type r)]> (selected_columns r)
|}.

Definition run (joined : list joined_row) : result dated_row :=
  Rows (map fetch (order joined)).

End Npl.

(** ** The request handlers *)

(** What a property read on the object literal [loanTypeMap] finds: one of
    its own four entries, or a member inherited from [Object.prototype]. *)
Inductive property :=
| Own (s : string)
| Inherited (name : string).

Definition Object_prototype : list string :=
  [ "constructor"; "__defineGetter__"; "__defineSetter__"; "hasOwnProperty";
    "__lookupGetter__"; "__lookupSetter__"; "isPrototypeOf";
    "propertyIsEnumerable"; "toString"; "valueOf"; "__proto__";
    "toLocaleString" ].

Definition loanTypeMap (key : string) : option property :=
  if String.eqb key "7" then Some (Own "Nano 7D")
  else if String.eqb key "14" then Some (Own "Nano 14D")
  else if String.eqb key "21" then Some (Own "Nano 21D")
  else if String.eqb key "30" then Some (Own "Nano 30D")
  else if existsb (String.eqb key) Object_prototype then Some (Inherited key)
  else None.

(** The text a template literal gives for the value found. *)
Definition template_text (v : property) : string :=
  match v with
  | Own s => s
  | Inherited name =>
      if String.eqb name "__proto__" then "[object Object]"
      else "function "
           ++ (if String.eqb name "constructor" then "Object" else name)
           ++ "() { [native code] }"
  end.

Inductive body :=
| Error (error : string) (details : option db_error)
| LoanData (data : list LoanRecord) (count : nat)
    (filter_loan_type : option string) (filter_telco : string) (filter_days : float)
    (filter_start_date filter_end_date : option string)
| LoanTypeData (data : list LoanRecord) (loan_type : property) (count : nat)
    (filter_telco : string) (filter_days : float)
    (filter_start_date filter_end_date : option string)
| Summary (summary : list (gmap string JS.value)) (filter_telco : string)
    (filter_days : float)
| NplData (npl_data : list (gmap string JS.value))
| Thrown (error : string) (message : string).

Record response := { status : Z; json : body }.

(** What a handler did: the statements it sent, in order, and its answer. *)
Definition handled := (list statement * response)%type.

Definition truthy_param (o : option string) : bool :=
  match o with
  | Some s => JS.truthy_str s
  | None => false
  end.

(** [new Date(b.date) - new Date(a.date)]; [None] is NaN. *)
Definition by_date_desc (a b : LoanRecord) : option Z :=
  match Date_value (date b), Date_value (date a) with
  | Some tb, Some ta => Some (tb - ta)
  | _, _ => None
  end.

(** [Array.prototype.sort] with a comparator: stable, and a NaN result
    counts as zero. For a comparator that orders the elements consistently,
    as [by_date_desc] does on records whose dates are all readable, every
    stable sort gives this result. With an unreadable date among them the
    comparator is not consistent and the order the engine leaves the records
    in depends on its algorithm; then only what holds of every
    rearrangement is to be read off this definition. *)
Definition Array_sort {A} (cmp : A -> A -> option Z) (l : list A) : list A :=
  stable_sort (fun x y => match cmp x y with Some v => 0 <? v | None => false end) l.

(** The [for (const table of tables)] loop of the two loan handlers: one
    statement per table, awaited in turn, the converted rows appended to
    [allResults]; a failed statement throws out of the loop. *)
Fixpoint query_tables (p : pool) (statements : list select_loans)
    : list statement * result LoanRecord :=
  match statements with
  | [] => ([], Rows [])
  | q :: rest =>
      match query_loans p q with
      | Failed e => ([SelectLoans q], Failed e)
      | Rows rows =>
          let '(sent, r) := query_tables p rest in
          (SelectLoans q :: sent,
           match r with
           | Rows allResults => Rows (convertToDashboardFormat rows ++ allResults)
           | Failed e => Failed e
           end)
      end
  end.

Section Handlers.
Import JS.
Variable p : pool.
Variable query : gmap string string.

(** GET /api/loan-data *)
Definition loan_data : handled :=
  let loan_type := query !! "loan_type" in
  let telco := default "both" (query !! "telco") in
  let days := default "7" (query !! "days") in
  let start_date := query !! "start_date" in
  let end_date := query !! "end_date" in
  let limit := default "1000" (query !! "limit") in
  let tables :=
    if String.eqb (toLowerCase telco) "airtel" then [airtel_loan_data]
    else if String.eqb (toLowerCase telco) "mtn" then [MTN_loan_data]
    else if String.eqb (toLowerCase telco) "both" then [airtel_loan_data; MTN_loan_data]
    else [] in
  if (length tables =? 0)%nat then
    ([], {| status := 400; json := Error "Invalid telco parameter" None |})
  else
    let whereConditions :=
      ((if truthy_param start_date && truthy_param end_date
        then [DateBetween (default "" start_date) (default "" end_date)]
        else [DateSince (or_num (parseInt (VStr days)) 7)])
       ++ (if truthy_param loan_type
           then [LoanTypeLike ("%" ++ default "" loan_type ++ "%")]
           else [])
       ++ (if String.eqb (toLowerCase telco) "airtel" then [TelcoIs "Airtel" "airtel"]
           else if String.eqb (toLowerCase telco) "mtn" then [TelcoIs "MTN" "mtn"]
           else []))%list in
    let statements :=
      map (fun table => {| from := table; conditions := whereConditions;
                           order_by := ByDateThenType;
                           limit := parseInt (VStr limit) |}) tables in
    match query_tables p statements with
    | (sent, Rows allResults) =>
        let allResults := Array_sort by_date_desc allResults in
        (sent, {| status := 200;
                  json := LoanData allResults (length allResults) loan_type telco
                            (parseInt (VStr days)) start_date end_date |})
    | (sent, Failed e) =>
        (sent, {| status := 500; json := Error "Database query failed" (Some e) |})
    end.

(** GET /api/loan-data/:loanType *)
Definition loan_data_by_type (loanType : string) : handled :=
  let telco := default "both" (query !! "telco") in
  let days := default "7" (query !! "days") in
  let start_date := query !! "start_date" in
  let end_date := query !! "end_date" in
  let limit := default "500" (query !! "limit") in
  match loanTypeMap loanType with
  | None => ([], {| status := 400; json := Error "Invalid loan type" None |})
  | Some dbLoanType =>
      let tables :=
        if String.eqb (toLowerCase telco) "airtel" then [airtel_loan_data]
        else if String.eqb (toLowerCase telco) "mtn" then [MTN_loan_data]
        else if String.eqb (toLowerCase telco) "both" then [airtel_loan_data; MTN_loan_data]
        else [] in
      let whereConditions :=
        ([LoanTypeLike ("%" ++ template_text dbLoanType ++ "%")]
         ++ (if truthy_param start_date && truthy_param end_date
             then [DateBetween (default "" start_date) (default "" end_date)]
             else [DateSince (or_num (parseInt (VStr days)) 7)])
         ++ (if String.eqb (toLowerCase telco) "airtel" then [TelcoIs "Airtel" "airtel"]
             else if String.eqb (toLowerCase telco) "mtn" then [TelcoIs "MTN" "mtn"]
             else []))%list in
      let statements :=
        map (fun table => {| from := table; conditions := whereConditions;
                             order_by := ByDate;
                             limit := parseInt (VStr limit) |}) tables in
      match query_tables p statements with
      | (sent, Rows allResults) =>
          let allResults := Array_sort by_date_desc allResults in
          (sent, {| status := 200;
                    json := LoanTypeData allResults dbLoanType (length allResults) telco
                              (parseInt (VStr days)) start_date end_date |})
      | (sent, Failed e) =>
          (sent, {| status := 500; json := Error "Database query failed" (Some e) |})
      end
  end.

(** The [rows.map] callback of the summary handler: the row spread, then
    the overridden properties. *)
Definition formatSummary (row : dated_row) : gmap string value :=
  let field name := default VUndefined (row_fields row !! name) in
  <["avg_qualified_base" := VNum (or_num (parseFloat (field "avg_qualified_base")) 0)]>
  (<["total_late_fees_recovered" :=
       VNum (or_num (parseFloat (field "total_late_fees_recovered")) 0)]>
  (<["total_service_fee_recovered" :=
       VNum (or_num (parseFloat (field "total_service_fee_recovered")) 0)]>
  (<["total_principal_recovered" :=
       VNum (or_num (parseFloat (field "total_principal_recovered")) 0)]>
  (<["total_gross_lent" := VNum (or_num (parseFloat (field "total_gross_lent")) 0)]>
  (<["latest_date" := VStr (moment_format (row_date row) YYYY_MM_DD)]>
     (row_fields row)))))).

Fixpoint query_summaries (statements : list select_summary)
    : list statement * result (gmap string value) :=
  match statements with
  | [] => ([], Rows [])
  | q :: rest =>
      match query_summary p q with
      | Failed e => ([SelectSummary q], Failed e)
      | Rows rows =>
          let '(sent, r) := query_summaries rest in
          (SelectSummary q :: sent,
           match r with
           | Rows allSummaries => Rows (map formatSummary rows ++ allSummaries)
           | Failed e => Failed e
           end)
      end
  end.

(** The handler registered for GET /api/loan-data/summary *)
Definition loan_data_summary : handled :=
  let telco := default "both" (query !! "telco") in
  let days := default "30" (query !! "days") in
  let tables :=
    ((if String.eqb (toLowerCase telco) "airtel" || String.eqb (toLowerCase telco) "both"
      then [airtel_loan_data] else [])
     ++ (if String.eqb (toLowerCase telco) "mtn" || String.eqb (toLowerCase telco) "both"
         then [MTN_loan_data] else []))%list in
  let statements :=
    map (fun table => {| summary_from := table;
                         summary_days := parseInt (VStr days) |}) tables in
  match query_summaries statements with
  | (sent, Rows allSummaries) =>
      (sent, {| status := 200;
                json := Summary allSummaries telco (parseInt (VStr days)) |})
  | (sent, Failed e) =>
      (sent, {| status := 500; json := Error "Summary query failed" (Some e) |})
  end.

(** The [rows.map] callback of the NPL handler. *)
Definition formatNpl (row : dated_row) : gmap string value :=
  let field name := default VUndefined (row_fields row !! name) in
  let number name := VNum (or_num (parseFloat (field name)) 0) in
  <["arrears_percentage" := number "arrears_percentage"]>
  (<["unrecovered_percentage_net" := number "unrecovered_percentage_net"]>
  (<["net_recovered_value" := number "net_recovered_value"]>
  (<["arrears_181_plus_days" := number "arrears_181_plus_days"]>
  (<["arrears_151_180_days" := number "arrears_151_180_days"]>
  (<["arrears_121_150_days" := number "arrears_121_150_days"]>
  (<["arrears_91_120_days" := number "arrears_91_120_days"]>
  (<["arrears_61_90_days" := number "arrears_61_90_days"]>
  (<["arrears_31_60_days" := number "arrears_31_60_days"]>
  (<["arrears_30_days" := number "arrears_30_days"]>
  (<["within_tenure" := number "within_tenure"]>
  (<["total_balance" := number "total_balance"]>
  (<["report_date" := VStr (moment_format (row_date row) YYYY_MM_DD)]>
     (row_fields row))))))))))))).

(** GET /api/npl-data (the [timestamp] of the answer is the wall clock and
    is left out). *)
Definition npl_data : handled :=
  match query_npl p with
  | Rows rows => ([SelectNpl], {| status := 200; json := NplData (map formatNpl rows) |})
  | Failed e =>
      ([SelectNpl], {| status := 500; json := Error "NPL query failed" (Some e) |})
  end.

End Handlers.

(** ** A [telco] that is not a text

    [req.query] holds a text for a parameter given once, and an array or an
    object for a repeated or bracketed one ([telco=a&telco=b],
    [telco[x]=a]). The first thing each of the three handlers does with the
    query is [telco.toLowerCase()], which is not a function on an array or
    object: the TypeError is caught and answered with status 500 and its
    message as [details], before any statement is sent. The other
    parameters are single texts. *)

Inductive parameter :=
| Text (s : string)
| Composite.

Definition not_a_function : string := "telco.toLowerCase is not a function".

Definition thrown (error : string) : handled :=
  ([], {| status := 500; json := Thrown error not_a_function |}).

(** The query with [telco] as a text or absent; [None] when it is neither. *)
Definition with_telco (telco : option parameter) (query : gmap string string)
    : option (gmap string string) :=
  match telco with
  | Some Composite => None
  | Some (Text t) => Some (<["telco" := t]> query)
  | None => Some (delete "telco" query)
  end.

(** GET /api/loan-data *)
Definition get_loan_data (p : pool) (telco : option parameter)
    (query : gmap string string) : handled :=
  match with_telco telco query with
  | Some q => loan_data p q
  | None => thrown "Database query failed"
  end.

(** GET /api/loan-data/:loanType: the loan type is looked up first. *)
Definition get_loan_data_by_type (p : pool) (telco : option parameter)
    (query : gmap string string) (loanType : string) : handled :=
  match loanTypeMap loanType with
  | None => ([], {| status := 400; json := Error "Invalid loan type" None |})
  | Some _ =>
      match with_telco telco query with
      | Some q => loan_data_by_type p q loanType
      | None => thrown "Database query failed"
      end
  end.

(** The handler registered for GET /api/loan-data/summary *)
Definition get_loan_data_summary (p : pool) (telco : option parameter)
    (query : gmap string string) : handled :=
  match with_telco telco query with
  | Some q => loan_data_summary p q
  | None => thrown "Summary query failed"
  end.

(** ** Routing

    [app.get] appends to the router's stack; a request is given to the
    first route whose path matches, and none of the handlers passes it on. *)

Inductive endpoint :=
| Health | LoanData_ | LoanDataByType | LoanDataSummary | NplData_ | Status
| TestTableStructure | TestSimpleQuery | TestNplTables | TestApiOutput.

Inductive segment :=
| Literal (s : string)
| Named (name : string).

(** The routes in the order of their [app.get] calls. *)
Definition routes : list (list segment * endpoint) :=
  [ ([Literal "api"; Literal "health"], Health);
    ([Literal "api"; Literal "loan-data"], LoanData_);
    ([Literal "api"; Literal "loan-data"; Named "loanType"], LoanDataByType);
    ([Literal "api"; Literal "loan-data"; Literal "summary"], LoanDataSummary);
    ([Literal "api"; Literal "npl-data"], NplData_);
    ([Literal "api"; Literal "status"], Status);
    ([Literal "api"; Literal "test-table-structure"], TestTableStructure);
    ([Literal "api"; Literal "test-simple-query"], TestSimpleQuery);
    ([Literal "api"; Literal "test-npl-tables"], TestNplTables);
    ([Literal "api"; Literal "test-api-output"], TestApiOutput) ].

Fixpoint split_path (s : string) (current : string) : list string :=
  match s with
  | EmptyString => [current]
  | String c s' =>
      if Ascii.eqb c "/" then current :: split_path s' ""
      else split_path s' (current ++ String c "")
  end.

(** The segments after the leading slash; one trailing slash is allowed. *)
Definition path_segments (path : string) : option (list string) :=
  match split_path path "" with
  | "" :: segs =>
      Some match rev segs with
           | "" :: init => rev init
           | _ => segs
           end
  | _ => None
  end.

(** Literal segments match without regard to case; a parameter takes one
    non-empty segment. *)
Fixpoint match_route (pattern : list segment) (segs : list string)
    : option (list (string * string)) :=
  match pattern, segs with
  | [], [] => Some []
  | Literal l :: pattern', s :: segs' =>
      if String.eqb (JS.toLowerCase l) (JS.toLowerCase s) then match_route pattern' segs'
      else None
  | Named name :: pattern', s :: segs' =>
      if String.eqb s "" then None
      else option_map (cons (name, s)) (match_route pattern' segs')
  | _, _ => None
  end.

Fixpoint first_match (rs : list (list segment * endpoint)) (segs : list string)
    : option (endpoint * list (string * string)) :=
  match rs with
  | [] => None
  | (pattern, e) :: rs' =>
      match match_route pattern segs with
      | Some params => Some (e, params)
      | None => first_match rs' segs
      end
  end.

Definition dispatch (path : string) : option (endpoint * list (string * string)) :=
  match path_segments path with
  | Some segs => first_match routes segs
  | None => None
  end.

Inductive outcome :=
| Served (r : handled)
| Unmodelled (e : endpoint)
| NotFound.

Definition param (params : list (string * string)) (name : string) : string :=
  match List.find (fun kv => String.eqb (fst kv) name) params with
  | Some kv => snd kv
  | None => ""
  end.

(** A GET request to the application. *)
Definition app (p : pool) (path : string) (query : gmap string string) : outcome :=
  match dispatch path with
  | Some (LoanData_, _) => Served (loan_data p query)
  | Some (LoanDataByType, params) =>
      Served (loan_data_by_type p query (param params "loanType"))
  | Some (LoanDataSummary, _) => Served (loan_data_summary p query)
  | Some (NplData_, _) => Served (npl_data p)
  | Some (e, _) => Unmodelled e
  | None => NotFound
  end.

(** ** Vocabulary of the statements *)

Section Vocabulary.
Import JS.

(** The amount a source value counts for: its leading number, and 0 when
    there is none (or when that number is itself zero). *)
Definition amount (v : value) : float := or_num (parseFloat v) 0.

(** A source value in which [parse] finds no number: [null], a missing
    column, or a value whose text does not start with one. *)
Definition unreadable (parse : value -> float) (v : value) : Prop :=
  v = VNull \/ v = VUndefined \/ is_nan (parse v) = true.

(** Null or non-numeric, for a fractional field. *)
Definition non_numeric (v : value) : Prop := unreadable parseFloat v.




(** A row with one more (or one overwritten) column. *)
Definition with_column (name : string) (v : value) (row : raw_row) : raw_row :=
  {| row_load_date := row_load_date row;
     row_processed_at := row_processed_at row;
     row_columns := <[name := v]> (row_columns row) |}.

(** Sample rows. *)
Definition date_of (y m d : Z) : datetime :=
  {| year := y; month := m; day := d; hour := 0; minute := 0; second := 0 |}.

(** A date (and time of day) of the range MySQL supports for a DATE or
    DATETIME column, 1000-01-01 to 9999-12-31. *)
Definition supported_date (d : datetime) : bool :=
  valid_date d && valid_time d && (1000 <=? year d).

Definition at_time (d : datetime) (h mi s : Z) : datetime :=
  {| year := year d; month := month d; day := day d;
     hour := h; minute := mi; second := s |}.

(** A row with recovered principal and a recovered daily fee; the late fee
    is not a number and the setup fee is null. *)
Definition partly_recovered_row : raw_row :=
  {| row_load_date := Some (Date_at (date_of 2025 8 6));
     row_processed_at := Some (Date_at (at_time (date_of 2025 8 7) 3 4 5));
     row_columns :=
       {[ "telco" := VStr "Airtel"; "loan_type" := VStr "Nano 7D";
          "denom" := VNum 10; "country" := VNull;
          "gross_lent" := VStr "288920.22"; "sfee_lent" := VStr "47019.22";
          "principal_recovered" := VStr "100.5";
          "late_fees_recovered" := VStr "abc";
          "setup_fees_recovered" := VNull;
          "daily_fees_recovered" := VStr "1.25" ]} |}.

(** A row whose service fee exceeds the gross amount lent. *)
Definition fee_above_gross_row : raw_row :=
  {| row_load_date := Some (Date_at (date_of 2025 8 6));
     row_processed_at := None;
     row_columns := {[ "gross_lent" := VStr "10"; "sfee_lent" := VStr "25" ]} |}.

(** A row without any column. *)
Definition empty_row : raw_row :=
  {| row_load_date := None; row_processed_at := None; row_columns := ∅ |}.

(** [a] does not come before a later record: both dates are read by the
    comparator and the date of [b] is not after that of [a]. *)
Definition date_descending (a b : LoanRecord) : Prop :=
  exists ta tb,
    Date_value (date a) = Some ta /\ Date_value (date b) = Some tb /\ tb <= ta.

(** The records an answer carries. *)
Definition records (r : response) : list LoanRecord :=
  match json r with
  | LoanData data _ _ _ _ _ _ => data
  | LoanTypeData data _ _ _ _ _ _ => data
  | _ => []
  end.

(** A loan statement filtered by the trailing window of [days] days and by
    no explicit date range. *)
Definition uses_window (days : float) (s : statement) : Prop :=
  match s with
  | SelectLoans q =>
      In (DateSince days) (conditions q)
      /\ forall a b, ~ In (DateBetween a b) (conditions q)
  | _ => False
  end.

(** A sample database: in the Airtel table two runs of the same
    (load_date, loan_type, denom) key, a row of another loan type and a row
    without denomination; three MTN rows, one of them a month old. *)
Definition stored (d : datetime) (type : string) (den : option Z) (operator : string)
    (run_at : datetime) (gross : string) : MySQL.db_row :=
  {| MySQL.c_load_date := Some d; MySQL.c_loan_type := Some type;
     MySQL.c_denom := den; MySQL.c_telco := Some operator;
     MySQL.c_processed_at := Some run_at;
     MySQL.c_other := {[ "gross_lent" := VStr gross ]} |}.

Definition first_run : MySQL.db_row :=
  stored (date_of 2025 8 5) "Nano 7D" (Some 10) "Airtel"
    (at_time (date_of 2025 8 6) 1 0 0) "1".

Definition second_run : MySQL.db_row :=
  stored (date_of 2025 8 5) "Nano 7D" (Some 10) "Airtel"
    (at_time (date_of 2025 8 6) 2 0 0) "2".

Definition sample_db : MySQL.database :=
  {| MySQL.rows_of := fun t =>
       match t with
       | airtel_loan_data =>
           [ first_run; second_run;
             stored (date_of 2025 8 6) "Nano 14D" (Some 10) "Airtel"
               (at_time (date_of 2025 8 6) 2 0 0) "3";
             stored (date_of 2025 8 6) "Nano 14D" None "Airtel"
               (at_time (date_of 2025 8 6) 2 0 0) "4" ]
       | MTN_loan_data =>
           [ stored (date_of 2025 8 7) "Nano 7D" (Some 10) "MTN"
               (at_time (date_of 2025 8 8) 1 0 0) "5";
             stored (date_of 2025 8 4) "Nano 7D" (Some 10) "MTN"
               (at_time (date_of 2025 8 8) 1 0 0) "6";
             stored (date_of 2025 7 4) "Nano 7D" (Some 10) "MTN"
               (at_time (date_of 2025 8 8) 1 0 0) "7" ]
       end;
     MySQL.curdate := date_of 2025 8 8;
     MySQL.to_date := parse_ymd |}.

Definition sample_pool : pool :=
  {| query_loans := MySQL.run sample_db;
     query_summary := fun _ => Rows [];
     query_npl := Npl.run [] |}.

(** The general loan statement with default parameters. *)
Definition default_select (t : table) : select_loans :=
  {| from := t; conditions := [DateSince 7]; order_by := ByDateThenType;
     limit := 1000 |}.

(** Sample queries. *)
Definition only_start_date : gmap string string := {[ "start_date" := "2025-08-04" ]}.
Definition unknown_telco : gmap string string := {[ "telco" := "vodafone" ]}.
Definition limit_of_one : gmap string string := {[ "limit" := "1" ]}.


(** Sample joined NPL rows, out of order, with one category of their own. *)
Definition npl_row (category : string) (balance : string) : Npl.joined_row :=
  {| Npl.o_loan_type := Some category;
     Npl.o_report_date := Some (date_of 2025 8 6);
     Npl.selected_columns := {[ "total_balance" := VStr balance ]} |}.



End Vocabulary.

(** ** The status handler *)

Module Status.

(** The one row of SELECT MAX(load_date) as latest_date, COUNT( * ) as
    total_records, '...' as telco FROM a loan table. *)
Record aggregate := {
  latest_date : option Date;
  total_records : Z
}.

(** What goes wrong: a statement fails, or a result without a first row is
    read (a TypeError). *)
Inductive failure :=
| QueryFailed (e : db_error)
| NoFirstRow.

Record table_status := {
  shown_latest_date : option string;
  shown_total_records : Z
}.

Inductive body :=
| Active (airtel mtn : table_status)
| StatusFailed (details : failure).

Definition shown (row : aggregate) : table_status :=
  {| shown_latest_date :=
       match latest_date row with
       | Some _ => Some (moment_format (latest_date row) YYYY_MM_DD)
       | None => None
       end;
     shown_total_records := total_records row |}.

(** GET /api/status: the tables queried, in order, the status code and the
    answer (its [timestamp] is the wall clock and is left out). *)
Definition handler (query : table -> result aggregate) : list table * (Z * body) :=
  match query airtel_loan_data with
  | Failed e => ([airtel_loan_data], (500, StatusFailed (QueryFailed e)))
  | Rows airtelResult =>
      match query MTN_loan_data with
      | Failed e =>
          ([airtel_loan_data; MTN_loan_data], (500, StatusFailed (QueryFailed e)))
      | Rows mtnResult =>
          ([airtel_loan_data; MTN_loan_data],
           match airtelResult, mtnResult with
           | a :: _, m :: _ => (200, Active (shown a) (shown m))
           | _, _ => (500, StatusFailed NoFirstRow)
           end)
      end
  end.

(** MAX(load_date): NULL values are skipped, NULL for no value. *)
Fixpoint max_load_date (l : list MySQL.db_row) : option datetime :=
  match l with
  | [] => None
  | r :: l' =>
      match MySQL.c_load_date r, max_load_date l' with
      | Some d, Some m => Some (if day_number d <? day_number m then m else d)
      | Some d, None => Some d
      | None, m => m
      end
  end.

(** The answer of the server to the status statement of a table. *)
Definition run (db : MySQL.database) (t : table) : result aggregate :=
  Rows [ {| latest_date :=
              option_map driver_Date (max_load_date (MySQL.rows_of db t));
            total_records := Z.of_nat (length (MySQL.rows_of db t)) |} ].

End Status.

(** ** Further vocabulary *)

Section MoreVocabulary.
Import JS.

(** The columns [convertRow] reads by name. *)
Definition read_columns : list string :=
  [ "telco"; "country"; "loan_type"; "denom"; "qualified_base";
    "overall_actives_daily"; "overall_actives_wtd"; "overall_actives_mtd";
    "overall_actives_ytd"; "lending_txns"; "gross_lent"; "sfee_lent";
    "late_fees_charged"; "setup_fees_charged"; "interest_fees_charged";
    "daily_fees_charged"; "recovery_txns"; "principal_recovered";
    "sfee_recovered"; "late_fees_recovered"; "setup_fees_recovered";
    "interest_fees_recovered"; "daily_fees_recovered"; "file_source" ].

(** The record's date is read by the comparator as the time value [t]. *)
Definition dated (t : Z) (x : LoanRecord) : bool :=
  match Date_value (date x) with
  | Some t' => t' =? t
  | None => false
  end.

(** The characters LIKE gives a meaning of their own. *)
Definition plain (c : ascii) : bool :=
  negb (Ascii.eqb c "%" || Ascii.eqb c "_" || Ascii.eqb c "\").

(** A query with one parameter set. *)
Definition with_param (name value : string) (query : gmap string string)
    : gmap string string :=
  <[name := value]> query.

(** The statement succeeded on the pool. *)
Definition succeeds (p : pool) (q : select_loans) : Prop :=
  exists rows, query_loans p q = Rows rows.

(** The records of the rows the pool answers to a statement. *)
Definition converted (p : pool) (q : select_loans) : list LoanRecord :=
  match query_loans p q with
  | Rows rows => convertToDashboardFormat rows
  | Failed _ => []
  end.

(** The records of all the loan statements of a list. *)
Definition converted_all (p : pool) (sent : list statement) : list LoanRecord :=
  flat_map (fun s => match s with
                     | SelectLoans q => converted p q
                     | _ => []
                     end) sent.

(** The [count] an answer carries. *)
Definition count_of (r : response) : option nat :=
  match json r with
  | LoanData _ count _ _ _ _ _ => Some count
  | LoanTypeData _ _ count _ _ _ _ => Some count
  | _ => None
  end.

Definition succeeded (p : pool) (s : statement) : Prop :=
  exists q, s = SelectLoans q /\ succeeds p q.

(** What a loan handler did is all or nothing: it answers 200, 400 or 500;
    with 200 every statement sent succeeded and the records are those of
    all the statements, rearranged, and counted by [count]; with 400
    nothing was sent; with 500 the last statement sent failed, the ones
    before it succeeded, and the answer carries the error of the driver and
    no record. *)
Definition all_or_nothing (p : pool) (h : handled) : Prop :=
  (status (snd h) = 200 \/ status (snd h) = 400 \/ status (snd h) = 500)
  /\ (status (snd h) = 200 ->
       Forall (succeeded p) (fst h)
       /\ Permutation (records (snd h)) (converted_all p (fst h))
       /\ count_of (snd h) = Some (length (records (snd h))))
  /\ (status (snd h) = 400 -> fst h = [] /\ records (snd h) = [])
  /\ (status (snd h) = 500 ->
       exists before q e,
         fst h = (before ++ [SelectLoans q])%list
         /\ Forall (succeeded p) before
         /\ query_loans p q = Failed e
         /\ json (snd h) = Error "Database query failed" (Some e)).

(** A loan statement filtered by the date range from [s] to [e] and by no
    trailing window. *)
Definition uses_range (s e : string) (st : statement) : Prop :=
  match st with
  | SelectLoans q =>
      In (DateBetween s e) (conditions q)
      /\ forall k, ~ In (DateSince k) (conditions q)
  | _ => False
  end.

(** A loan statement that carries the condition [c]. *)
Definition carries (c : condition) (st : statement) : Prop :=
  match st with
  | SelectLoans q => In c (conditions q)
  | _ => False
  end.

(** A loan statement on the table [t]. *)
Definition reads_table (t : table) (st : statement) : Prop :=
  match st with
  | SelectLoans q => from q = t
  | _ => False
  end.

(** The parts the two loan handlers make their statements of: the tables
    of an operator filter, the date condition, the loan-type condition of
    the general handler and the operator condition. *)
Definition tables_of (telco : string) : list table :=
  if String.eqb (toLowerCase telco) "airtel" then [airtel_loan_data]
  else if String.eqb (toLowerCase telco) "mtn" then [MTN_loan_data]
  else if String.eqb (toLowerCase telco) "both" then [airtel_loan_data; MTN_loan_data]
  else [].

Definition date_conditions (query : gmap string string) : list condition :=
  if truthy_param (query !! "start_date") && truthy_param (query !! "end_date")
  then [DateBetween (default "" (query !! "start_date")) (default "" (query !! "end_date"))]
  else [DateSince (or_num (parseInt (VStr (default "7" (query !! "days")))) 7)].

Definition type_conditions (query : gmap string string) : list condition :=
  if truthy_param (query !! "loan_type")
  then [LoanTypeLike ("%" ++ default "" (query !! "loan_type") ++ "%")]
  else [].

Definition telco_conditions (telco : string) : list condition :=
  if String.eqb (toLowerCase telco) "airtel" then [TelcoIs "Airtel" "airtel"]
  else if String.eqb (toLowerCase telco) "mtn" then [TelcoIs "MTN" "mtn"]
  else [].

(** The statement of the general handler for a table. *)
Definition general_statement (query : gmap string string) (t : table) : select_loans :=
  {| from := t;
     conditions := (date_conditions query ++ type_conditions query
                    ++ telco_conditions (default "both" (query !! "telco")))%list;
     order_by := ByDateThenType;
     limit := parseInt (VStr (default "1000" (query !! "limit"))) |}.

(** The statement of the per-type handler for a table. *)
Definition typed_statement (query : gmap string string) (dbLoanType : property)
    (t : table) : select_loans :=
  {| from := t;
     conditions := ([LoanTypeLike ("%" ++ template_text dbLoanType ++ "%")]
                    ++ date_conditions query
                    ++ telco_conditions (default "both" (query !! "telco")))%list;
     order_by := ByDate;
     limit := parseInt (VStr (default "500" (query !! "limit"))) |}.

(** The operator of a record is one of two texts. *)
Definition operator_is (a b : string) (x : LoanRecord) : Prop :=
  telco x = VStr a \/ telco x = VStr b.

(** The loan type of a record contains the text [v]. *)
Definition type_contains (v : string) (x : LoanRecord) : Prop :=
  exists a b, loan_type x = VStr (a ++ v ++ b).

(** Two answers agree on what was sent, the status and the records. *)
Definition same_outcome (h1 h2 : handled) : Prop :=
  fst h1 = fst h2
  /\ status (snd h1) = status (snd h2)
  /\ records (snd h1) = records (snd h2).

(** The keys of [loanTypeMap]. *)
Definition loan_type_keys : list string := ["7"; "14"; "21"; "30"].

(** The properties the [rows.map] callbacks of the NPL and the summary
    handler overwrite with a number. *)
Definition npl_numbers : list string :=
  [ "total_balance"; "within_tenure"; "arrears_30_days"; "arrears_31_60_days";
    "arrears_61_90_days"; "arrears_91_120_days"; "arrears_121_150_days";
    "arrears_151_180_days"; "arrears_181_plus_days"; "net_recovered_value";
    "unrecovered_percentage_net"; "arrears_percentage" ].

Definition summary_numbers : list string :=
  [ "total_gross_lent"; "total_principal_recovered"; "total_service_fee_recovered";
    "total_late_fees_recovered"; "avg_qualified_base" ].

(** A formatted row holds, under [name], a number other than NaN, which is
    0 when the row's own value is null, missing or non-numeric. *)
Definition holds_number (formatted fields : gmap string value) (name : string) : Prop :=
  exists f, formatted !! name = Some (VNum f)
            /\ is_nan f = false
            /\ (non_numeric (default VUndefined (fields !! name)) -> f = 0%float).

(** A character a path segment can hold as it is: not the separator, not
    the start of a percent escape, and not the start of the query string or
    of the fragment. *)
Definition segment_char (c : ascii) : bool :=
  negb (Ascii.eqb c "/" || Ascii.eqb c "%" || Ascii.eqb c "?" || Ascii.eqb c "#").

Definition is_summary (e : endpoint) : bool :=
  match e with
  | LoanDataSummary => true
  | _ => false
  end.

(** What the status answer shows as the latest date of a table: nothing
    when no row has a load date, and otherwise the date of a row that no
    other row's date exceeds. *)
Definition latest_of (rows : list MySQL.db_row) (shown : option string) : Prop :=
  match shown with
  | None => forall r, In r rows -> MySQL.c_load_date r = None
  | Some s =>
      exists r d,
        In r rows /\ MySQL.c_load_date r = Some d
        /\ s = moment_format (Some (driver_Date d)) YYYY_MM_DD
        /\ forall r' d', In r' rows -> MySQL.c_load_date r' = Some d' ->
                         day_number d' <= day_number d
  end.

(** A row whose amounts are infinite. *)
Definition unbounded_row : raw_row :=
  {| row_load_date := Some (Date_at (date_of 2025 8 6));
     row_processed_at := None;
     row_columns :=
       {[ "gross_lent" := VStr "Infinity"; "sfee_lent" := VStr "Infinity";
          "principal_recovered" := VStr "Infinity";
          "sfee_recovered" := VStr "-Infinity" ]} |}.

(** The zero date of MySQL, 0000-00-00 00:00:00, and a stored row whose
    processing timestamp is the zero date. *)
Definition zero_date : datetime :=
  {| year := 0; month := 0; day := 0; hour := 0; minute := 0; second := 0 |}.

Definition zero_stamped : MySQL.db_row :=
  stored (date_of 2025 8 5) "Nano 7D" (Some 10) "Airtel" zero_date "9".

(** A table stored in no particular order, with two loan types on each of
    two dates. *)
Definition unordered_db : MySQL.database :=
  let run_at := at_time (date_of 2025 8 7) 1 0 0 in
  {| MySQL.rows_of := fun t =>
       match t with
       | airtel_loan_data =>
           [ stored (date_of 2025 8 5) "Nano 7D" (Some 10) "Airtel" run_at "1";
             stored (date_of 2025 8 6) "Nano 7D" (Some 10) "Airtel" run_at "2";
             stored (date_of 2025 8 6) "Nano 14D" (Some 10) "Airtel" run_at "3";
             stored (date_of 2025 8 5) "Nano 14D" (Some 10) "Airtel" run_at "4" ]
       | MTN_loan_data => []
       end;
     MySQL.curdate := date_of 2025 8 8;
     MySQL.to_date := parse_ymd |}.

(** Two stored rows have the same key: in neither of them load_date,
    loan_type or denom is NULL, and they have the same load_date (the same
    day), the same loan_type and the same denom. *)
Definition share_key (a b : MySQL.db_row) : Prop :=
  exists da db l n,
    MySQL.c_load_date a = Some da /\ MySQL.c_load_date b = Some db
    /\ day_number da = day_number db
    /\ MySQL.c_loan_type a = Some l /\ MySQL.c_loan_type b = Some l
    /\ MySQL.c_denom a = Some n /\ MySQL.c_denom b = Some n.

(** A table in which the key of [first_run] and [second_run] is not the
    only one: there are a row of another loan type and a row of another
    denom, both processed before the two, and a row of another date,
    processed after them. *)
Definition other_type : MySQL.db_row :=
  stored (date_of 2025 8 5) "Nano 14D" (Some 10) "Airtel"
    (at_time (date_of 2025 8 6) 0 30 0) "7".

Definition other_denom : MySQL.db_row :=
  stored (date_of 2025 8 5) "Nano 7D" (Some 20) "Airtel"
    (at_time (date_of 2025 8 6) 0 10 0) "8".

Definition other_date : MySQL.db_row :=
  stored (date_of 2025 8 6) "Nano 7D" (Some 10) "Airtel"
    (at_time (date_of 2025 8 7) 5 0 0) "9".

Definition keyed_db : MySQL.database :=
  {| MySQL.rows_of := fun t =>
       match t with
       | airtel_loan_data =>
           [first_run; other_type; second_run; other_denom; other_date]
       | MTN_loan_data => []
       end;
     MySQL.curdate := date_of 2025 8 8;
     MySQL.to_date := parse_ymd |}.



(** A pool whose loan statements all fail. *)
Definition broken_pool : pool :=
  {| query_loans := fun _ => Failed ER_PARSE_ERROR;
     query_summary := fun _ => Failed ER_PARSE_ERROR;
     query_npl := Failed ER_PARSE_ERROR |}.

(** Sample queries. *)
Definition seven_day_type : gmap string string := {[ "loan_type" := "7D" ]}.
Definition airtel_only : gmap string string := {[ "telco" := "Airtel" ]}.
Definition explicit_range : gmap string string :=
  {[ "start_date" := "2025-08-04"; "end_date" := "2025-08-06" ]}.
Definition empty_end_date : gmap string string :=
  {[ "start_date" := "2025-08-07"; "end_date" := "" ]}.
Definition lone_end_date : gmap string string := {[ "end_date" := "2025-08-05" ]}.


(** A table with two runs of one key under the same processing timestamp. *)
Definition tied_run : MySQL.db_row :=
  stored (date_of 2025 8 5) "Nano 7D" (Some 10) "Airtel"
    (at_time (date_of 2025 8 6) 2 0 0) "20".

Definition tied_db : MySQL.database :=
  {| MySQL.rows_of := fun t =>
       match t with
       | airtel_loan_data => [second_run; tied_run]
       | MTN_loan_data => []
       end;
     MySQL.curdate := date_of 2025 8 8;
     MySQL.to_date := parse_ymd |}.

(** Two stored rows in the order the statement asks for: the date of [a]
    is not before the date of [b]. *)
Definition not_before (a b : MySQL.db_row) : Prop :=
  exists da db,
    MySQL.c_load_date a = Some da /\ MySQL.c_load_date b = Some db
    /\ day_number db <= day_number da.

End MoreVocabulary.

(** * Properties *)

(** ** Numbers *)

Section NumberFacts.
Import JS.

Lemma or_num_not_nan (a b : float) : is_nan b = false -> is_nan (or_num a b) = false.
Proof.
  intros Hb. unfold or_num, truthy_num.
  destruct (is_nan a) eqn:Ha; simpl; [exact Hb|].
  destruct (is_zero a); simpl; [exact Hb|exact Ha].
Qed.

Lemma or_num_nan (a b : float) : is_nan a = true -> or_num a b = b.
Proof. intros Ha. unfold or_num, truthy_num. now rewrite Ha. Qed.

Lemma or_num_truthy (a b : float) : truthy_num a = true -> or_num a b = a.
Proof. intros Ha. unfold or_num. now rewrite Ha. Qed.

Lemma parseFloat_null : is_nan (parseFloat VNull) = true.
Proof. reflexivity. Qed.

Lemma parseFloat_undefined : is_nan (parseFloat VUndefined) = true.
Proof. reflexivity. Qed.

Lemma parseInt_null : is_nan (parseInt VNull) = true.
Proof. reflexivity. Qed.

(** The built-ins on some texts and numbers. *)

Example parseFloat_decimal : parseFloat (VStr "100.5") = 100.5%float.
Proof. reflexivity. Qed.

Example parseFloat_prefix : parseFloat (VStr "  -12.5e1 kwacha") = (-125)%float.
Proof. reflexivity. Qed.

Example parseFloat_no_number :
  map (fun s => is_nan (parseFloat (VStr s))) [""; "abc"; "."; "-"; "e5"; "N/A"]
  = [true; true; true; true; true; true].
Proof. reflexivity. Qed.

Example parseFloat_number : parseFloat (VNum 0.5) = 0.5%float.
Proof. vm_compute. reflexivity. Qed.

Example parseInt_texts :
  map (fun s => parseInt (VStr s)) ["7"; "-5"; "3.9"; "10 days"; "0x1F"; "0"]
  = [7; -5; 3; 10; 31; 0]%float.
Proof. reflexivity. Qed.

Example parseInt_no_number :
  map (fun s => is_nan (parseInt (VStr s))) [""; "soon"; "."; "-"]
  = [true; true; true; true].
Proof. reflexivity. Qed.

Example Number_toString_forms :
  map Number_toString [0.5; 241901; 1e21; 0x1p-24; -0.25; nan]%float
  = ["0.5"; "241901"; "1e+21"; "5.960464477539063e-8"; "-0.25"; "NaN"].
Proof. vm_compute. reflexivity. Qed.

Example toLowerCase_mixed : toLowerCase "BoTh" = "both".
Proof. reflexivity. Qed.

(** A no-break space (U+00A0) and a byte order mark (U+FEFF) before a
    number are skipped like a space. *)
Example parseFloat_after_white_space :
  map (fun s => parseFloat (VStr s))
    [ String (ascii_of_nat 194) (String (ascii_of_nat 160) "5");
      String (ascii_of_nat 239) (String (ascii_of_nat 187)
        (String (ascii_of_nat 191) " 2.5")) ]
  = [5; 2.5]%float.
Proof. reflexivity. Qed.

(** *** When a sum or a difference is NaN *)














End NumberFacts.

(** ** The normaliser *)

Section NormaliserFacts.
Import JS.

Lemma non_numeric_nan (v : value) : non_numeric v -> is_nan (parseFloat v) = true.
Proof. intros [-> | [-> | H]]; [reflexivity | reflexivity | exact H]. Qed.


Lemma amount_non_numeric (v : value) : non_numeric v -> amount v = 0%float.
Proof. intros H. apply or_num_nan, non_numeric_nan, H. Qed.

Lemma amount_not_nan (v : value) : is_nan (amount v) = false.
Proof. apply or_num_not_nan. reflexivity. Qed.




Lemma col_with_column_ne (name k : string) (v : value) (row : raw_row) :
  name <> k -> col (with_column name v row) k = col row k.
Proof. intros H. unfold col, with_column. simpl. now rewrite lookup_insert_ne. Qed.

End NormaliserFacts.

(** ** Properties of the normaliser *)

Section NormaliserProperties.
Import JS.







(** C4. For every raw row [principal_lent] is [gross_lent] minus
    [sfee_lent] of the same output record (nulls counting as 0); the result
    is not clamped, so a fee above the gross amount gives a negative value;
    and a [principal_lent] column of the source row is never read. *)
Theorem principal_lent_is_gross_minus_fee :
  (forall row : raw_row,
     let r := convertRow row in
     principal_lent r = (gross_lent r - sfee_lent r)%float
     /\ principal_lent r =
          (amount (col row "gross_lent") - amount (col row "sfee_lent"))%float)
  /\ (forall (row : raw_row) (v : value),
        principal_lent (convertRow (with_column "principal_lent" v row)) =
        principal_lent (convertRow row))
  /\ (let r := convertRow fee_above_gross_row in
      gross_lent r = 10%float /\ sfee_lent r = 25%float
      /\ principal_lent r = (-15)%float).
Proof.
  split; [|split].
  - intros row r. split; reflexivity.
  - intros row v. unfold convertRow. simpl.
    rewrite !col_with_column_ne by discriminate. reflexivity.
  - repeat split; vm_compute; reflexivity.
Qed.

End NormaliserProperties.

(** ** The stable sort *)

Section SortFacts.
Context {A : Type} (after : A -> A -> bool).

Lemma insert_before_perm (x : A) (l : list A) :
  Permutation (insert_before after x l) (x :: l).
Proof.
  induction l as [|y l IH]; simpl; [reflexivity|].
  destruct (after x y); [|reflexivity].
  rewrite IH. apply perm_swap.
Qed.

Lemma stable_sort_perm (l : list A) : Permutation (stable_sort after l) l.
Proof.
  induction l as [|x l IH]; simpl; [reflexivity|].
  rewrite insert_before_perm. now apply perm_skip.
Qed.

Lemma stable_sort_length (l : list A) : length (stable_sort after l) = length l.
Proof. apply Permutation_length, stable_sort_perm. Qed.

Lemma stable_sort_In (x : A) (l : list A) : In x (stable_sort after l) <-> In x l.
Proof.
  split; apply Permutation_in; [|symmetry]; apply stable_sort_perm.
Qed.

Variable key : A -> Z.

Lemma insert_before_sorted (x : A) (l : list A) :
  (forall y, In y l -> after x y = (key y <? key x)) ->
  StronglySorted (fun a b => key a <= key b) l ->
  StronglySorted (fun a b => key a <= key b) (insert_before after x l).
Proof.
  intros Hafter Hs. induction Hs as [|y l Hs IH Hy]; simpl.
  - repeat constructor.
  - rewrite (Hafter y) by (now left).
    destruct (key y <? key x) eqn:E.
    + apply Z.ltb_lt in E. constructor.
      * apply IH. intros z Hz. apply Hafter. now right.
      * apply (Permutation_Forall (Permutation_sym (insert_before_perm x l))).
        constructor; [lia | exact Hy].
    + apply Z.ltb_ge in E. constructor; [now constructor|].
      constructor; [exact E|].
      eapply Forall_impl; [exact Hy|]. simpl. intros z Hz. lia.
Qed.

Lemma stable_sort_sorted (l : list A) :
  (forall x y, In x l -> In y l -> after x y = (key y <? key x)) ->
  StronglySorted (fun a b => key a <= key b) (stable_sort after l).
Proof.
  induction l as [|x l IH]; intros Hafter; simpl; [constructor|].
  apply insert_before_sorted.
  - intros y Hy. apply Hafter; [now left | right].
    apply (proj1 (stable_sort_In y l)). exact Hy.
  - apply IH. intros a b Ha Hb. apply Hafter; now right.
Qed.

End SortFacts.

(** ** Dates *)

Section DateFacts.

Lemma digit_char_code (n : Z) :
  Z.of_N (N_of_ascii (digit_char n)) = 48 + n mod 10.
Proof.
  unfold digit_char. pose proof (Z.mod_pos_bound n 10 ltac:(lia)) as Hb.
  rewrite N_ascii_embedding by lia. lia.
Qed.

Lemma digit_char_is_digit (n : Z) : JS.is_digit (digit_char n) = true.
Proof.
  unfold JS.is_digit. rewrite digit_char_code.
  pose proof (Z.mod_pos_bound n 10 ltac:(lia)). cbv zeta.
  apply andb_true_intro. split; apply Z.leb_le; lia.
Qed.

Lemma digit_val_digit_char (n : Z) : JS.digit_val (digit_char n) = n mod 10.
Proof. unfold JS.digit_val. rewrite digit_char_code. lia. Qed.

Lemma number2_digits (a b : Z) :
  number2 (digit_char a) (digit_char b) = Some (a mod 10 * 10 + b mod 10).
Proof.
  unfold number2. rewrite !digit_char_is_digit, !digit_val_digit_char. reflexivity.
Qed.

Lemma two_digits_value (n : Z) : 0 <= n < 100 -> (n / 10) mod 10 * 10 + n mod 10 = n.
Proof.
  intros H. rewrite (Z.mod_small (n / 10)) by (split; [apply Z.div_pos; lia | apply Z.div_lt_upper_bound; lia]).
  pose proof (Z.div_mod n 10 ltac:(lia)). lia.
Qed.

Lemma four_digits_value (n : Z) :
  0 <= n <= 9999 ->
  ((n / 1000) mod 10 * 10 + (n / 100) mod 10) * 100
  + ((n / 10) mod 10 * 10 + n mod 10) = n.
Proof.
  intros H.
  assert (E1 : n / 100 = 10 * (n / 1000) + (n / 100) mod 10).
  { replace (n / 1000) with (n / 100 / 10) by (rewrite Z.div_div by lia; reflexivity).
    apply Z.div_mod. lia. }
  assert (E2 : n / 10 = 10 * (n / 100) + (n / 10) mod 10).
  { replace (n / 100) with (n / 10 / 10) by (rewrite Z.div_div by lia; reflexivity).
    apply Z.div_mod. lia. }
  rewrite (Z.mod_small (n / 1000)) by (split; [apply Z.div_pos; lia | apply Z.div_lt_upper_bound; lia]).
  pose proof (Z.div_mod n 10 ltac:(lia)). lia.
Qed.

Lemma valid_date_bounds (d : datetime) :
  valid_date d = true ->
  0 <= year d <= 9999 /\ 1 <= month d <= 12 /\ 1 <= day d <= 31.
Proof.
  unfold valid_date. rewrite !andb_true_iff, !Z.leb_le.
  intros [[[[[? ?] ?] ?] ?] Hd].
  assert (days_in_month (year d) (month d) <= 31).
  { unfold days_in_month.
    destruct (month d =? 2); [destruct (is_leap (year d)); lia|].
    destruct ((month d =? 4) || (month d =? 6) || (month d =? 9) || (month d =? 11)); lia. }
  lia.
Qed.

(** Reading back the text [moment] writes for a calendar date. *)
Lemma parse_ymd_format_date (d : datetime) :
  valid_date d = true ->
  parse_ymd (format_date d) = Some (date_of (year d) (month d) (day d)).
Proof.
  intros Hv. pose proof (valid_date_bounds d Hv) as (Hy & Hm & Hd).
  unfold format_date, four_digits, two_digits. cbv [String.append parse_ymd].
  rewrite !number2_digits.
  rewrite (two_digits_value (month d)), (two_digits_value (day d)) by lia.
  replace ((year d / 1000) mod 10 * 10 + (year d / 100) mod 10) with (year d / 100).
  2:{ replace (year d / 1000) with (year d / 100 / 10) by (rewrite Z.div_div by lia; reflexivity).
      rewrite (Z.mod_small (year d / 100 / 10)).
      - pose proof (Z.div_mod (year d / 100) 10 ltac:(lia)). lia.
      - split; [apply Z.div_pos; [apply Z.div_pos|]; lia|].
        apply Z.div_lt_upper_bound; [lia|]. apply Z.div_lt_upper_bound; lia. }
  replace ((year d / 10) mod 10 * 10 + year d mod 10) with (year d mod 100).
  2:{ pose proof (Z.div_mod (year d) 10 ltac:(lia)).
      pose proof (Z.div_mod (year d) 100 ltac:(lia)).
      pose proof (Z.div_mod (year d / 10) 10 ltac:(lia)).
      replace (year d / 10 / 10) with (year d / 100) in * by (rewrite Z.div_div by lia; reflexivity).
      lia. }
  replace (year d / 100 * 100 + year d mod 100) with (year d)
    by (pose proof (Z.div_mod (year d) 100 ltac:(lia)); lia).
  replace (valid_date _) with (valid_date d) by reflexivity.
  rewrite Hv. reflexivity.
Qed.

Lemma Date_value_format_date (d : datetime) :
  valid_date d = true ->
  Date_value (format_date d) = Some (day_number d * 86400000).
Proof.
  intros Hv. unfold Date_value. rewrite parse_ymd_format_date by exact Hv. reflexivity.
Qed.

End DateFacts.

(** ** The loan statement *)

Section StatementFacts.
Import MySQL.

Lemma max_processed_at_upper (l : list db_row) (r : db_row) (p : datetime) :
  In r l -> c_processed_at r = Some p ->
  exists m, max_processed_at l = Some m /\ seconds p <= m.
Proof.
  induction l as [|x l IH]; intros Hin Hp; [destruct Hin|].
  simpl. destruct Hin as [-> | Hin].
  - rewrite Hp. destruct (max_processed_at l) as [m|].
    + exists (Z.max (seconds p) m). split; [reflexivity | lia].
    + exists (seconds p). split; [reflexivity | lia].
  - destruct (IH Hin Hp) as (m & -> & Hm).
    destruct (c_processed_at x) as [px|].
    + exists (Z.max (seconds px) m). split; [reflexivity | lia].
    + exists m. split; [reflexivity | exact Hm].
Qed.

Lemma max_processed_at_attained (l : list db_row) (m : Z) :
  max_processed_at l = Some m ->
  exists r p, In r l /\ c_processed_at r = Some p /\ seconds p = m.
Proof.
  revert m. induction l as [|x l IH]; intros m; simpl; [discriminate|].
  destruct (c_processed_at x) as [px|] eqn:Ex.
  - destruct (max_processed_at l) as [m'|].
    + intros E. injection E as <-.
      destruct (Z.max_spec (seconds px) m') as [[_ ->] | [_ ->]].
      * destruct (IH m' eq_refl) as (r & p & Hr & Hp & Hs).
        exists r, p. auto.
      * exists x, px. auto.
    + intros E. injection E as <-. exists x, px. auto.
  - intros E. destruct (IH m E) as (r & p & Hr & Hp & Hs). exists r, p. auto.
Qed.

Lemma In_firstn {A} (n : nat) (l : list A) (x : A) : In x (firstn n l) -> In x l.
Proof.
  revert l. induction n as [|n IH]; intros [|y l]; simpl; try tauto.
  intros [-> | H]; [now left | right; now apply IH].
Qed.

Lemma stored_rows_selected (db : database) (q : select_loans) (r : db_row) :
  In r (stored_rows db q) ->
  In r (rows_of db (from q)) /\ selected db q r = true.
Proof.
  unfold stored_rows. destruct (row_count (limit q)); [|intros []].
  intros H. apply In_firstn in H. apply stable_sort_In in H.
  apply List.filter_In in H. exact H.
Qed.

Lemma stored_rows_length (db : database) (q : select_loans) (n : nat) :
  row_count (limit q) = Some n -> (length (stored_rows db q) <= n)%nat.
Proof.
  intros H. unfold stored_rows. rewrite H. rewrite length_firstn. lia.
Qed.

Lemma latest_snapshot_max (tbl : list db_row) (r : db_row) :
  latest_snapshot tbl r = true ->
  exists p, c_processed_at r = Some p
    /\ forall r' p', In r' tbl -> same_key r' r = true ->
        c_processed_at r' = Some p' -> seconds p' <= seconds p.
Proof.
  unfold latest_snapshot. destruct (c_processed_at r) as [p|]; [|discriminate].
  destruct (max_processed_at _) as [m|] eqn:Em; [|discriminate].
  intros E. apply Z.eqb_eq in E. exists p. split; [reflexivity|].
  intros r' p' Hin Hk Hp'.
  assert (Hf : In r' (List.filter (fun t2 => same_key t2 r) tbl))
    by (apply List.filter_In; split; assumption).
  destruct (max_processed_at_upper _ _ _ Hf Hp') as (m' & Em' & Hle).
  rewrite Em in Em'. injection Em' as <-. lia.
Qed.

Lemma latest_snapshot_of_max (tbl : list db_row) (r : db_row) (p : datetime) :
  In r tbl -> same_key r r = true -> c_processed_at r = Some p ->
  (forall r' p', In r' tbl -> same_key r' r = true ->
     c_processed_at r' = Some p' -> seconds p' <= seconds p) ->
  latest_snapshot tbl r = true.
Proof.
  intros Hin Hk Hp Hmax. unfold latest_snapshot. rewrite Hp.
  assert (Hf : In r (List.filter (fun t2 => same_key t2 r) tbl))
    by (apply List.filter_In; split; assumption).
  destruct (max_processed_at_upper _ _ _ Hf Hp) as (m & Em & Hle).
  rewrite Em. apply Z.eqb_eq.
  destruct (max_processed_at_attained _ _ Em) as (r' & p' & Hr' & Hp' & <-).
  apply List.filter_In in Hr' as [Hr' Hk'].
  specialize (Hmax r' p' Hr' Hk' Hp'). lia.
Qed.

Lemma same_key_columns (a b : db_row) :
  same_key a b = true ->
  exists da db la lb na nb,
    c_load_date a = Some da /\ c_load_date b = Some db
    /\ c_loan_type a = Some la /\ c_loan_type b = Some lb
    /\ c_denom a = Some na /\ c_denom b = Some nb
    /\ day_number da = day_number db /\ la = lb /\ na = nb.
Proof.
  unfold same_key.
  destruct (c_load_date a) as [da|]; [|discriminate].
  destruct (c_load_date b) as [db|]; [|discriminate].
  destruct (c_loan_type a) as [la|]; [|discriminate].
  destruct (c_loan_type b) as [lb|]; [|discriminate].
  destruct (c_denom a) as [na|]; [|discriminate].
  destruct (c_denom b) as [nb|]; [|discriminate].
  rewrite !andb_true_iff, !Z.eqb_eq, String.eqb_eq.
  intros [[H1 H2] H3]. exists da, db, la, lb, na, nb. repeat split; assumption.
Qed.

Lemma same_key_of_columns (a b : db_row) da db l na :
  c_load_date a = Some da -> c_load_date b = Some db ->
  c_loan_type a = Some l -> c_loan_type b = Some l ->
  c_denom a = Some na -> c_denom b = Some na ->
  day_number da = day_number db ->
  same_key a b = true.
Proof.
  intros Ha Hb Hla Hlb Hna Hnb Hd. unfold same_key.
  rewrite Ha, Hb, Hla, Hlb, Hna, Hnb, Hd, String.eqb_refl, !Z.eqb_refl. reflexivity.
Qed.

Lemma share_key_same_key (a b : db_row) : share_key a b <-> same_key a b = true.
Proof.
  split.
  - intros (da & db & l & n & Ha & Hb & Hd & Hla & Hlb & Hna & Hnb).
    now apply (same_key_of_columns a b da db l n).
  - intros H.
    apply same_key_columns in H
      as (da & db & la & lb & na & nb & Ha & Hb & Hla & Hlb & Hna & Hnb & Hd & <- & <-).
    exists da, db, la, na. repeat split; assumption.
Qed.

(** C5. For every loan statement and every table it is run against: a row
    is returned only if it is stored in that table and its processing
    timestamp is the greatest among the rows of that table with the same
    load_date, loan_type and denom; so of two rows of the table that have
    the same three columns and differ in processing timestamp the older one
    is not returned; the rows returned depend on the queried table alone,
    whatever the other table holds; and a row of the table that passes the
    conditions and has the greatest timestamp among the rows with its three
    key columns is returned when the limit does not cut the result,
    whatever timestamps the rows of other keys have. *)
Theorem latest_snapshot_per_table (db : database) (q : select_loans) :
  (forall r, In r (stored_rows db q) ->
     In r (rows_of db (from q))
     /\ exists p, c_processed_at r = Some p
        /\ forall r' p', In r' (rows_of db (from q)) -> share_key r' r ->
            c_processed_at r' = Some p' -> seconds p' <= seconds p)
  /\ (forall r1 r2 p1 p2,
        In r1 (rows_of db (from q)) -> In r2 (rows_of db (from q)) ->
        share_key r2 r1 ->
        c_processed_at r1 = Some p1 -> c_processed_at r2 = Some p2 ->
        seconds p1 < seconds p2 ->
        ~ In r1 (stored_rows db q))
  /\ (forall db',
        rows_of db' (from q) = rows_of db (from q) ->
        curdate db' = curdate db -> to_date db' = to_date db ->
        stored_rows db' q = stored_rows db q)
  /\ (forall rows, run db q = Rows rows -> rows = map fetch (stored_rows db q))
  /\ (forall r p n,
        In r (rows_of db (from q)) ->
        forallb (fun c => is_true (holds db c r)) (conditions q) = true ->
        share_key r r -> c_processed_at r = Some p ->
        (forall r' p', In r' (rows_of db (from q)) -> share_key r' r ->
           c_processed_at r' = Some p' -> seconds p' <= seconds p) ->
        row_count (limit q) = Some n ->
        (length (List.filter (selected db q) (rows_of db (from q))) <= n)%nat ->
        In r (stored_rows db q)).
Proof.
  assert (Hmax : forall r, In r (stored_rows db q) ->
     In r (rows_of db (from q))
     /\ exists p, c_processed_at r = Some p
        /\ forall r' p', In r' (rows_of db (from q)) -> share_key r' r ->
            c_processed_at r' = Some p' -> seconds p' <= seconds p).
  { intros r Hr. apply stored_rows_selected in Hr as [Hin Hsel].
    split; [exact Hin|].
    unfold selected in Hsel. apply andb_true_iff in Hsel as [_ Hsel].
    apply latest_snapshot_max in Hsel as (p & Hp & Hle).
    exists p. split; [exact Hp|].
    intros r' p' Hr' Hk. apply Hle; [exact Hr'|]. now apply share_key_same_key. }
  split; [exact Hmax|]. split; [|split; [|split]].
  - intros r1 r2 p1 p2 H1 H2 Hk Hp1 Hp2 Hlt Hin.
    destruct (Hmax r1 Hin) as (_ & p & Hp & Hle).
    rewrite Hp1 in Hp. injection Hp as <-.
    specialize (Hle r2 p2 H2 Hk Hp2). lia.
  - intros db' Hrows Hdate Hconv. unfold stored_rows. rewrite Hrows.
    destruct (row_count (limit q)); [|reflexivity]. do 2 f_equal.
    apply filter_ext. intros r. unfold selected. rewrite Hrows. f_equal.
    induction (conditions q) as [|c l IH]; [reflexivity|].
    simpl. rewrite IH. f_equal. unfold holds. now rewrite Hdate, Hconv.
  - intros rows. unfold run.
    destruct (printed_as_word (limit q)); [discriminate|].
    destruct (row_count (limit q)); [|discriminate].
    destruct (existsb unknown_column (conditions q)); [discriminate|].
    intros E. now injection E as <-.
  - intros r p n Hin Hconds Hk Hp Hgreatest Hn Hlen.
    unfold stored_rows. rewrite Hn.
    rewrite firstn_all2 by (now rewrite stable_sort_length).
    apply stable_sort_In. apply List.filter_In. split; [exact Hin|].
    unfold selected. rewrite Hconds. simpl.
    apply (latest_snapshot_of_max _ r p); [exact Hin | | exact Hp |].
    + now apply share_key_same_key.
    + intros r' p' Hr' Hk'. apply Hgreatest; [exact Hr'|].
      now apply share_key_same_key.
Qed.

Ltac other_key Hk :=
  destruct Hk as (da & db & l & n & Ha & Hb & Hd & Hla & Hlb & Hna & Hnb);
  cbv in Ha, Hb, Hla, Hlb, Hna, Hnb;
  first [ congruence
        | injection Ha as <-; injection Hb as <-; vm_compute in Hd; discriminate ].

(** In the sample table the older of the two runs of one key is dropped and
    the later one returned, and so are the rows of the other loan type and
    of the other denom, though they were processed before both runs, while
    a row of another date was processed after them. *)
Lemma latest_snapshot_per_table_witness :
  ~ In first_run (stored_rows keyed_db (default_select airtel_loan_data))
  /\ In second_run (stored_rows keyed_db (default_select airtel_loan_data))
  /\ In other_type (stored_rows keyed_db (default_select airtel_loan_data))
  /\ In other_denom (stored_rows keyed_db (default_select airtel_loan_data)).
Proof.
  pose proof (latest_snapshot_per_table keyed_db (default_select airtel_loan_data))
    as (_ & Hold & _ & _ & Hnew).
  assert (Hown : forall d l n o t g,
            share_key (stored d l (Some n) o t g) (stored d l (Some n) o t g))
    by (intros d l n o t g; exists d, d, l, n; repeat split).
  split; [|split; [|split]].
  - apply (Hold first_run second_run
             (at_time (date_of 2025 8 6) 1 0 0) (at_time (date_of 2025 8 6) 2 0 0)).
    + simpl. tauto.
    + simpl. tauto.
    + exists (date_of 2025 8 5), (date_of 2025 8 5), "Nano 7D", 10. repeat split.
    + reflexivity.
    + reflexivity.
    + vm_compute. reflexivity.
  - apply (Hnew second_run (at_time (date_of 2025 8 6) 2 0 0) 1000%nat).
    + simpl. tauto.
    + vm_compute. reflexivity.
    + apply Hown.
    + reflexivity.
    + intros r' p' Hin Hk Hp'. cbn [rows_of keyed_db from default_select In] in Hin.
      destruct Hin as [<- | [<- | [<- | [<- | [<- | []]]]]];
        try (injection Hp' as <-; vm_compute; discriminate);
        exfalso; other_key Hk.
    + vm_compute. reflexivity.
    + vm_compute. lia.
  - apply (Hnew other_type (at_time (date_of 2025 8 6) 0 30 0) 1000%nat).
    + simpl. tauto.
    + vm_compute. reflexivity.
    + apply Hown.
    + reflexivity.
    + intros r' p' Hin Hk Hp'. cbn [rows_of keyed_db from default_select In] in Hin.
      destruct Hin as [<- | [<- | [<- | [<- | [<- | []]]]]];
        try (injection Hp' as <-; vm_compute; discriminate);
        exfalso; other_key Hk.
    + vm_compute. reflexivity.
    + vm_compute. lia.
  - apply (Hnew other_denom (at_time (date_of 2025 8 6) 0 10 0) 1000%nat).
    + simpl. tauto.
    + vm_compute. reflexivity.
    + apply Hown.
    + reflexivity.
    + intros r' p' Hin Hk Hp'. cbn [rows_of keyed_db from default_select In] in Hin.
      destruct Hin as [<- | [<- | [<- | [<- | [<- | []]]]]];
        try (injection Hp' as <-; vm_compute; discriminate);
        exfalso; other_key Hk.
    + vm_compute. reflexivity.
    + vm_compute. lia.
Defined.

End StatementFacts.

(** ** The loan handlers *)

Section HandlerFacts.
Import JS MySQL.

Lemma row_count_not_word (f : float) (n : nat) :
  row_count f = Some n -> printed_as_word f = false.
Proof.
  unfold row_count, integer_of, printed_as_word.
  destruct (Prim2SF f); (reflexivity || discriminate).
Qed.

Lemma Prim2SF_nan (x : float) : Prim2SF x = S754_nan -> is_nan x = true.
Proof. intros H. unfold is_nan. rewrite FloatAxioms.eqb_spec, H. reflexivity. Qed.

Lemma Prim2SF_infinity (x : float) (s : bool) :
  Prim2SF x = S754_infinity s -> is_infinity x = true.
Proof.
  intros H. unfold is_infinity.
  rewrite FloatAxioms.eqb_spec, FloatAxioms.abs_spec, H. reflexivity.
Qed.

Lemma not_word (x : float) :
  is_nan x = false -> is_infinity x = false -> printed_as_word x = false.
Proof.
  intros Hn Hi. unfold printed_as_word.
  destruct (Prim2SF x) as [s|s| |s m e] eqn:E; try reflexivity.
  - rewrite (Prim2SF_infinity x s E) in Hi. discriminate.
  - rewrite (Prim2SF_nan x E) in Hn. discriminate.
Qed.

(** The window of the loan handlers is a number MySQL reads as one unless
    [days] is a numeral too long for a number. *)
Lemma window_not_word (x : float) :
  is_infinity x = false -> printed_as_word (or_num x 7) = false.
Proof.
  intros Hi. unfold or_num, truthy_num.
  destruct (is_nan x) eqn:Hn; [reflexivity|].
  destruct (is_zero x); [reflexivity|]. simpl. now apply not_word.
Qed.

Lemma run_rows (db : database) (q : select_loans) (n : nat) :
  existsb unknown_column (conditions q) = false ->
  row_count (limit q) = Some n ->
  run db q = Rows (map fetch (stored_rows db q)).
Proof.
  intros Hc Hn. unfold run. now rewrite (row_count_not_word _ n Hn), Hn, Hc.
Qed.

Lemma selected_load_date (db : database) (q : select_loans) (r : db_row)
    (c : condition) :
  In c (conditions q) ->
  (exists a b, c = DateBetween a b) \/ (exists n, c = DateSince n) ->
  selected db q r = true ->
  exists d, c_load_date r = Some d.
Proof.
  intros Hin Hc Hsel. unfold selected in Hsel.
  apply andb_true_iff in Hsel as [Hall _].
  rewrite forallb_forall in Hall. specialize (Hall c Hin).
  destruct (c_load_date r) as [d|] eqn:E; [now exists d|].
  destruct Hc as [(a & b & ->) | (n & ->)]; simpl in Hall; rewrite E in Hall; discriminate.
Qed.

Lemma StronglySorted_weaken {A} (P : A -> Prop) (R R' : A -> A -> Prop) (l : list A) :
  (forall a b, P a -> P b -> R a b -> R' a b) ->
  Forall P l -> StronglySorted R l -> StronglySorted R' l.
Proof.
  intros HR HP Hs. induction Hs as [|x l Hs IH Hx]; [constructor|].
  inversion HP as [|? ? Px Pl]; subst.
  constructor; [now apply IH|].
  rewrite Forall_forall in Hx, Pl |- *.
  intros y Hy. apply HR; [exact Px | now apply Pl | now apply Hx].
Qed.

(** Sorting records whose dates are all readable puts them in descending
    order of date. *)
Lemma Array_sort_by_date (l : list LoanRecord) :
  Forall (fun x => exists t, Date_value (date x) = Some t) l ->
  StronglySorted date_descending (Array_sort by_date_desc l).
Proof.
  intros Hl.
  set (key := fun x : LoanRecord => - default 0 (Date_value (date x))).
  apply (StronglySorted_weaken (fun x => exists t, Date_value (date x) = Some t)
           (fun a b => key a <= key b)).
  - intros a b (ta & Ha) (tb & Hb) Hab. exists ta, tb.
    unfold key in Hab. rewrite Ha, Hb in Hab. simpl in Hab.
    repeat split; [assumption..|lia].
  - rewrite Forall_forall in Hl |- *. intros x Hx. apply Hl.
    apply list_elem_of_In. apply list_elem_of_In in Hx.
    unfold Array_sort in Hx. now apply stable_sort_In in Hx.
  - unfold Array_sort. apply stable_sort_sorted.
    intros x y Hx Hy. rewrite Forall_forall in Hl.
    destruct (Hl x ltac:(now apply list_elem_of_In)) as (tx & Ex).
    destruct (Hl y ltac:(now apply list_elem_of_In)) as (ty & Ey).
    unfold by_date_desc, key. rewrite Ex, Ey. simpl.
    destruct (Z.ltb_spec 0 (ty - tx)), (Z.ltb_spec (- ty) (- tx)); (reflexivity || lia).
Qed.

Lemma insert_before_map {A B} (f : A -> B) (after : B -> B -> bool) (x : A)
    (l : list A) :
  insert_before after (f x) (map f l) =
  map f (insert_before (fun a b => after (f a) (f b)) x l).
Proof.
  induction l as [|y l IH]; [reflexivity|].
  simpl. destruct (after (f x) (f y)); [|reflexivity].
  simpl. f_equal. exact IH.
Qed.

Lemma stable_sort_map {A B} (f : A -> B) (after : B -> B -> bool) (l : list A) :
  stable_sort after (map f l) =
  map f (stable_sort (fun a b => after (f a) (f b)) l).
Proof.
  induction l as [|x l IH]; [reflexivity|].
  simpl. fold (stable_sort after (map f l)).
  fold (stable_sort (fun a b => after (f a) (f b)) l).
  rewrite IH. apply insert_before_map.
Qed.

Lemma driver_Date_supported (d : datetime) :
  supported_date d = true -> driver_Date d = Date_at d.
Proof.
  unfold supported_date, driver_Date, Date_of_fields.
  rewrite !andb_true_iff. intros [[Hd Ht] Hy]. rewrite Hd, Ht. simpl.
  apply Z.leb_le in Hy. destruct (Z.ltb_spec (year d) 100); [lia | reflexivity].
Qed.

Lemma supported_date_valid (d : datetime) : supported_date d = true -> valid_date d = true.
Proof. unfold supported_date. rewrite !andb_true_iff. tauto. Qed.

(** The date text of the record of a stored row. *)
Lemma fetched_date (r : db_row) (d : datetime) :
  c_load_date r = Some d -> supported_date d = true ->
  date (convertRow (fetch r)) = format_date d.
Proof.
  intros Hd Hs.
  change (date (convertRow (fetch r)))
    with (moment_format (option_map driver_Date (c_load_date r)) YYYY_MM_DD).
  rewrite Hd. simpl. now rewrite (driver_Date_supported d Hs).
Qed.

Lemma stored_rows_dated (db : database) (q : select_loans) (c : condition) (r : db_row) :
  In c (conditions q) ->
  (exists a b, c = DateBetween a b) \/ (exists n, c = DateSince n) ->
  (forall t r d, In r (rows_of db t) -> c_load_date r = Some d -> supported_date d = true) ->
  In r (stored_rows db q) ->
  exists d, c_load_date r = Some d /\ supported_date d = true.
Proof.
  intros Hin Hc Hvalid Hr.
  apply stored_rows_selected in Hr as [Hr Hsel].
  destruct (selected_load_date _ _ _ c Hin Hc Hsel) as (d & Hd).
  exists d. split; [exact Hd | eapply Hvalid; eassumption].
Qed.

(** The comparator of the merge, on the records of two stored rows with
    supported dates, asks for the row of the later load_date first. *)
Lemma by_date_desc_fetched (x y : db_row) (dx dy : datetime) :
  c_load_date x = Some dx -> supported_date dx = true ->
  c_load_date y = Some dy -> supported_date dy = true ->
  match by_date_desc (convertRow (fetch x)) (convertRow (fetch y)) with
  | Some v => 0 <? v
  | None => false
  end = (day_number dx <? day_number dy).
Proof.
  intros Hx Sx Hy Sy. unfold by_date_desc.
  rewrite (fetched_date x dx Hx Sx), (fetched_date y dy Hy Sy).
  rewrite !Date_value_format_date by (now apply supported_date_valid).
  destruct (Z.ltb_spec 0 (day_number dy * 86400000 - day_number dx * 86400000)),
           (Z.ltb_spec (day_number dx) (day_number dy)); (reflexivity || lia).
Qed.

Lemma Forall2_map_same {A B} (P : B -> A -> Prop) (f : A -> B) (l : list A) :
  (forall a, In a l -> P (f a) a) -> Forall2 P (map f l) l.
Proof.
  induction l as [|a l IH]; intros H; [constructor|].
  simpl. constructor; [apply H; now left | apply IH; intros b Hb; apply H; now right].
Qed.

(** C6. When the operator filter is "both" (in any letter case), the
    limit is a valid row count [n], [days] is not a numeral too long for a
    number and the stored load dates are dates of the supported range, the
    general handler sends one statement to each table, both with the same
    conditions and limit, and answers 200 with the records of the two
    results: [data] is a rearrangement of the first result followed by the
    second, its [count] is the sum of the two result sizes, each of which
    is at most [n]; and [data] is the records, one by one, of the returned
    rows put in descending order of their stored load_date, each record
    showing the load_date of its row as its date. *)
Theorem both_tables_merged (db : database) (p : pool) (query : gmap string string)
    (n : nat) :
  query_loans p = run db ->
  toLowerCase (default "both" (query !! "telco")) = "both" ->
  row_count (parseInt (VStr (default "1000" (query !! "limit")))) = Some n ->
  is_infinity (parseInt (VStr (default "7" (query !! "days")))) = false ->
  (forall t r d, In r (rows_of db t) -> c_load_date r = Some d ->
                 supported_date d = true) ->
  exists conds data rows,
    let qA := {| from := airtel_loan_data; conditions := conds;
                 order_by := ByDateThenType;
                 limit := parseInt (VStr (default "1000" (query !! "limit"))) |} in
    let qM := {| from := MTN_loan_data; conditions := conds;
                 order_by := ByDateThenType;
                 limit := parseInt (VStr (default "1000" (query !! "limit"))) |} in
    fst (loan_data p query) = [SelectLoans qA; SelectLoans qM]
    /\ status (snd (loan_data p query)) = 200
    /\ records (snd (loan_data p query)) = data
    /\ json (snd (loan_data p query)) =
         LoanData data (length (stored_rows db qA) + length (stored_rows db qM))
           (query !! "loan_type") (default "both" (query !! "telco"))
           (parseInt (VStr (default "7" (query !! "days"))))
           (query !! "start_date") (query !! "end_date")
    /\ Permutation data
         (convertToDashboardFormat (map fetch (stored_rows db qA)) ++
          convertToDashboardFormat (map fetch (stored_rows db qM)))
    /\ (length (stored_rows db qA) <= n)%nat
    /\ (length (stored_rows db qM) <= n)%nat
    /\ data = convertToDashboardFormat (map fetch rows)
    /\ Permutation rows (stored_rows db qA ++ stored_rows db qM)
    /\ StronglySorted not_before rows
    /\ Forall2 (fun x r => exists d, c_load_date r = Some d /\ date x = format_date d)
         data rows.
Proof.
  intros Hpool Htelco Hlimit Hdays Hvalid.
  set (lim := parseInt (VStr (default "1000" (query !! "limit")))) in *.
  set (date_part :=
         if truthy_param (query !! "start_date") && truthy_param (query !! "end_date")
         then [DateBetween (default "" (query !! "start_date"))
                 (default "" (query !! "end_date"))]
         else [DateSince (or_num (parseInt (VStr (default "7" (query !! "days")))) 7)]).
  set (type_part :=
         if truthy_param (query !! "loan_type")
         then [LoanTypeLike ("%" ++ default "" (query !! "loan_type") ++ "%")]
         else []).
  set (conds := (date_part ++ type_part ++ [])%list).
  set (qA := {| from := airtel_loan_data; conditions := conds;
                order_by := ByDateThenType; limit := lim |}).
  set (qM := {| from := MTN_loan_data; conditions := conds;
                order_by := ByDateThenType; limit := lim |}).
  assert (Hknown : existsb unknown_column conds = false).
  { unfold conds, date_part, type_part.
    destruct (truthy_param (query !! "start_date") && truthy_param (query !! "end_date"));
      destruct (truthy_param (query !! "loan_type"));
      cbn [List.app List.existsb unknown_column orb];
      rewrite ?(window_not_word _ Hdays); reflexivity. }
  assert (Hdate : exists c, In c conds
            /\ ((exists a b, c = DateBetween a b) \/ (exists k, c = DateSince k))).
  { unfold conds, date_part.
    destruct (truthy_param (query !! "start_date") && truthy_param (query !! "end_date"));
      eexists; (split; [left; reflexivity|]); [left | right]; eauto. }
  destruct Hdate as (c & Hc & Hkind).
  assert (HA : run db qA = Rows (map fetch (stored_rows db qA)))
    by (apply (run_rows db qA n); assumption).
  assert (HM : run db qM = Rows (map fetch (stored_rows db qM)))
    by (apply (run_rows db qM n); assumption).
  assert (E : loan_data p query =
    ([SelectLoans qA; SelectLoans qM],
     {| status := 200;
        json := LoanData
                  (Array_sort by_date_desc
                     (convertToDashboardFormat (map fetch (stored_rows db qA)) ++
                      convertToDashboardFormat (map fetch (stored_rows db qM)) ++ []))
                  (length (Array_sort by_date_desc
                     (convertToDashboardFormat (map fetch (stored_rows db qA)) ++
                      convertToDashboardFormat (map fetch (stored_rows db qM)) ++ [])))
                  (query !! "loan_type") (default "both" (query !! "telco"))
                  (parseInt (VStr (default "7" (query !! "days"))))
                  (query !! "start_date") (query !! "end_date") |})).
  { unfold loan_data. cbv zeta. rewrite Htelco.
    change (String.eqb "both" "airtel") with false.
    change (String.eqb "both" "mtn") with false.
    change (String.eqb "both" "both") with true.
    cbv iota. cbn [List.length Nat.eqb List.map query_tables].
    fold lim. fold date_part. fold type_part. fold conds. fold qA. fold qM.
    rewrite Hpool, HA, HM. reflexivity. }
  set (returned := (stored_rows db qA ++ stored_rows db qM)%list).
  set (record := fun r : db_row => convertRow (fetch r)).
  set (later_first := fun x y : db_row =>
         match by_date_desc (record x) (record y) with
         | Some v => 0 <? v
         | None => false
         end).
  assert (Hmerged : (convertToDashboardFormat (map fetch (stored_rows db qA)) ++
                     convertToDashboardFormat (map fetch (stored_rows db qM)))%list
                    = map record returned).
  { unfold convertToDashboardFormat, returned, record.
    now rewrite !map_map, <- map_app. }
  assert (Hdated : forall r, In r returned ->
            exists d, c_load_date r = Some d /\ supported_date d = true).
  { intros r Hr. apply in_app_or in Hr as [Hr | Hr];
      [apply (stored_rows_dated db qA c) | apply (stored_rows_dated db qM c)];
      assumption. }
  exists conds.
  exists (Array_sort by_date_desc
            (convertToDashboardFormat (map fetch (stored_rows db qA)) ++
             convertToDashboardFormat (map fetch (stored_rows db qM)))).
  exists (stable_sort later_first returned).
  cbv zeta. fold qA. fold qM. rewrite E. rewrite app_nil_r.
  cbn [fst snd status json records].
  split; [reflexivity|]. split; [reflexivity|]. split; [reflexivity|].
  split.
  { f_equal. unfold Array_sort. rewrite stable_sort_length, length_app.
    unfold convertToDashboardFormat. now rewrite !length_map. }
  split; [apply stable_sort_perm|].
  split; [apply stored_rows_length; exact Hlimit|].
  split; [apply stored_rows_length; exact Hlimit|].
  assert (Hdata : Array_sort by_date_desc
                    (convertToDashboardFormat (map fetch (stored_rows db qA)) ++
                     convertToDashboardFormat (map fetch (stored_rows db qM)))
                  = convertToDashboardFormat (map fetch (stable_sort later_first returned))).
  { rewrite Hmerged. unfold Array_sort. rewrite stable_sort_map.
    unfold convertToDashboardFormat. rewrite map_map. reflexivity. }
  assert (Hsorted_in : forall r, In r (stable_sort later_first returned) ->
            exists d, c_load_date r = Some d /\ supported_date d = true).
  { intros r Hr. apply Hdated. now apply (proj1 (stable_sort_In later_first r returned)). }
  split; [exact Hdata|].
  split; [apply stable_sort_perm|].
  split.
  - set (key := fun r : db_row => - default 0 (option_map day_number (c_load_date r))).
    apply (StronglySorted_weaken
             (fun r => exists d, c_load_date r = Some d /\ supported_date d = true)
             (fun a b => key a <= key b)).
    + intros a b (da & Ha & _) (db' & Hb & _) Hab. exists da, db'.
      unfold key in Hab. rewrite Ha, Hb in Hab. simpl in Hab.
      repeat split; [assumption..|lia].
    + apply Forall_forall. intros r Hr. apply list_elem_of_In in Hr. now apply Hsorted_in.
    + apply stable_sort_sorted. intros x y Hx Hy.
      destruct (Hdated x Hx) as (dx & Ex & Sx).
      destruct (Hdated y Hy) as (dy & Ey & Sy).
      unfold later_first, record. rewrite (by_date_desc_fetched x y dx dy Ex Sx Ey Sy).
      unfold key. rewrite Ex, Ey. simpl.
      destruct (Z.ltb_spec (day_number dx) (day_number dy)),
               (Z.ltb_spec (- day_number dy) (- day_number dx)); (reflexivity || lia).
  - rewrite Hdata. unfold convertToDashboardFormat. rewrite map_map.
    apply Forall2_map_same. intros r Hr.
    destruct (Hsorted_in r Hr) as (d & Hd & Sd).
    exists d. split; [exact Hd | now apply fetched_date].
Qed.

Lemma sample_dates_supported (t : table) (r : db_row) (d : datetime) :
  In r (rows_of sample_db t) -> c_load_date r = Some d -> supported_date d = true.
Proof.
  intros Hin Hd.
  destruct t; cbn [rows_of sample_db In] in Hin;
    repeat (destruct Hin as [<- | Hin]; [injection Hd as <-; reflexivity|]);
    destruct Hin.
Qed.

(** With a limit of one row the sample database answers two records, one
    from each table: the MTN row of 7 August before the Airtel row of
    6 August, though the Airtel table is queried first. *)
Lemma both_tables_merged_witness :
  exists rows,
    records (snd (loan_data sample_pool limit_of_one)) =
      convertToDashboardFormat (map fetch rows)
    /\ StronglySorted not_before rows
    /\ Forall2 (fun x r => exists d, c_load_date r = Some d /\ date x = format_date d)
         (records (snd (loan_data sample_pool limit_of_one))) rows
    /\ map date (records (snd (loan_data sample_pool limit_of_one))) =
         ["2025-08-07"; "2025-08-06"]
    /\ map telco (records (snd (loan_data sample_pool limit_of_one))) =
         [VStr "MTN"; VStr "Airtel"].
Proof.
  destruct (both_tables_merged sample_db sample_pool limit_of_one 1
              ltac:(reflexivity) ltac:(vm_compute; reflexivity)
              ltac:(vm_compute; reflexivity) ltac:(vm_compute; reflexivity)
              sample_dates_supported)
    as (conds & data & rows & _ & _ & Hrec & _ & _ & _ & _ & Hdata & _ & Hsorted & Hdates).
  exists rows. rewrite Hrec.
  split; [exact Hdata|]. split; [exact Hsorted|]. split; [exact Hdates|].
  rewrite <- Hrec. split; vm_compute; reflexivity.
Defined.

End HandlerFacts.

(** ** The NPL statement *)

Section NplFacts.
Import JS.







End NplFacts.

(** ** The date window *)

Section WindowFacts.
Import JS.

Lemma query_tables_sent (p : pool) (qs : list select_loans) (s : statement) :
  In s (fst (query_tables p qs)) -> exists q, s = SelectLoans q /\ In q qs.
Proof.
  induction qs as [|q qs IH]; simpl; [intros []|].
  destruct (query_loans p q).
  - destruct (query_tables p qs) as [sent r]. simpl in *.
    intros [<- | H]; [exists q; auto|].
    destruct (IH H) as (q' & -> & Hq'). exists q'. auto.
  - simpl. intros [<- | []]. exists q. auto.
Qed.

Lemma query_summaries_sent (p : pool) (qs : list select_summary) (s : statement) :
  In s (fst (query_summaries p qs)) -> exists q, s = SelectSummary q /\ In q qs.
Proof.
  induction qs as [|q qs IH]; simpl; [intros []|].
  destruct (query_summary p q).
  - destruct (query_summaries p qs) as [sent r]. simpl in *.
    intros [<- | H]; [exists q; auto|].
    destruct (IH H) as (q' & -> & Hq'). exists q'. auto.
  - simpl. intros [<- | []]. exists q. auto.
Qed.

Lemma no_range_in_window_conditions (days : float) (l1 l2 : list condition) :
  (forall c, In c l1 -> exists pat, c = LoanTypeLike pat) ->
  (forall c, In c l2 ->
     (exists pat, c = LoanTypeLike pat) \/ (exists a b, c = TelcoIs a b)) ->
  forall a b, ~ In (DateBetween a b) (l1 ++ [DateSince days] ++ l2)%list.
Proof.
  intros H1 H2 a b Hin.
  apply in_app_or in Hin as [Hin | Hin].
  - destruct (H1 _ Hin) as (pat & E). discriminate.
  - destruct Hin as [E | Hin]; [discriminate|].
    destruct (H2 _ Hin) as [(pat & E) | (x & y & E)]; discriminate.
Qed.

Lemma tail_conditions (type_part telco_part : list condition) :
  (forall c, In c type_part -> exists pat, c = LoanTypeLike pat) ->
  (forall c, In c telco_part -> exists a b, c = TelcoIs a b) ->
  forall c, In c (type_part ++ telco_part)%list ->
    (exists pat, c = LoanTypeLike pat) \/ (exists a b, c = TelcoIs a b).
Proof.
  intros H1 H2 c Hin. apply in_app_or in Hin as [Hin | Hin]; [left | right]; auto.
Qed.

Lemma telco_part_conditions (telco : string) (c : condition) :
  In c (if String.eqb (toLowerCase telco) "airtel" then [TelcoIs "Airtel" "airtel"]
        else if String.eqb (toLowerCase telco) "mtn" then [TelcoIs "MTN" "mtn"]
        else []) ->
  exists a b, c = TelcoIs a b.
Proof.
  destruct (String.eqb (toLowerCase telco) "airtel");
    [|destruct (String.eqb (toLowerCase telco) "mtn")]; simpl;
    intros H; try contradiction; destruct H as [<- | []]; eauto.
Qed.

(** Without a date pair, every statement of the general handler filters by
    the trailing window. *)
Lemma loan_data_window (p : pool) (query : gmap string string) :
  truthy_param (query !! "start_date") && truthy_param (query !! "end_date") = false ->
  Forall (uses_window (or_num (parseInt (VStr (default "7" (query !! "days")))) 7))
    (fst (loan_data p query)).
Proof.
  intros Hpair. unfold loan_data. cbv zeta. rewrite Hpair. cbv iota.
  match goal with |- context [Nat.eqb ?a 0] => destruct (Nat.eqb a 0) end;
    [constructor|].
  match goal with |- context [query_tables p ?qs] =>
    pose proof (query_tables_sent p qs) as Hsent;
    destruct (query_tables p qs) as [sent r] end.
  assert (Hgoal : Forall (uses_window
            (or_num (parseInt (VStr (default "7" (query !! "days")))) 7)) sent).
  { apply Forall_forall. intros s Hs. apply list_elem_of_In in Hs.
    destruct (Hsent s Hs) as (q & -> & Hq).
    apply in_map_iff in Hq as (t & <- & _). simpl. split; [now left|].
    apply (no_range_in_window_conditions _ []); [intros c []|].
    apply tail_conditions.
    - destruct (truthy_param (query !! "loan_type")); simpl;
        intros c H; try contradiction; destruct H as [<- | []]; eauto.
    - apply telco_part_conditions. }
  destruct r; exact Hgoal.
Qed.

(** The same for the handler of one loan type. *)
Lemma loan_data_by_type_window (p : pool) (query : gmap string string)
    (loanType : string) :
  truthy_param (query !! "start_date") && truthy_param (query !! "end_date") = false ->
  Forall (uses_window (or_num (parseInt (VStr (default "7" (query !! "days")))) 7))
    (fst (loan_data_by_type p query loanType)).
Proof.
  intros Hpair. unfold loan_data_by_type. cbv zeta. rewrite Hpair. cbv iota.
  destruct (loanTypeMap loanType) as [dbLoanType|]; [|constructor].
  match goal with |- context [query_tables p ?qs] =>
    pose proof (query_tables_sent p qs) as Hsent;
    destruct (query_tables p qs) as [sent r] end.
  assert (Hgoal : Forall (uses_window
            (or_num (parseInt (VStr (default "7" (query !! "days")))) 7)) sent).
  { apply Forall_forall. intros s Hs. apply list_elem_of_In in Hs.
    destruct (Hsent s Hs) as (q & -> & Hq).
    apply in_map_iff in Hq as (t & <- & _). simpl. split; [right; now left|].
    apply (no_range_in_window_conditions _ [_]).
    - intros c [<- | []]. eauto.
    - intros c Hc. right. revert c Hc. apply telco_part_conditions. }
  destruct r; exact Hgoal.
Qed.

Lemma lookup_without_dates (query : gmap string string) (k : string) :
  k <> "start_date" -> k <> "end_date" ->
  delete "start_date" (delete "end_date" query) !! k = query !! k.
Proof. intros H1 H2. now rewrite !lookup_delete_ne by congruence. Qed.

Lemma lone_date_same_outcome (p : pool) (query : gmap string string)
    (loanType : string) :
  truthy_param (query !! "start_date") && truthy_param (query !! "end_date") = false ->
  let neither := delete "start_date" (delete "end_date" query) in
  (fst (loan_data p query) = fst (loan_data p neither)
   /\ status (snd (loan_data p query)) = status (snd (loan_data p neither))
   /\ records (snd (loan_data p query)) = records (snd (loan_data p neither)))
  /\ (fst (loan_data_by_type p query loanType) = fst (loan_data_by_type p neither loanType)
      /\ status (snd (loan_data_by_type p query loanType)) =
         status (snd (loan_data_by_type p neither loanType))
      /\ records (snd (loan_data_by_type p query loanType)) =
         records (snd (loan_data_by_type p neither loanType))).
Proof.
  intros Hpair neither.
  assert (Hs : neither !! "start_date" = None) by apply lookup_delete_eq.
  assert (He : neither !! "end_date" = None).
  { unfold neither. rewrite lookup_delete_ne by discriminate. apply lookup_delete_eq. }
  assert (Hk : forall k, k <> "start_date" -> k <> "end_date" ->
                         neither !! k = query !! k) by apply lookup_without_dates.
  split.
  - split; [|split];
      unfold loan_data; cbv zeta;
      rewrite Hs, He, !Hk by discriminate; rewrite Hpair; cbn [truthy_param andb];
      (match goal with |- context [Nat.eqb ?a 0] => destruct (Nat.eqb a 0) end;
         [reflexivity|]);
      (match goal with |- context [query_tables p ?qs] =>
         destruct (query_tables p qs) as [sent [rows|e]] end); reflexivity.
  - split; [|split];
      unfold loan_data_by_type; cbv zeta;
      rewrite Hs, He, !Hk by discriminate; rewrite Hpair; cbn [truthy_param andb];
      (destruct (loanTypeMap loanType); [|reflexivity]);
      (match goal with |- context [query_tables p ?qs] =>
         destruct (query_tables p qs) as [sent [rows|e]] end); reflexivity.
Qed.

(** The statement on the first table is always sent. *)
Lemma first_statement_sent (p : pool) (q : select_loans) (qs : list select_loans) :
  exists sent, fst (query_tables p (q :: qs)) = SelectLoans q :: sent.
Proof.
  cbn [query_tables]. destruct (query_loans p q); [|now exists []].
  destruct (query_tables p qs) as [sent r]. now exists sent.
Qed.

Lemma loan_data_first (p : pool) (query : gmap string string) (t : table)
    (rest : list table) :
  tables_of (default "both" (query !! "telco")) = t :: rest ->
  exists q sent, fst (loan_data p query) = SelectLoans q :: sent /\ from q = t.
Proof.
  intros Ht. unfold loan_data. cbv zeta.
  fold (tables_of (default "both" (query !! "telco"))). rewrite Ht.
  cbn [List.length Nat.eqb List.map].
  match goal with |- context [query_tables p (?q :: ?qs)] =>
    destruct (first_statement_sent p q qs) as (sent & Hsent);
    destruct (query_tables p (q :: qs)) as [sent' [rows|e]];
    cbn [fst] in *; subst sent'; exists q, sent; split; reflexivity end.
Qed.

Lemma loan_data_by_type_first (p : pool) (query : gmap string string)
    (loanType : string) (t : table) (rest : list table) :
  tables_of (default "both" (query !! "telco")) = t :: rest ->
  loanTypeMap loanType <> None ->
  exists q sent,
    fst (loan_data_by_type p query loanType) = SelectLoans q :: sent /\ from q = t.
Proof.
  intros Ht Hmap. unfold loan_data_by_type. cbv zeta.
  destruct (loanTypeMap loanType) as [dbLoanType|]; [|now destruct Hmap].
  fold (tables_of (default "both" (query !! "telco"))). rewrite Ht.
  cbn [List.map].
  match goal with |- context [query_tables p (?q :: ?qs)] =>
    destruct (first_statement_sent p q qs) as (sent & Hsent);
    destruct (query_tables p (q :: qs)) as [sent' [rows|e]];
    cbn [fst] in *; subst sent'; exists q, sent; split; reflexivity end.
Qed.

(** C10. When [start_date] or [end_date] is absent or the empty text, both
    loan handlers behave as on the request with neither: the statement on
    the first table of the operator filter is sent (for a valid loan type),
    every statement sent is filtered by the trailing window of [days] days
    and none by a date range, and the statements, the status and the
    records are those of the request without the two dates. *)
Theorem lone_date_is_ignored (p : pool) (query : gmap string string)
    (loanType : string) :
  query !! "start_date" = None \/ query !! "start_date" = Some ""
  \/ query !! "end_date" = None \/ query !! "end_date" = Some "" ->
  let neither := delete "start_date" (delete "end_date" query) in
  let days := or_num (parseInt (VStr (default "7" (query !! "days")))) 7 in
  let telco := default "both" (query !! "telco") in
  (fst (loan_data p query) = fst (loan_data p neither)
   /\ status (snd (loan_data p query)) = status (snd (loan_data p neither))
   /\ records (snd (loan_data p query)) = records (snd (loan_data p neither))
   /\ Forall (uses_window days) (fst (loan_data p query))
   /\ (forall t rest, tables_of telco = t :: rest ->
         exists q sent,
           fst (loan_data p query) = SelectLoans q :: sent
           /\ from q = t /\ uses_window days (SelectLoans q)))
  /\ (fst (loan_data_by_type p query loanType) = fst (loan_data_by_type p neither loanType)
      /\ status (snd (loan_data_by_type p query loanType)) =
         status (snd (loan_data_by_type p neither loanType))
      /\ records (snd (loan_data_by_type p query loanType)) =
         records (snd (loan_data_by_type p neither loanType))
      /\ Forall (uses_window days) (fst (loan_data_by_type p query loanType))
      /\ (forall t rest, tables_of telco = t :: rest -> loanTypeMap loanType <> None ->
            exists q sent,
              fst (loan_data_by_type p query loanType) = SelectLoans q :: sent
              /\ from q = t /\ uses_window days (SelectLoans q))).
Proof.
  intros Hlone neither days telco.
  assert (Hpair : truthy_param (query !! "start_date")
                  && truthy_param (query !! "end_date") = false).
  { destruct Hlone as [-> | [-> | [-> | ->]]];
      [reflexivity | reflexivity | apply andb_false_r | apply andb_false_r]. }
  destruct (lone_date_same_outcome p query loanType Hpair)
    as [(G1 & G2 & G3) (T1 & T2 & T3)].
  pose proof (loan_data_window p query Hpair) as Gw.
  pose proof (loan_data_by_type_window p query loanType Hpair) as Tw.
  split.
  - split; [exact G1|]. split; [exact G2|]. split; [exact G3|]. split; [exact Gw|].
    intros t rest Ht.
    destruct (loan_data_first p query t rest Ht) as (q & sent & E & Hfrom).
    exists q, sent. split; [exact E|]. split; [exact Hfrom|].
    rewrite E in Gw. now inversion Gw.
  - split; [exact T1|]. split; [exact T2|]. split; [exact T3|]. split; [exact Tw|].
    intros t rest Ht Hmap.
    destruct (loan_data_by_type_first p query loanType t rest Ht Hmap)
      as (q & sent & E & Hfrom).
    exists q, sent. split; [exact E|]. split; [exact Hfrom|].
    rewrite E in Tw. now inversion Tw.
Qed.

End WindowFacts.

Section WindowProperties.
Import JS.

(** With [start_date=2025-08-07] and an empty [end_date], and with a lone
    [end_date=2025-08-05], the sample database is asked for the last seven
    days on both tables and answers the rows of 4 to 7 August. *)
Lemma lone_date_is_ignored_witness :
  (exists q sent,
     fst (loan_data sample_pool empty_end_date) = SelectLoans q :: sent
     /\ from q = airtel_loan_data /\ uses_window 7 (SelectLoans q))
  /\ fst (loan_data sample_pool empty_end_date) =
       [SelectLoans (default_select airtel_loan_data);
        SelectLoans (default_select MTN_loan_data)]
  /\ fst (loan_data sample_pool lone_end_date) =
       [SelectLoans (default_select airtel_loan_data);
        SelectLoans (default_select MTN_loan_data)]
  /\ map date (records (snd (loan_data sample_pool empty_end_date))) =
       ["2025-08-07"; "2025-08-06"; "2025-08-05"; "2025-08-04"]
  /\ map date (records (snd (loan_data sample_pool lone_end_date))) =
       ["2025-08-07"; "2025-08-06"; "2025-08-05"; "2025-08-04"].
Proof.
  pose proof (lone_date_is_ignored sample_pool empty_end_date "7"
                ltac:(right; right; right; reflexivity))
    as [(Hsent & _ & Hrec & _ & Hfirst) _].
  pose proof (lone_date_is_ignored sample_pool lone_end_date "7"
                ltac:(left; reflexivity))
    as [(Hsent' & _ & Hrec' & _) _].
  split; [apply (Hfirst airtel_loan_data [MTN_loan_data]); vm_compute; reflexivity|].
  split; [rewrite Hsent; vm_compute; reflexivity|].
  split; [rewrite Hsent'; vm_compute; reflexivity|].
  split; [rewrite Hrec | rewrite Hrec']; vm_compute; reflexivity.
Defined.




End WindowProperties.

(** ** Validation and routing *)

Section RoutingProperties.
Import JS.

(** The general handler rejects an operator filter outside airtel, mtn and
    both before any statement is sent. *)
Lemma loan_data_invalid_telco (p : pool) (query : gmap string string) :
  toLowerCase (default "both" (query !! "telco")) <> "airtel" ->
  toLowerCase (default "both" (query !! "telco")) <> "mtn" ->
  toLowerCase (default "both" (query !! "telco")) <> "both" ->
  loan_data p query =
    ([], {| status := 400; json := Error "Invalid telco parameter" None |}).
Proof.
  intros Ha Hm Hb. unfold loan_data. cbv zeta.
  apply String.eqb_neq in Ha, Hm, Hb. rewrite Ha, Hm, Hb. reflexivity.
Qed.

(** C7, on the code. For an operator filter outside airtel, mtn and both
    (in any letter case) no handler sends a statement; the general handler
    answers 400 "Invalid telco parameter", but the handler of one loan type
    answers 200 with an empty record list. *)
Theorem invalid_telco_by_type_is_not_rejected (p : pool) (query : gmap string string)
    (loanType : string) (dbLoanType : property) :
  loanTypeMap loanType = Some dbLoanType ->
  toLowerCase (default "both" (query !! "telco")) <> "airtel" ->
  toLowerCase (default "both" (query !! "telco")) <> "mtn" ->
  toLowerCase (default "both" (query !! "telco")) <> "both" ->
  loan_data p query =
    ([], {| status := 400; json := Error "Invalid telco parameter" None |})
  /\ loan_data_by_type p query loanType =
       ([], {| status := 200;
               json := LoanTypeData [] dbLoanType 0 (default "both" (query !! "telco"))
                         (parseInt (VStr (default "7" (query !! "days"))))
                         (query !! "start_date") (query !! "end_date") |}).
Proof.
  intros Hmap Ha Hm Hb.
  split; [apply loan_data_invalid_telco; assumption|].
  unfold loan_data_by_type. cbv zeta. rewrite Hmap.
  apply String.eqb_neq in Ha, Hm, Hb. rewrite Ha, Hm, Hb. reflexivity.
Qed.

Lemma invalid_telco_by_type_is_not_rejected_witness :
  loan_data_by_type sample_pool unknown_telco "7" =
    ([], {| status := 200;
            json := LoanTypeData [] (Own "Nano 7D") 0 "vodafone" 7 None None |}).
Proof.
  apply (proj2 (invalid_telco_by_type_is_not_rejected sample_pool
                  unknown_telco "7" (Own "Nano 7D")
                  ltac:(reflexivity)
                  ltac:(vm_compute; discriminate)
                  ltac:(vm_compute; discriminate)
                  ltac:(vm_compute; discriminate))).
Defined.

(** C2, on the code. A GET of /api/loan-data/summary is matched by the
    route of the per-type handler, registered before the summary route, with
    [loanType] bound to "summary"; whatever the query, no statement is sent
    and the answer is 400 "Invalid loan type". The summary handler is not
    reached. *)
Theorem summary_route_is_shadowed (p : pool) (query : gmap string string) :
  dispatch "/api/loan-data/summary" = Some (LoanDataByType, [("loanType", "summary")])
  /\ app p "/api/loan-data/summary" query =
       Served ([], {| status := 400; json := Error "Invalid loan type" None |}).
Proof.
  split; [reflexivity|].
  unfold app.
  change (dispatch "/api/loan-data/summary")
    with (Some (LoanDataByType, [("loanType", "summary")])).
  cbv iota beta.
  change (param [("loanType", "summary")] "loanType") with "summary".
  unfold loan_data_by_type. cbv zeta.
  change (loanTypeMap "summary") with (@None property). reflexivity.
Qed.

End RoutingProperties.

(** * Further properties *)

(** ** More on the stable sort *)

Section MoreSortFacts.
Context {A : Type} (after : A -> A -> bool).

Lemma insert_before_filter (P : A -> bool) (x : A) (l : list A) :
  (forall a b, P a = true -> P b = true -> after a b = false) ->
  List.filter P (insert_before after x l) = List.filter P (x :: l).
Proof.
  intros HP. induction l as [|y l IH]; [reflexivity|].
  simpl insert_before. destruct (after x y) eqn:E; [|reflexivity].
  simpl. simpl in IH. rewrite IH.
  destruct (P x) eqn:Px; destruct (P y) eqn:Py; try reflexivity.
  rewrite (HP x y Px Py) in E. discriminate.
Qed.

Lemma stable_sort_filter (P : A -> bool) (l : list A) :
  (forall a b, P a = true -> P b = true -> after a b = false) ->
  List.filter P (stable_sort after l) = List.filter P l.
Proof.
  intros HP. induction l as [|x l IH]; [reflexivity|].
  simpl stable_sort. rewrite insert_before_filter by exact HP.
  simpl. fold (stable_sort after l). now rewrite IH.
Qed.

Lemma stable_sort_fixed (l : list A) :
  StronglySorted (fun a b => after a b = false) l -> stable_sort after l = l.
Proof.
  induction 1 as [|x l Hs IH Hx]; [reflexivity|].
  simpl. fold (stable_sort after l). rewrite IH.
  destruct l as [|y l']; [reflexivity|].
  simpl. inversion Hx as [|? ? Hy _]; subst. now rewrite Hy.
Qed.

Variable key : A -> Z.

Lemma insert_before_sorted_by (x : A) (l : list A) :
  (forall y, In y l -> after x y = true -> key y <= key x) ->
  (forall y, In y l -> after x y = false -> key x <= key y) ->
  StronglySorted (fun a b => key a <= key b) l ->
  StronglySorted (fun a b => key a <= key b) (insert_before after x l).
Proof.
  intros Ht Hf Hs. induction Hs as [|y l Hs IH Hy]; simpl.
  - repeat constructor.
  - destruct (after x y) eqn:E.
    + constructor.
      * apply IH; intros z Hz; [apply Ht | apply Hf]; now right.
      * apply (Permutation_Forall (Permutation_sym (insert_before_perm after x l))).
        constructor; [apply Ht; [now left | exact E] | exact Hy].
    + assert (key x <= key y) by (apply Hf; [now left | exact E]).
      constructor; [now constructor|].
      constructor; [assumption|].
      eapply Forall_impl; [exact Hy|]. simpl. intros z Hz. lia.
Qed.

Lemma stable_sort_sorted_by (l : list A) :
  (forall x y, In x l -> In y l -> after x y = true -> key y <= key x) ->
  (forall x y, In x l -> In y l -> after x y = false -> key x <= key y) ->
  StronglySorted (fun a b => key a <= key b) (stable_sort after l).
Proof.
  induction l as [|x l IH]; intros Ht Hf; simpl; [constructor|].
  apply insert_before_sorted_by.
  - intros y Hy. apply Ht; [now left | right].
    apply (proj1 (stable_sort_In after y l)). exact Hy.
  - intros y Hy. apply Hf; [now left | right].
    apply (proj1 (stable_sort_In after y l)). exact Hy.
  - apply IH; intros a b Ha Hb; [apply Ht | apply Hf]; now right.
Qed.

Lemma Sorted_weaken (R R' : A -> A -> Prop) (l : list A) :
  (forall a b, R a b -> R' a b) -> Sorted R l -> Sorted R' l.
Proof.
  intros HR. induction 1 as [|x l Hs IH Hx]; constructor; [exact IH|].
  destruct Hx; constructor. now apply HR.
Qed.

Lemma insert_before_adjacent (x : A) (l : list A) :
  (forall a b, after a b = true -> after b a = false) ->
  Sorted (fun a b => after a b = false) l ->
  Sorted (fun a b => after a b = false) (insert_before after x l).
Proof.
  intros Hasym Hs. induction Hs as [|y l Hs IH Hy]; simpl.
  - repeat constructor.
  - destruct (after x y) eqn:E.
    + constructor; [exact IH|].
      destruct l as [|z l']; simpl.
      * constructor. now apply Hasym.
      * destruct (after x z); constructor; [now inversion Hy | now apply Hasym].
    + constructor; [now constructor|]. constructor. exact E.
Qed.

Lemma stable_sort_adjacent (l : list A) :
  (forall a b, after a b = true -> after b a = false) ->
  Sorted (fun a b => after a b = false) (stable_sort after l).
Proof.
  intros Hasym. induction l as [|x l IH]; simpl; [constructor|].
  now apply insert_before_adjacent.
Qed.

Lemma Sorted_firstn (R : A -> A -> Prop) (n : nat) (l : list A) :
  Sorted R l -> Sorted R (firstn n l).
Proof.
  revert l. induction n as [|n IH]; intros l Hs; [constructor|].
  destruct Hs as [|x l Hs Hx]; simpl; [constructor|].
  constructor; [now apply IH|].
  destruct Hx; [destruct n; constructor | destruct n; simpl; constructor; assumption].
Qed.

Lemma StronglySorted_firstn (R : A -> A -> Prop) (n : nat) (l : list A) :
  StronglySorted R l -> StronglySorted R (firstn n l).
Proof.
  revert l. induction n as [|n IH]; intros l Hs; [constructor|].
  destruct Hs as [|x l Hs Hx]; simpl; [constructor|].
  constructor; [now apply IH|].
  rewrite Forall_forall in Hx |- *. intros y Hy. apply Hx.
  apply list_elem_of_In. apply list_elem_of_In in Hy.
  revert Hy. clear. revert l. induction n as [|n IH]; intros [|z l]; simpl; try tauto.
  intros [-> | H]; [now left | right; now apply IH].
Qed.

End MoreSortFacts.

(** ** More on the normaliser *)

Section MoreNormaliser.
Import JS.

Ltac in_columns := unfold read_columns; repeat (first [left; reflexivity | right]).

(** X1. A record is a function of the two date columns and of the
    twenty-four columns the normaliser reads by name: two rows that agree
    on them give the same record, so setting any other column of a row
    changes nothing in its record. *)
Theorem record_depends_on_read_columns :
  (forall r1 r2 : raw_row,
     row_load_date r1 = row_load_date r2 ->
     row_processed_at r1 = row_processed_at r2 ->
     (forall k, In k read_columns -> col r1 k = col r2 k) ->
     convertRow r1 = convertRow r2)
  /\ (forall (row : raw_row) (k : string) (v : value),
        ~ In k read_columns ->
        convertRow (with_column k v row) = convertRow row).
Proof.
  assert (Hagree : forall r1 r2 : raw_row,
     row_load_date r1 = row_load_date r2 ->
     row_processed_at r1 = row_processed_at r2 ->
     (forall k, In k read_columns -> col r1 k = col r2 k) ->
     convertRow r1 = convertRow r2).
  { intros r1 r2 Hd Hp Hc. unfold convertRow. rewrite Hd, Hp.
    repeat match goal with
           | |- context [col r1 ?k] => rewrite (Hc k) by in_columns
           end.
    reflexivity. }
  split; [exact Hagree|].
  intros row k v Hk. apply Hagree; [reflexivity | reflexivity |].
  intros k' Hk'. apply col_with_column_ne. intros ->. contradiction.
Qed.

Lemma record_depends_on_read_columns_witness :
  convertRow (with_column "comment" (VStr "late run") partly_recovered_row)
  = convertRow partly_recovered_row.
Proof.
  apply (proj2 record_depends_on_read_columns).
  unfold read_columns. intros H. simpl in H.
  repeat (destruct H as [H | H]; [discriminate|]). exact H.
Defined.

(** X2. The two date texts of a record. A null or invalid [load_date]
    raises no error: the date reads "Invalid date" and the comparator of
    the merge gets NaN for it against every record; a valid one gives its
    calendar date, a text of ten characters for a year of four digits. A
    null [processed_at] gives the empty text, an invalid one (it is truthy)
    "Invalid date", and a valid one a text of nineteen characters. For a
    stored row this means: a timestamp of the supported range is shown as
    it is stored, and the zero date as "Invalid date". *)
Theorem date_texts_of_a_record (row : raw_row) :
  let r := convertRow row in
  ((row_load_date row = None \/ row_load_date row = Some Invalid_Date) ->
     date r = "Invalid date"
     /\ forall other, by_date_desc r other = None /\ by_date_desc other r = None)
  /\ (forall d, row_load_date row = Some (Date_at d) ->
        date r = format_date d
        /\ (valid_date d = true -> String.length (date r) = 10%nat))
  /\ (row_processed_at row = None -> processed_at r = "")
  /\ (row_processed_at row = Some Invalid_Date -> processed_at r = "Invalid date")
  /\ (forall d, row_processed_at row = Some (Date_at d) ->
        processed_at r = format_date d ++ " " ++ format_time d
        /\ (valid_date d = true -> String.length (processed_at r) = 19%nat))
  /\ (forall (s : MySQL.db_row) (d : datetime),
        row = MySQL.fetch s -> MySQL.c_processed_at s = Some d ->
        (supported_date d = true ->
           processed_at r = format_date d ++ " " ++ format_time d)
        /\ (valid_date d = false -> processed_at r = "Invalid date")).
Proof.
  intros r. unfold r, convertRow. cbn [date processed_at].
  split; [|split; [|split; [|split; [|split]]]].
  - intros H. assert (E : moment_format (row_load_date row) YYYY_MM_DD = "Invalid date")
      by (destruct H as [-> | ->]; reflexivity).
    split; [exact E|]. intros other. unfold by_date_desc.
    cbn [date]. rewrite E.
    change (Date_value "Invalid date") with (@None Z).
    split; [destruct (Date_value (date other)) | ]; reflexivity.
  - intros d ->. split; reflexivity.
  - intros ->. reflexivity.
  - intros ->. reflexivity.
  - intros d ->. split; reflexivity.
  - intros s d -> Hd. cbn [MySQL.fetch row_processed_at]. rewrite Hd. simpl.
    split.
    + intros Hs. now rewrite (driver_Date_supported d Hs).
    + intros Hv. unfold driver_Date. rewrite Hv. reflexivity.
Qed.

Lemma date_texts_of_a_record_witness :
  date (convertRow empty_row) = "Invalid date"
  /\ processed_at (convertRow empty_row) = ""
  /\ String.length (date (convertRow partly_recovered_row)) = 10%nat
  /\ String.length (processed_at (convertRow partly_recovered_row)) = 19%nat
  /\ processed_at (convertRow (MySQL.fetch second_run)) = "2025-08-06 02:00:00"
  /\ processed_at (convertRow (MySQL.fetch zero_stamped)) = "Invalid date".
Proof.
  pose proof (date_texts_of_a_record empty_row) as (H1 & _ & H3 & _).
  pose proof (date_texts_of_a_record partly_recovered_row) as (_ & H2 & _ & _ & H4 & _).
  pose proof (date_texts_of_a_record (MySQL.fetch second_run)) as (_ & _ & _ & _ & _ & H5).
  pose proof (date_texts_of_a_record (MySQL.fetch zero_stamped)) as (_ & _ & _ & _ & _ & H6).
  split; [exact (proj1 (H1 (or_introl eq_refl)))|].
  split; [exact (H3 eq_refl)|].
  split; [exact (proj2 (H2 _ eq_refl) eq_refl)|].
  split; [exact (proj2 (H4 _ eq_refl) eq_refl)|].
  split.
  - exact (proj1 (H5 second_run _ eq_refl eq_refl) eq_refl).
  - exact (proj2 (H6 zero_stamped _ eq_refl eq_refl) eq_refl).
Defined.

(** X3. The merge sort of the handlers is stable: for every list of
    records whose dates are all readable, and every date, the records of
    that date stand in the sorted list in the order they had before. *)
Theorem records_of_a_date_keep_their_order (l : list LoanRecord) (t : Z) :
  Forall (fun x => exists t', Date_value (date x) = Some t') l ->
  List.filter (dated t) (Array_sort by_date_desc l) = List.filter (dated t) l.
Proof.
  intros _. unfold Array_sort. apply stable_sort_filter.
  intros a b Ha Hb. unfold dated in Ha, Hb. unfold by_date_desc.
  destruct (Date_value (date a)) as [ta|]; [|discriminate].
  destruct (Date_value (date b)) as [tb|]; [|discriminate].
  apply Z.eqb_eq in Ha, Hb. subst. apply Z.ltb_ge. lia.
Qed.

Lemma records_of_a_date_keep_their_order_witness :
  List.filter (dated 1754438400000)
    (Array_sort by_date_desc
       (convertToDashboardFormat [fee_above_gross_row; partly_recovered_row]))
  = List.filter (dated 1754438400000)
      (convertToDashboardFormat [fee_above_gross_row; partly_recovered_row]).
Proof.
  apply (records_of_a_date_keep_their_order _ 1754438400000).
  repeat constructor; eexists; vm_compute; reflexivity.
Defined.

(** X4. Sorting changes nothing in a list of records that is already in
    descending order of date; so, for records whose dates are all readable,
    sorting twice is sorting once. *)
Theorem sorting_sorted_records_is_identity (l : list LoanRecord) :
  (StronglySorted date_descending l -> Array_sort by_date_desc l = l)
  /\ (Forall (fun x => exists t, Date_value (date x) = Some t) l ->
      Array_sort by_date_desc (Array_sort by_date_desc l) = Array_sort by_date_desc l).
Proof.
  assert (Hfixed : forall l', StronglySorted date_descending l' ->
                              Array_sort by_date_desc l' = l').
  { intros l' Hs. unfold Array_sort. apply stable_sort_fixed.
    apply (StronglySorted_weaken (fun _ => True) date_descending); [|now apply Forall_forall|exact Hs].
    intros a b _ _ (ta & tb & Ha & Hb & Hle). unfold by_date_desc.
    rewrite Ha, Hb. apply Z.ltb_ge. lia. }
  split; [apply Hfixed|].
  intros Hl. apply Hfixed. now apply Array_sort_by_date.
Qed.

Lemma sorting_sorted_records_is_identity_witness :
  Array_sort by_date_desc
    (Array_sort by_date_desc
       (convertToDashboardFormat [fee_above_gross_row; partly_recovered_row]))
  = Array_sort by_date_desc
      (convertToDashboardFormat [fee_above_gross_row; partly_recovered_row]).
Proof.
  apply (proj2 (sorting_sorted_records_is_identity _)).
  repeat constructor; eexists; vm_compute; reflexivity.
Defined.

End MoreNormaliser.

(** ** More on the loan statement *)

Section MoreStatementFacts.
Import MySQL.

Lemma same_key_trans (a b c : db_row) :
  same_key a b = true -> same_key b c = true -> same_key a c = true.
Proof.
  intros H1 H2.
  apply same_key_columns in H1 as (da & db & la & lb & na & nb & Ha & Hb & Hla & Hlb & Hna & Hnb & Hd & -> & ->).
  apply same_key_columns in H2 as (db' & dc & lb' & lc & nb' & nc & Hb' & Hc & Hlb' & Hlc & Hnb' & Hnc & Hd' & -> & ->).
  rewrite Hb in Hb'. injection Hb' as <-.
  rewrite Hlb in Hlb'. injection Hlb' as <-.
  rewrite Hnb in Hnb'. injection Hnb' as <-.
  eapply same_key_of_columns; eauto. lia.
Qed.

Lemma same_key_refl_r (a b : db_row) : same_key a b = true -> same_key b b = true.
Proof.
  intros H.
  apply same_key_columns in H as (da & db & la & lb & na & nb & Ha & Hb & Hla & Hlb & Hna & Hnb & Hd & -> & ->).
  eapply same_key_of_columns; eauto.
Qed.

Lemma same_key_refl_l (a b : db_row) : same_key a b = true -> same_key a a = true.
Proof.
  intros H.
  apply same_key_columns in H as (da & db & la & lb & na & nb & Ha & Hb & Hla & Hlb & Hna & Hnb & Hd & -> & ->).
  eapply same_key_of_columns; eauto.
Qed.

Lemma latest_snapshot_columns (tbl : list db_row) (r : db_row) :
  latest_snapshot tbl r = true ->
  exists d s n p,
    c_load_date r = Some d /\ c_loan_type r = Some s
    /\ c_denom r = Some n /\ c_processed_at r = Some p.
Proof.
  unfold latest_snapshot. destruct (c_processed_at r) as [p|]; [|discriminate].
  destruct (max_processed_at _) as [m|] eqn:Em; [|discriminate]. intros _.
  destruct (max_processed_at_attained _ _ Em) as (r' & p' & Hr' & _ & _).
  apply List.filter_In in Hr' as [_ Hk].
  apply same_key_columns in Hk as (_ & d & _ & s & _ & n & _ & Hd & _ & Hs & _ & Hn & _).
  exists d, s, n, p. auto.
Qed.

(** X5. A loan statement never returns a row whose load_date, loan_type,
    denom or processed_at is NULL: the comparison with the greatest
    timestamp of the key is not TRUE for such a row. *)
Theorem returned_rows_have_their_key (db : database) (q : select_loans) (r : db_row) :
  In r (stored_rows db q) ->
  exists d s n p,
    c_load_date r = Some d /\ c_loan_type r = Some s
    /\ c_denom r = Some n /\ c_processed_at r = Some p.
Proof.
  intros Hr. apply stored_rows_selected in Hr as [_ Hsel].
  unfold selected in Hsel. apply andb_true_iff in Hsel as [_ Hlatest].
  now apply latest_snapshot_columns in Hlatest.
Qed.

Lemma returned_rows_have_their_key_witness :
  exists d s n p,
    c_load_date second_run = Some d /\ c_loan_type second_run = Some s
    /\ c_denom second_run = Some n /\ c_processed_at second_run = Some p.
Proof.
  apply (returned_rows_have_their_key sample_db (default_select airtel_loan_data)).
  vm_compute. tauto.
Defined.

(** X6. A tie is not broken: when two rows of the table share the key and
    the processing timestamp and one of them is returned, the other one is
    returned too, provided it passes the conditions and the limit does not
    cut the result. *)
Theorem tied_rows_are_returned_together (db : database) (q : select_loans)
    (r1 r2 : db_row) (p1 p2 : datetime) (n : nat) :
  In r2 (rows_of db (from q)) ->
  same_key r2 r1 = true ->
  c_processed_at r1 = Some p1 -> c_processed_at r2 = Some p2 ->
  seconds p1 = seconds p2 ->
  In r1 (stored_rows db q) ->
  forallb (fun c => is_true (holds db c r2)) (conditions q) = true ->
  row_count (limit q) = Some n ->
  (length (List.filter (selected db q) (rows_of db (from q))) <= n)%nat ->
  In r2 (stored_rows db q).
Proof.
  intros H2 Hk Hp1 Hp2 Heq H1 Hconds Hn Hlen.
  apply stored_rows_selected in H1 as [H1 Hsel].
  unfold selected in Hsel. apply andb_true_iff in Hsel as [_ Hlatest].
  apply latest_snapshot_max in Hlatest as (p & Hp & Hmax).
  rewrite Hp1 in Hp. injection Hp as <-.
  unfold stored_rows. rewrite Hn.
  rewrite firstn_all2 by (now rewrite stable_sort_length).
  apply stable_sort_In. apply List.filter_In. split; [exact H2|].
  unfold selected. rewrite Hconds. simpl.
  apply (latest_snapshot_of_max _ r2 p2); [exact H2 | | exact Hp2 |].
  - now apply same_key_refl_l in Hk.
  - intros r' p' Hr' Hk' Hp'. rewrite <- Heq.
    apply (Hmax r' p' Hr'); [|exact Hp']. now apply (same_key_trans r' r2 r1).
Qed.

Lemma tied_rows_are_returned_together_witness :
  In tied_run (stored_rows tied_db (default_select airtel_loan_data)).
Proof.
  apply (tied_rows_are_returned_together tied_db (default_select airtel_loan_data)
           second_run tied_run
           (at_time (date_of 2025 8 6) 2 0 0) (at_time (date_of 2025 8 6) 2 0 0) 1000).
  - simpl. tauto.
  - vm_compute. reflexivity.
  - reflexivity.
  - reflexivity.
  - reflexivity.
  - vm_compute. tauto.
  - vm_compute. reflexivity.
  - vm_compute. reflexivity.
  - vm_compute. lia.
Defined.

(** X7. Every row a loan statement returns passes each of its conditions:
    with a trailing window of [k] days its load_date is not before the
    current date minus [k] days, with a date range it lies within the two
    dates the server reads from the texts, with an operator condition its
    telco is one of the two names, and with a loan-type pattern its
    loan_type matches the pattern. *)
Theorem returned_rows_pass_the_conditions (db : database) (q : select_loans)
    (r : db_row) :
  In r (stored_rows db q) ->
  (forall k, In (DateSince k) (conditions q) ->
     exists d z, c_load_date r = Some d /\ integer_of k = Some z
       /\ day_number (curdate db) - z <= day_number d)
  /\ (forall s e, In (DateBetween s e) (conditions q) ->
        exists d lo hi, c_load_date r = Some d
          /\ to_date db s = Some lo /\ to_date db e = Some hi
          /\ day_number lo <= day_number d <= day_number hi)
  /\ (forall a b, In (TelcoIs a b) (conditions q) ->
        c_telco r = Some a \/ c_telco r = Some b)
  /\ (forall pat, In (LoanTypeLike pat) (conditions q) ->
        exists s, c_loan_type r = Some s
          /\ like (list_ascii_of_string pat) (list_ascii_of_string s) = true).
Proof.
  intros Hr. apply stored_rows_selected in Hr as [_ Hsel].
  unfold selected in Hsel. apply andb_true_iff in Hsel as [Hall _].
  rewrite forallb_forall in Hall.
  split; [|split; [|split]].
  - intros k Hk. specialize (Hall _ Hk). simpl in Hall.
    destruct (c_load_date r) as [d|]; [|discriminate].
    destruct (integer_of k) as [z|]; [|discriminate].
    unfold date_sub in Hall.
    destruct (_ && _); [|discriminate].
    exists d, z. repeat split.
    simpl in Hall. destruct (_ <=? _) eqn:E; [|discriminate].
    now apply Z.leb_le in E.
  - intros s e Hk. specialize (Hall _ Hk). simpl in Hall.
    destruct (c_load_date r) as [d|]; [|discriminate].
    destruct (to_date db s) as [lo|]; [|discriminate].
    destruct (to_date db e) as [hi|]; [|discriminate].
    exists d, lo, hi. repeat split;
      simpl in Hall; destruct (_ <=? _) eqn:E1; try discriminate;
      destruct (day_number d <=? _) eqn:E2; try discriminate;
      apply Z.leb_le in E1, E2; assumption.
  - intros a b Hk. specialize (Hall _ Hk). simpl in Hall.
    destruct (c_telco r) as [t|]; [|discriminate]. simpl in Hall.
    destruct (String.eqb t a) eqn:Ea;
      [apply String.eqb_eq in Ea; left; now subst|].
    destruct (String.eqb t b) eqn:Eb;
      [apply String.eqb_eq in Eb; right; now subst | discriminate].
  - intros pat Hk. specialize (Hall _ Hk). simpl in Hall.
    destruct (c_loan_type r) as [s|]; [|discriminate].
    exists s. split; [reflexivity|].
    simpl in Hall. destruct (like _ _); [reflexivity | discriminate].
Qed.

Lemma returned_rows_pass_the_conditions_witness :
  exists d z, c_load_date second_run = Some d /\ integer_of 7 = Some z
    /\ day_number (curdate sample_db) - z <= day_number d.
Proof.
  apply (proj1 (returned_rows_pass_the_conditions sample_db
                  (default_select airtel_loan_data) second_run
                  ltac:(vm_compute; tauto)) 7%float).
  simpl. now left.
Defined.

End MoreStatementFacts.

(** ** Order and pattern of the loan statement *)

Section OrderAndPattern.
Import MySQL.

Lemma ltb_string_asym (s1 s2 : string) :
  String.ltb s1 s2 = true -> String.ltb s2 s1 = false.
Proof.
  unfold String.ltb. rewrite (String.compare_antisym s2 s1).
  destruct (String.compare s1 s2); simpl; congruence.
Qed.

Lemma lt_option_Z_asym (a b : option Z) :
  lt_option Z.ltb a b = true ->
  lt_option Z.ltb b a = false /\ eq_option Z.eqb b a = false.
Proof.
  destruct a as [x|], b as [y|]; simpl; try discriminate; try (split; reflexivity).
  intros H. apply Z.ltb_lt in H. split; [apply Z.ltb_ge | apply Z.eqb_neq]; lia.
Qed.

Lemma eq_option_Z_eq (a b : option Z) : eq_option Z.eqb a b = true -> a = b.
Proof.
  destruct a as [x|], b as [y|]; simpl; try discriminate; [|reflexivity].
  intros H. apply Z.eqb_eq in H. now subst.
Qed.

Lemma lt_option_string_asym (a b : option string) :
  lt_option String.ltb a b = true -> lt_option String.ltb b a = false.
Proof.
  destruct a as [x|], b as [y|]; simpl; try discriminate; try reflexivity.
  apply ltb_string_asym.
Qed.

Lemma lt_option_Z_irrefl (a : option Z) : lt_option Z.ltb a a = false.
Proof. destruct a; simpl; [apply Z.ltb_irrefl | reflexivity]. Qed.

Lemma comes_after_asym (o : ordering) (a b : db_row) :
  comes_after o a b = true -> comes_after o b a = false.
Proof.
  unfold comes_after. intros H. apply orb_true_iff in H as [H | H].
  - apply lt_option_Z_asym in H as [-> ->]. now destruct o.
  - destruct o; [|discriminate].
    apply andb_true_iff in H as [He Ht].
    apply eq_option_Z_eq in He. rewrite He, lt_option_Z_irrefl.
    apply lt_option_string_asym in Ht. rewrite Ht. simpl. apply andb_false_r.
Qed.

Lemma selected_rows_dated (db : database) (q : select_loans) :
  Forall (fun r => exists d, c_load_date r = Some d)
    (List.filter (selected db q) (rows_of db (from q))).
Proof.
  apply Forall_forall. intros r Hr. apply list_elem_of_In, List.filter_In in Hr as [_ Hsel].
  unfold selected in Hsel. apply andb_true_iff in Hsel as [_ Hl].
  apply latest_snapshot_columns in Hl as (d & _ & _ & _ & Hd & _). now exists d.
Qed.

(** X8. The rows of a loan statement come back in descending order of
    load_date, and for the general statement two neighbouring rows of the
    same date are in ascending order of loan_type. *)
Theorem returned_rows_are_ordered (db : database) (q : select_loans) :
  StronglySorted not_before (stored_rows db q)
  /\ (order_by q = ByDateThenType ->
      Sorted (fun a b => forall la lb,
                c_loan_type a = Some la -> c_loan_type b = Some lb ->
                date_key a = date_key b -> String.ltb lb la = false)
        (stored_rows db q)).
Proof.
  unfold stored_rows. destruct (row_count (limit q)) as [n|]; [|split; constructor].
  pose proof (selected_rows_dated db q) as Hdated.
  set (rows := List.filter (selected db q) (rows_of db (from q))) in *.
  split.
  - apply StronglySorted_firstn.
    set (key := fun r : db_row => - default 0 (date_key r)).
    apply (StronglySorted_weaken (fun r => exists d, c_load_date r = Some d)
             (fun a b => key a <= key b)).
    + intros a b (da & Ha) (db' & Hb) Hab. exists da, db'.
      repeat split; [assumption..|].
      unfold key, date_key in Hab. rewrite Ha, Hb in Hab. simpl in Hab. lia.
    + rewrite Forall_forall in Hdated |- *. intros r Hr. apply Hdated.
      apply list_elem_of_In. apply list_elem_of_In in Hr.
      now apply stable_sort_In in Hr.
    + rewrite Forall_forall in Hdated.
      apply stable_sort_sorted_by; intros x y Hx Hy;
        destruct (Hdated x ltac:(now apply list_elem_of_In)) as (dx & Ex);
        destruct (Hdated y ltac:(now apply list_elem_of_In)) as (dy & Ey);
        unfold comes_after, key, date_key; rewrite Ex, Ey; simpl; intros H.
      * apply orb_true_iff in H as [H | H]; [apply Z.ltb_lt in H; lia|].
        destruct (order_by q); [|discriminate].
        apply andb_true_iff in H as [H _]. apply Z.eqb_eq in H. lia.
      * apply orb_false_iff in H as [H _]. apply Z.ltb_ge in H. lia.
  - intros Ho. apply Sorted_firstn.
    apply (Sorted_weaken (fun a b => comes_after (order_by q) a b = false)).
    + intros a b Hab la lb Hla Hlb Hd. rewrite Ho in Hab.
      unfold comes_after in Hab. apply orb_false_iff in Hab as [_ Hab].
      rewrite Hd, Hla, Hlb in Hab. simpl in Hab.
      assert (E : eq_option Z.eqb (date_key b) (date_key b) = true)
        by (destruct (date_key b); simpl; [apply Z.eqb_refl | reflexivity]).
      rewrite E in Hab. exact Hab.
    + apply stable_sort_adjacent. apply comes_after_asym.
Qed.

Lemma returned_rows_are_ordered_witness :
  StronglySorted not_before
    (stored_rows unordered_db (default_select airtel_loan_data))
  /\ Sorted (fun a b => forall la lb,
               c_loan_type a = Some la -> c_loan_type b = Some lb ->
               date_key a = date_key b -> String.ltb lb la = false)
       (stored_rows unordered_db (default_select airtel_loan_data))
  /\ map (fun r => (c_load_date r, c_loan_type r))
       (stored_rows unordered_db (default_select airtel_loan_data)) =
     [ (Some (date_of 2025 8 6), Some "Nano 14D");
       (Some (date_of 2025 8 6), Some "Nano 7D");
       (Some (date_of 2025 8 5), Some "Nano 14D");
       (Some (date_of 2025 8 5), Some "Nano 7D") ].
Proof.
  pose proof (returned_rows_are_ordered unordered_db (default_select airtel_loan_data))
    as [Hdate Htype].
  split; [exact Hdate|]. split; [apply Htype; reflexivity|].
  vm_compute. reflexivity.
Defined.

Lemma like_any (p s : list ascii) :
  like ("%"%char :: p) s =
  like p s || match s with [] => false | _ :: s' => like ("%"%char :: p) s' end.
Proof. destruct s; reflexivity. Qed.

Lemma like_plain (c : ascii) (p s : list ascii) :
  plain c = true ->
  like (c :: p) s =
  match s with [] => false | a :: s' => Ascii.eqb a c && like p s' end.
Proof.
  unfold plain. rewrite negb_true_iff, !orb_false_iff. intros [[H1 H2] H3].
  destruct p as [|e p']; simpl; rewrite H1, H2, ?H3; reflexivity.
Qed.

Lemma like_any_split (p s : list ascii) :
  like ("%"%char :: p) s = true <-> exists a b, s = (a ++ b)%list /\ like p b = true.
Proof.
  split.
  - induction s as [|c s IH]; rewrite like_any; intros H.
    + rewrite orb_false_r in H. exists [], []. auto.
    + apply orb_true_iff in H as [H | H].
      * exists [], (c :: s). auto.
      * destruct (IH H) as (a & b & -> & Hb). exists (c :: a), b. auto.
  - intros (a & b & -> & Hb). induction a as [|c a IH]; cbn [List.app]; rewrite like_any.
    + now rewrite Hb.
    + rewrite IH. apply orb_true_r.
Qed.

Lemma like_plain_prefix (v p s : list ascii) :
  forallb plain v = true ->
  like (v ++ p) s = true <-> exists rest, s = (v ++ rest)%list /\ like p rest = true.
Proof.
  revert s. induction v as [|c v IH]; intros s Hv.
  - simpl. split; [intros H; now exists s | intros (rest & -> & H); exact H].
  - simpl in Hv. apply andb_true_iff in Hv as [Hc Hv].
    cbn [List.app]. rewrite like_plain by exact Hc.
    destruct s as [|a s]; [split; [discriminate | intros (rest & E & _); discriminate]|].
    rewrite andb_true_iff, Ascii.eqb_eq, (IH s Hv). split.
    + intros [-> (rest & -> & H)]. now exists rest.
    + intros (rest & E & H). injection E as -> ->. split; [reflexivity | now exists rest].
Qed.

Lemma list_ascii_of_string_app (a b : string) :
  list_ascii_of_string (a ++ b) = (list_ascii_of_string a ++ list_ascii_of_string b)%list.
Proof. induction a as [|c a IH]; simpl; [reflexivity | now rewrite IH]. Qed.

(** X9. The loan-type filter is a substring test that minds letter case:
    for a filter text [v] without the characters [%], [_] and backslash, a
    row passes [loan_type LIKE '%v%'] exactly when its loan_type is not
    NULL and contains [v]. *)
Theorem loan_type_filter_is_substring (db : database) (v : string) (r : db_row) :
  forallb plain (list_ascii_of_string v) = true ->
  holds db (LoanTypeLike ("%" ++ v ++ "%")) r = Some true
  <-> exists s a b, c_loan_type r = Some s /\ s = a ++ v ++ b.
Proof.
  intros Hv. simpl holds.
  destruct (c_loan_type r) as [s|];
    [|split; [discriminate | intros (s & a & b & E & _); discriminate]].
  assert (Hlike : like (list_ascii_of_string ("%" ++ v ++ "%")) (list_ascii_of_string s) = true
                  <-> exists a b, s = a ++ v ++ b).
  { change ("%" ++ v ++ "%") with (String "%" (v ++ "%")).
    cbn [list_ascii_of_string]. rewrite list_ascii_of_string_app.
    rewrite like_any_split. split.
    - intros (a & b & E & H).
      apply (like_plain_prefix _ _ _ Hv) in H as (rest & -> & _).
      exists (string_of_list_ascii a), (string_of_list_ascii rest).
      rewrite <- (string_of_list_ascii_of_string s), E.
      rewrite <- (string_of_list_ascii_of_string v) at 2.
      rewrite <- (list_ascii_of_string_of_list_ascii a) at 1.
      rewrite <- (list_ascii_of_string_of_list_ascii rest) at 1.
      rewrite <- !list_ascii_of_string_app.
      now rewrite !string_of_list_ascii_of_string.
    - intros (a & b & ->). exists (list_ascii_of_string a), (list_ascii_of_string (v ++ b)).
      split; [now rewrite list_ascii_of_string_app|].
      rewrite list_ascii_of_string_app. apply (like_plain_prefix _ _ _ Hv).
      exists (list_ascii_of_string b). split; [reflexivity|].
      apply like_any_split. exists (list_ascii_of_string b), []. split; [now rewrite app_nil_r | reflexivity]. }
  split.
  - intros H. injection H as H. exists s.
    apply (proj1 Hlike) in H as (a & b & E). exists a, b. auto.
  - intros (s' & a & b & E & ->). injection E as E. subst s.
    f_equal. apply (proj2 Hlike). now exists a, b.
Qed.

Lemma loan_type_filter_is_substring_witness :
  holds sample_db (LoanTypeLike ("%" ++ "7D" ++ "%")) second_run = Some true.
Proof.
  apply (loan_type_filter_is_substring sample_db "7D" second_run ltac:(reflexivity)).
  exists "Nano 7D", "Nano ", "". split; reflexivity.
Defined.

End OrderAndPattern.

(** ** More on the loan handlers *)

Section MoreHandlerFacts.
Import JS MySQL.

Lemma query_tables_outcome (p : pool) (qs : list select_loans) :
  match query_tables p qs with
  | (sent, Rows all) => Forall (succeeded p) sent /\ all = converted_all p sent
  | (sent, Failed e) =>
      exists before q,
        sent = (before ++ [SelectLoans q])%list
        /\ Forall (succeeded p) before /\ query_loans p q = Failed e
  end.
Proof.
  induction qs as [|q qs IH]; [simpl; split; [constructor | reflexivity]|].
  cbn [query_tables]. destruct (query_loans p q) as [rows|e] eqn:E.
  - assert (Hq : succeeded p (SelectLoans q)) by (exists q; split; [reflexivity | now exists rows]).
    destruct (query_tables p qs) as [sent [all|e]].
    + destruct IH as [Hs ->]. split; [now constructor|].
      simpl. unfold converted at 1. now rewrite E.
    + destruct IH as (before & q' & -> & Hb & Hq').
      exists (SelectLoans q :: before), q'. split; [reflexivity|]. split; [now constructor | exact Hq'].
  - exists [], q. split; [reflexivity|]. split; [constructor | exact E].
Qed.

Ltac finish_handler p :=
  match goal with
  | |- context [query_tables p ?qs] =>
      generalize (query_tables_outcome p qs);
      destruct (query_tables p qs) as [? [?|?]]
  end;
  unfold all_or_nothing; cbn [fst snd status json records count_of];
  [ intros [? ->];
    split; [now left|];
    split; [intros _; split; [assumption|];
            split; [apply stable_sort_perm | reflexivity]|];
    split; intros ?; discriminate
  | intros (? & ? & -> & ? & ?);
    split; [now right; right|];
    split; [intros ?; discriminate|];
    split; [intros ?; discriminate|];
    intros _; do 3 eexists; split; [reflexivity|]; split; [eassumption|];
    split; [eassumption | reflexivity] ].

Lemma loan_data_outcome (p : pool) (query : gmap string string) :
  all_or_nothing p (loan_data p query).
Proof.
  unfold loan_data. cbv zeta.
  match goal with |- context [Nat.eqb ?a 0] => destruct (Nat.eqb a 0) end.
  - unfold all_or_nothing. cbn [fst snd status json records count_of].
    split; [now right; left|]. split; [intros H; discriminate|].
    split; [intros _; split; reflexivity | intros H; discriminate].
  - finish_handler p.
Qed.

Lemma loan_data_by_type_invalid (p : pool) (query : gmap string string)
    (loanType : string) :
  loanTypeMap loanType = None ->
  loan_data_by_type p query loanType =
    ([], {| status := 400; json := Error "Invalid loan type" None |}).
Proof. intros E. unfold loan_data_by_type. cbv zeta. now rewrite E. Qed.

Lemma loan_data_by_type_outcome (p : pool) (query : gmap string string)
    (loanType : string) :
  all_or_nothing p (loan_data_by_type p query loanType).
Proof.
  unfold loan_data_by_type. cbv zeta.
  destruct (loanTypeMap loanType) as [dbLoanType|].
  - finish_handler p.
  - unfold all_or_nothing. cbn [fst snd status json records count_of].
    split; [now right; left|]. split; [intros H; discriminate|].
    split; [intros _; split; reflexivity | intros H; discriminate].
Qed.

(** X10. What the two loan handlers do is all or nothing, for every pool
    and every request whose parameters other than [telco] are single texts.
    When [telco] is an array or object the answer is 500 "Database query
    failed" with the message of the TypeError and nothing is sent (the
    per-type handler answers 400 before that when the loan type is
    invalid). Otherwise the answer is 200, 400 or 500; a 200 carries the
    records of every statement sent, all of which succeeded, and their
    number as [count]; a 400 is given before anything is sent; and after a
    failed statement no further table is queried and the 500 carries the
    error and none of the rows fetched before. *)
Theorem loan_handlers_are_all_or_nothing (p : pool) (telco : option parameter)
    (query : gmap string string) (loanType : string) :
  let general := get_loan_data p telco query in
  let typed := get_loan_data_by_type p telco query loanType in
  (telco = Some Composite ->
     general = thrown "Database query failed"
     /\ (loanTypeMap loanType <> None -> typed = thrown "Database query failed"))
  /\ (telco <> Some Composite -> all_or_nothing p general /\ all_or_nothing p typed)
  /\ (loanTypeMap loanType = None ->
      typed = ([], {| status := 400; json := Error "Invalid loan type" None |})).
Proof.
  intros general typed. unfold general, typed, get_loan_data, get_loan_data_by_type.
  split; [|split].
  - intros ->. split; [reflexivity|].
    destruct (loanTypeMap loanType); [reflexivity | intros H; now destruct H].
  - intros Ht.
    destruct telco as [[t|]|]; [| now destruct Ht |]; cbn [with_telco];
      (split; [apply loan_data_outcome|]);
      (destruct (loanTypeMap loanType) eqn:E; [apply loan_data_by_type_outcome|]);
      rewrite <- (loan_data_by_type_invalid p ∅ loanType E);
      apply loan_data_by_type_outcome.
  - intros ->. reflexivity.
Qed.

Lemma loan_handlers_are_all_or_nothing_witness :
  get_loan_data sample_pool (Some Composite) ∅ = thrown "Database query failed"
  /\ all_or_nothing broken_pool (get_loan_data broken_pool (Some (Text "Airtel")) ∅)
  /\ exists before q e,
       fst (get_loan_data broken_pool None ∅) = (before ++ [SelectLoans q])%list
       /\ Forall (succeeded broken_pool) before
       /\ query_loans broken_pool q = Failed e
       /\ json (snd (get_loan_data broken_pool None ∅)) =
            Error "Database query failed" (Some e).
Proof.
  split; [|split].
  - exact (proj1 (proj1 (loan_handlers_are_all_or_nothing sample_pool
                           (Some Composite) ∅ "7") eq_refl)).
  - apply (proj1 (proj2 (loan_handlers_are_all_or_nothing broken_pool
                           (Some (Text "Airtel")) ∅ "7"))).
    discriminate.
  - apply (proj1 (proj2 (loan_handlers_are_all_or_nothing broken_pool None ∅ "7"))
             ltac:(discriminate)).
    reflexivity.
Defined.

(** *** Where the statements and the records come from *)

Lemma loan_data_sent (p : pool) (query : gmap string string) (s : statement) :
  In s (fst (loan_data p query)) ->
  exists t, In t (tables_of (default "both" (query !! "telco")))
            /\ s = SelectLoans (general_statement query t).
Proof.
  unfold loan_data. cbv zeta.
  match goal with |- context [Nat.eqb ?a 0] => destruct (Nat.eqb a 0) end;
    [intros []|].
  match goal with |- context [query_tables p ?qs] =>
    pose proof (query_tables_sent p qs s) as Hs;
    destruct (query_tables p qs) as [sent [rows|e]] end;
    cbn [fst] in *; intros H; destruct (Hs H) as (q & -> & Hq);
    apply in_map_iff in Hq as (t & <- & Ht); exists t; split;
    solve [exact Ht | reflexivity].
Qed.

Lemma loan_data_by_type_sent (p : pool) (query : gmap string string)
    (loanType : string) (s : statement) :
  In s (fst (loan_data_by_type p query loanType)) ->
  exists t dbLoanType,
    loanTypeMap loanType = Some dbLoanType
    /\ In t (tables_of (default "both" (query !! "telco")))
    /\ s = SelectLoans (typed_statement query dbLoanType t).
Proof.
  unfold loan_data_by_type. cbv zeta.
  destruct (loanTypeMap loanType) as [dbLoanType|]; [|intros []].
  match goal with |- context [query_tables p ?qs] =>
    pose proof (query_tables_sent p qs s) as Hs;
    destruct (query_tables p qs) as [sent [rows|e]] end;
    cbn [fst] in *; intros H; destruct (Hs H) as (q & -> & Hq);
    apply in_map_iff in Hq as (t & <- & Ht); exists t, dbLoanType;
    (split; [reflexivity|]); split; solve [exact Ht | reflexivity].
Qed.

Lemma handler_records (p : pool) (h : handled) (x : LoanRecord) :
  all_or_nothing p h -> In x (records (snd h)) -> In x (converted_all p (fst h)).
Proof.
  intros (Hst & H200 & H400 & H500) Hx.
  destruct Hst as [E | [E | E]].
  - destruct (H200 E) as (_ & Hperm & _). exact (Permutation_in _ Hperm Hx).
  - destruct (H400 E) as [_ Hr]. rewrite Hr in Hx. destruct Hx.
  - destruct (H500 E) as (b & q & e & _ & _ & _ & Hj).
    unfold records in Hx. rewrite Hj in Hx. destruct Hx.
Qed.

Lemma record_origin (db : database) (p : pool) (sent : list statement) (x : LoanRecord) :
  query_loans p = run db ->
  In x (converted_all p sent) ->
  exists q r, In (SelectLoans q) sent /\ In r (stored_rows db q)
              /\ x = convertRow (fetch r).
Proof.
  intros Hp Hx. unfold converted_all in Hx.
  apply in_flat_map in Hx as (s & Hs & Hx).
  destruct s as [q| |]; try contradiction.
  unfold converted in Hx. rewrite Hp in Hx. unfold run in Hx.
  destruct (printed_as_word (limit q)); [contradiction|].
  destruct (row_count (limit q)); [|contradiction].
  destruct (existsb unknown_column (conditions q)); [contradiction|].
  unfold convertToDashboardFormat in Hx.
  apply in_map_iff in Hx as (raw & <- & Hraw).
  apply in_map_iff in Hraw as (r & <- & Hr).
  exists q, r. auto.
Qed.

Lemma selected_condition (db : database) (q : select_loans) (r : db_row)
    (c : condition) :
  In r (stored_rows db q) -> In c (conditions q) -> holds db c r = Some true.
Proof.
  intros Hr Hc. apply stored_rows_selected in Hr as [_ Hsel].
  unfold selected in Hsel. apply andb_true_iff in Hsel as [Hall _].
  rewrite forallb_forall in Hall. specialize (Hall c Hc).
  destruct (holds db c r) as [[|]|]; [reflexivity | discriminate..].
Qed.

Lemma or_val_text (s : string) : or_val (VStr s) (VStr "") = VStr s.
Proof. destruct s; reflexivity. Qed.

Lemma record_telco (r : db_row) :
  telco (convertRow (fetch r)) = VStr (default "" (c_telco r)).
Proof.
  unfold convertRow, col, fetch. cbn [telco row_columns].
  rewrite !lookup_insert_ne by discriminate. rewrite lookup_insert_eq.
  destruct (c_telco r) as [t|]; [apply or_val_text | reflexivity].
Qed.

Lemma record_loan_type (r : db_row) :
  loan_type (convertRow (fetch r)) = VStr (default "" (c_loan_type r)).
Proof.
  unfold convertRow, col, fetch. cbn [loan_type row_columns].
  rewrite lookup_insert_eq.
  destruct (c_loan_type r) as [t|]; [apply or_val_text | reflexivity].
Qed.

Lemma no_telco_in_date_conditions (query : gmap string string) (a b : string) :
  ~ In (TelcoIs a b) (date_conditions query).
Proof.
  unfold date_conditions. destruct (_ && _); simpl; intros [H | []]; discriminate.
Qed.

Lemma no_telco_in_type_conditions (query : gmap string string) (a b : string) :
  ~ In (TelcoIs a b) (type_conditions query).
Proof.
  unfold type_conditions. destruct (truthy_param _); simpl; [intros [H | []]; discriminate | tauto].
Qed.

(** What the statements of the two handlers have in common. *)
Lemma sent_statement (p : pool) (query : gmap string string) (loanType : string)
    (s : statement) :
  In s (fst (loan_data p query)) \/ In s (fst (loan_data_by_type p query loanType)) ->
  exists q t,
    s = SelectLoans q /\ from q = t
    /\ In t (tables_of (default "both" (query !! "telco")))
    /\ (forall a b, In (TelcoIs a b) (conditions q)
                    <-> In (TelcoIs a b) (telco_conditions (default "both" (query !! "telco")))).
Proof.
  intros [H | H].
  - apply loan_data_sent in H as (t & Ht & ->).
    exists (general_statement query t), t. repeat split; auto.
    + cbn [conditions general_statement]. intros Hin.
      apply in_app_or in Hin as [Hin | Hin];
        [now apply no_telco_in_date_conditions in Hin|].
      apply in_app_or in Hin as [Hin | Hin];
        [now apply no_telco_in_type_conditions in Hin | exact Hin].
    + cbn [conditions general_statement]. intros Hin.
      apply in_or_app. right. apply in_or_app. now right.
  - apply loan_data_by_type_sent in H as (t & dbLoanType & _ & Ht & ->).
    exists (typed_statement query dbLoanType t), t. repeat split; auto.
    + cbn [conditions typed_statement]. intros Hin.
      apply in_app_or in Hin as [Hin | Hin];
        [destruct Hin as [Hin | []]; discriminate|].
      apply in_app_or in Hin as [Hin | Hin];
        [now apply no_telco_in_date_conditions in Hin | exact Hin].
    + cbn [conditions typed_statement]. intros Hin.
      apply in_or_app. right. apply in_or_app. now right.
Qed.

(** X11. The operator filter, read without regard to letter case, selects
    the table and the operator condition together, in both loan handlers:
    a statement sent for "airtel" reads airtel_loan_data and carries
    telco = 'Airtel' OR telco = 'airtel'; one sent for "mtn" reads
    MTN_loan_data and carries telco = 'MTN' OR telco = 'mtn'; and one sent
    for "both" carries no operator condition. Nothing is sent for any other
    filter. *)
Theorem operator_selects_table_and_condition (p : pool) (query : gmap string string)
    (loanType : string) (s : statement) :
  In s (fst (loan_data p query)) \/ In s (fst (loan_data_by_type p query loanType)) ->
  let telco := toLowerCase (default "both" (query !! "telco")) in
  (telco = "airtel" /\ reads_table airtel_loan_data s
   /\ carries (TelcoIs "Airtel" "airtel") s)
  \/ (telco = "mtn" /\ reads_table MTN_loan_data s
      /\ carries (TelcoIs "MTN" "mtn") s)
  \/ (telco = "both" /\ forall a b, ~ carries (TelcoIs a b) s).
Proof.
  intros H telco.
  apply sent_statement in H as (q & t & -> & Hfrom & Ht & Hc).
  unfold tables_of in Ht. unfold telco_conditions in Hc. fold telco in Ht, Hc.
  cbn [reads_table carries].
  destruct (String.eqb_spec telco "airtel") as [E | _].
  { left. split; [exact E|]. destruct Ht as [<- | []]. split; [exact Hfrom|].
    apply Hc. now left. }
  destruct (String.eqb_spec telco "mtn") as [E | _].
  { right; left. split; [exact E|]. destruct Ht as [<- | []]. split; [exact Hfrom|].
    apply Hc. now left. }
  destruct (String.eqb_spec telco "both") as [E | _]; [|destruct Ht].
  right; right. split; [exact E|]. intros a b Hin. now apply Hc in Hin.
Qed.

Lemma operator_selects_table_and_condition_witness :
  toLowerCase (default "both" (airtel_only !! "telco")) = "airtel"
  /\ reads_table airtel_loan_data (SelectLoans (general_statement airtel_only airtel_loan_data))
  /\ carries (TelcoIs "Airtel" "airtel")
       (SelectLoans (general_statement airtel_only airtel_loan_data)).
Proof.
  destruct (operator_selects_table_and_condition sample_pool airtel_only "7"
              (SelectLoans (general_statement airtel_only airtel_loan_data))
              ltac:(left; vm_compute; tauto))
    as [H | [[H _] | [H _]]]; [exact H | vm_compute in H; discriminate..].
Defined.

Lemma records_of_operator (db : database) (p : pool) (query : gmap string string)
    (loanType : string) (a b : string) (x : LoanRecord) :
  query_loans p = run db ->
  telco_conditions (default "both" (query !! "telco")) = [TelcoIs a b] ->
  In x (records (snd (loan_data p query)) ++
        records (snd (loan_data_by_type p query loanType)))%list ->
  operator_is a b x.
Proof.
  intros Hp Hc Hx.
  assert (Hsent : exists s, In x (converted_all p [s])
            /\ (In s (fst (loan_data p query))
                \/ In s (fst (loan_data_by_type p query loanType)))).
  { apply in_app_or in Hx as [Hx | Hx];
      [apply (handler_records p _ x (loan_data_outcome p query)) in Hx
      |apply (handler_records p _ x (loan_data_by_type_outcome p query loanType)) in Hx];
      unfold converted_all in Hx; apply in_flat_map in Hx as (s & Hs & Hx);
      exists s; (split; [unfold converted_all; simpl; now rewrite app_nil_r | auto]). }
  destruct Hsent as (s & Hx' & Hs).
  apply (record_origin db p _ _ Hp) in Hx' as (q & r & [E | []] & Hr & ->).
  apply (sent_statement p query loanType) in Hs as (q' & t & E' & _ & _ & Hcond).
  rewrite E' in E. injection E as ->.
  assert (Hin : In (TelcoIs a b) (conditions q)) by (apply Hcond; rewrite Hc; now left).
  pose proof (selected_condition db q r _ Hr Hin) as Hh. simpl in Hh.
  unfold operator_is. rewrite record_telco.
  destruct (c_telco r) as [o|]; [|discriminate]. injection Hh as Hh.
  apply orb_true_iff in Hh as [Hh | Hh]; apply String.eqb_eq in Hh; subst o; auto.
Qed.

(** X12. Against the database, a request for one operator is answered with
    records of that operator only, by both loan handlers: for "airtel", in
    any letter case, every record has the operator Airtel or airtel, and for
    "mtn" MTN or mtn. *)
Theorem records_belong_to_the_operator (db : database) (p : pool)
    (query : gmap string string) (loanType : string) :
  query_loans p = run db ->
  let telco := toLowerCase (default "both" (query !! "telco")) in
  let answered := (records (snd (loan_data p query)) ++
                   records (snd (loan_data_by_type p query loanType)))%list in
  (telco = "airtel" -> Forall (operator_is "Airtel" "airtel") answered)
  /\ (telco = "mtn" -> Forall (operator_is "MTN" "mtn") answered).
Proof.
  intros Hp telco answered.
  split; intros E; apply Forall_forall; intros x Hx; apply list_elem_of_In in Hx;
    apply (records_of_operator db p query loanType _ _ x Hp); try exact Hx;
    unfold telco_conditions; fold telco; rewrite E; reflexivity.
Qed.

Lemma records_belong_to_the_operator_witness :
  Forall (operator_is "Airtel" "airtel")
    (records (snd (loan_data sample_pool airtel_only)) ++
     records (snd (loan_data_by_type sample_pool airtel_only "7")))
  /\ (length (records (snd (loan_data sample_pool airtel_only))) = 2)%nat.
Proof.
  split.
  - apply (proj1 (records_belong_to_the_operator sample_db sample_pool airtel_only "7"
                    ltac:(reflexivity))).
    vm_compute. reflexivity.
  - vm_compute. reflexivity.
Defined.

(** X13. Only the lower-case form of the operator filter matters: two
    requests that differ in the letter case of [telco] alone make both loan
    handlers send the same statements and answer the same status and
    records. *)
Theorem operator_filter_ignores_case (p : pool) (query : gmap string string)
    (loanType t1 t2 : string) :
  toLowerCase t1 = toLowerCase t2 ->
  same_outcome (loan_data p (with_param "telco" t1 query))
               (loan_data p (with_param "telco" t2 query))
  /\ same_outcome (loan_data_by_type p (with_param "telco" t1 query) loanType)
                  (loan_data_by_type p (with_param "telco" t2 query) loanType).
Proof.
  intros Ht.
  assert (H1 : forall t, with_param "telco" t query !! "telco" = Some t)
    by (intros t; apply lookup_insert_eq).
  assert (Hk : forall t k, k <> "telco" -> with_param "telco" t query !! k = query !! k)
    by (intros t k Hne; apply lookup_insert_ne; congruence).
  split; unfold same_outcome.
  - unfold loan_data; cbv zeta.
    rewrite !H1, !Hk by discriminate. cbn [default from_option id]. rewrite !Ht.
    match goal with |- context [Nat.eqb ?a 0] => destruct (Nat.eqb a 0) end;
      [repeat split|].
    match goal with |- context [query_tables p ?qs] =>
      destruct (query_tables p qs) as [sent [rows|e]] end; repeat split.
  - unfold loan_data_by_type; cbv zeta.
    rewrite !H1, !Hk by discriminate. cbn [default from_option id]. rewrite !Ht.
    destruct (loanTypeMap loanType); [|repeat split].
    match goal with |- context [query_tables p ?qs] =>
      destruct (query_tables p qs) as [sent [rows|e]] end; repeat split.
Qed.

Lemma operator_filter_ignores_case_witness :
  same_outcome (loan_data sample_pool (with_param "telco" "AIRTEL" ∅))
               (loan_data sample_pool (with_param "telco" "airtel" ∅)).
Proof.
  exact (proj1 (operator_filter_ignores_case sample_pool ∅ "7" "AIRTEL" "airtel"
                  ltac:(vm_compute; reflexivity))).
Defined.

Lemma range_statement (query : gmap string string) (l1 l2 : list condition) :
  truthy_param (query !! "start_date") && truthy_param (query !! "end_date") = true ->
  (forall c, In c l1 -> exists pat, c = LoanTypeLike pat) ->
  (forall c, In c l2 ->
     (exists pat, c = LoanTypeLike pat) \/ (exists a b, c = TelcoIs a b)) ->
  In (DateBetween (default "" (query !! "start_date")) (default "" (query !! "end_date")))
     (l1 ++ date_conditions query ++ l2)%list
  /\ forall k, ~ In (DateSince k) (l1 ++ date_conditions query ++ l2)%list.
Proof.
  intros Hpair H1 H2. unfold date_conditions. rewrite Hpair. split.
  - apply in_or_app. right. now left.
  - intros k Hin. apply in_app_or in Hin as [Hin | Hin].
    + destruct (H1 _ Hin) as (pat & E). discriminate.
    + destruct Hin as [E | Hin]; [discriminate|].
      destruct (H2 _ Hin) as [(pat & E) | (a & b & E)]; discriminate.
Qed.

Lemma type_conditions_like (query : gmap string string) (c : condition) :
  In c (type_conditions query) -> exists pat, c = LoanTypeLike pat.
Proof.
  unfold type_conditions. destruct (truthy_param _); simpl; [|tauto].
  intros [<- | []]. eauto.
Qed.

Lemma telco_conditions_telco (telco : string) (c : condition) :
  In c (telco_conditions telco) -> exists a b, c = TelcoIs a b.
Proof. apply telco_part_conditions. Qed.

(** X14. A start/end pair takes precedence over [days]: when both are
    supplied and non-empty, every statement of both loan handlers is
    filtered by load_date BETWEEN the two texts as given and by no trailing
    window, and whatever [days] is set to, the statements, the status and
    the records are the same. *)
Theorem date_range_takes_precedence (p : pool) (query : gmap string string)
    (loanType d : string) :
  truthy_param (query !! "start_date") && truthy_param (query !! "end_date") = true ->
  let s := default "" (query !! "start_date") in
  let e := default "" (query !! "end_date") in
  let other := with_param "days" d query in
  (Forall (uses_range s e) (fst (loan_data p query))
   /\ same_outcome (loan_data p query) (loan_data p other))
  /\ (Forall (uses_range s e) (fst (loan_data_by_type p query loanType))
      /\ same_outcome (loan_data_by_type p query loanType)
                      (loan_data_by_type p other loanType)).
Proof.
  intros Hpair s e other.
  assert (Hk : forall k, k <> "days" -> other !! k = query !! k)
    by (intros k Hne; apply lookup_insert_ne; congruence).
  pose proof (Hk "loan_type" ltac:(discriminate)) as K1.
  pose proof (Hk "telco" ltac:(discriminate)) as K2.
  pose proof (Hk "start_date" ltac:(discriminate)) as K3.
  pose proof (Hk "end_date" ltac:(discriminate)) as K4.
  pose proof (Hk "limit" ltac:(discriminate)) as K5.
  split; split.
  - apply Forall_forall. intros st Hst. apply list_elem_of_In in Hst.
    apply loan_data_sent in Hst as (t & _ & ->).
    cbn [uses_range conditions general_statement].
    apply (range_statement query [] _ Hpair); [intros c []|].
    apply tail_conditions; [apply type_conditions_like | apply telco_conditions_telco].
  - unfold same_outcome, loan_data; cbv zeta.
    rewrite ?K1, ?K2, ?K3, ?K4, ?K5, Hpair. cbv iota.
    match goal with |- context [Nat.eqb ?a 0] => destruct (Nat.eqb a 0) end;
      [repeat split|].
    match goal with |- context [query_tables p ?qs] =>
      destruct (query_tables p qs) as [sent [rows|err]] end; repeat split.
  - apply Forall_forall. intros st Hst. apply list_elem_of_In in Hst.
    apply loan_data_by_type_sent in Hst as (t & dbLoanType & _ & _ & ->).
    cbn [uses_range conditions typed_statement].
    apply (range_statement query [_] _ Hpair).
    + intros c [<- | []]. eauto.
    + intros c Hc. right. now apply telco_conditions_telco in Hc.
  - unfold same_outcome, loan_data_by_type; cbv zeta.
    rewrite ?K1, ?K2, ?K3, ?K4, ?K5, Hpair. cbv iota.
    destruct (loanTypeMap loanType); [|repeat split].
    match goal with |- context [query_tables p ?qs] =>
      destruct (query_tables p qs) as [sent [rows|err]] end; repeat split.
Qed.

Lemma date_range_takes_precedence_witness :
  Forall (uses_range "2025-08-04" "2025-08-06") (fst (loan_data sample_pool explicit_range))
  /\ same_outcome (loan_data sample_pool explicit_range)
                  (loan_data sample_pool (with_param "days" "1" explicit_range)).
Proof.
  exact (proj1 (date_range_takes_precedence sample_pool explicit_range "7" "1"
                  ltac:(vm_compute; reflexivity))).
Defined.

Lemma loanTypeMap_None (key : string) :
  loanTypeMap key = None <-> ~ In key loan_type_keys /\ ~ In key Object_prototype.
Proof.
  unfold loanTypeMap, loan_type_keys.
  destruct (String.eqb_spec key "7") as [-> | H7];
    [split; [discriminate | intros [H _]; exfalso; apply H; simpl; auto]|].
  destruct (String.eqb_spec key "14") as [-> | H14];
    [split; [discriminate | intros [H _]; exfalso; apply H; simpl; auto]|].
  destruct (String.eqb_spec key "21") as [-> | H21];
    [split; [discriminate | intros [H _]; exfalso; apply H; simpl; auto]|].
  destruct (String.eqb_spec key "30") as [-> | H30];
    [split; [discriminate | intros [H _]; exfalso; apply H; simpl; auto]|].
  destruct (existsb (String.eqb key) Object_prototype) eqn:E.
  - split; [discriminate|]. intros [_ H]. exfalso. apply H.
    apply existsb_exists in E as (k & Hk & Ek). apply String.eqb_eq in Ek. now subst.
  - split; [|reflexivity]. intros _. split.
    + simpl. intros [H | [H | [H | [H | []]]]]; congruence.
    + intros Hin. apply Bool.not_true_iff_false in E. apply E.
      apply existsb_exists. exists key. split; [exact Hin | apply String.eqb_refl].
Qed.

(** X15. The per-type handler answers 400 exactly to a [loanType] that is
    none of 7, 14, 21 and 30 and names no member of Object.prototype (which
    the lookup in the object literal finds as well), and then it sends no
    statement; the [loan_type] parameter of the query string plays no part
    in it. *)
Theorem loan_type_is_validated_by_lookup (p : pool) (query : gmap string string)
    (loanType v : string) :
  (status (snd (loan_data_by_type p query loanType)) = 400
   <-> ~ In loanType loan_type_keys /\ ~ In loanType Object_prototype)
  /\ (status (snd (loan_data_by_type p query loanType)) = 400 ->
      loan_data_by_type p query loanType =
        ([], {| status := 400; json := Error "Invalid loan type" None |}))
  /\ loan_data_by_type p (with_param "loan_type" v query) loanType =
     loan_data_by_type p query loanType.
Proof.
  split; [|split].
  - rewrite <- loanTypeMap_None. unfold loan_data_by_type; cbv zeta.
    destruct (loanTypeMap loanType); [|now split].
    match goal with |- context [query_tables p ?qs] =>
      destruct (query_tables p qs) as [sent [rows|err]] end; split; discriminate.
  - unfold loan_data_by_type; cbv zeta.
    destruct (loanTypeMap loanType); [|reflexivity].
    match goal with |- context [query_tables p ?qs] =>
      destruct (query_tables p qs) as [sent [rows|err]] end; discriminate.
  - unfold loan_data_by_type; cbv zeta.
    assert (Hk : forall k, k <> "loan_type" ->
                           with_param "loan_type" v query !! k = query !! k)
      by (intros k Hne; apply lookup_insert_ne; congruence).
    now rewrite !Hk by discriminate.
Qed.

Lemma loan_type_is_validated_by_lookup_witness :
  status (snd (loan_data_by_type sample_pool ∅ "weekly")) = 400
  /\ status (snd (loan_data_by_type sample_pool ∅ "toString")) <> 400.
Proof.
  split.
  - apply (proj1 (loan_type_is_validated_by_lookup sample_pool ∅ "weekly" "")).
    split; vm_compute; intuition discriminate.
  - intros H.
    apply (proj1 (loan_type_is_validated_by_lookup sample_pool ∅ "toString" "")) in H
      as [_ H].
    apply H. vm_compute. tauto.
Defined.

Lemma like_contains (v s : string) :
  forallb plain (list_ascii_of_string v) = true ->
  like (list_ascii_of_string ("%" ++ v ++ "%")) (list_ascii_of_string s) = true ->
  exists a b, s = a ++ v ++ b.
Proof.
  intros Hv. change ("%" ++ v ++ "%") with (String "%" (v ++ "%")).
  cbn [list_ascii_of_string]. rewrite list_ascii_of_string_app.
  rewrite like_any_split. intros (a & b & E & H).
  apply (like_plain_prefix _ _ _ Hv) in H as (rest & -> & _).
  exists (string_of_list_ascii a), (string_of_list_ascii rest).
  rewrite <- (string_of_list_ascii_of_string s), E.
  rewrite <- (string_of_list_ascii_of_string v) at 2.
  rewrite <- (list_ascii_of_string_of_list_ascii a) at 1.
  rewrite <- (list_ascii_of_string_of_list_ascii rest) at 1.
  rewrite <- !list_ascii_of_string_app.
  now rewrite !string_of_list_ascii_of_string.
Qed.

Lemma records_of_pattern (db : database) (p : pool) (h : handled) (v : string)
    (x : LoanRecord) :
  query_loans p = run db ->
  all_or_nothing p h ->
  Forall (carries (LoanTypeLike ("%" ++ v ++ "%"))) (fst h) ->
  forallb plain (list_ascii_of_string v) = true ->
  In x (records (snd h)) -> type_contains v x.
Proof.
  intros Hp Hh Hc Hv Hx.
  apply (handler_records p h x Hh) in Hx.
  apply (record_origin db p _ _ Hp) in Hx as (q & r & Hq & Hr & ->).
  rewrite Forall_forall in Hc. apply list_elem_of_In in Hq. specialize (Hc _ Hq).
  cbn [carries] in Hc.
  pose proof (selected_condition db q r _ Hr Hc) as Hh'. simpl in Hh'.
  unfold type_contains. rewrite record_loan_type.
  destruct (c_loan_type r) as [o|]; [|discriminate]. injection Hh' as Hh'.
  apply (like_contains v o Hv) in Hh' as (a & b & ->). now exists a, b.
Qed.

(** X16. Against the database, the loan type of every record answered
    contains the text asked for, letter case included: for the general
    handler the [loan_type] parameter, when it is non-empty and has none of
    the characters [%], [_] and backslash; for the per-type handler
    "Nano 7D", "Nano 14D", "Nano 21D" or "Nano 30D" after the type of the
    path. *)
Theorem records_contain_the_loan_type (db : database) (p : pool)
    (query : gmap string string) (loanType v : string) :
  query_loans p = run db ->
  (query !! "loan_type" = Some v -> v <> "" ->
   forallb plain (list_ascii_of_string v) = true ->
   Forall (type_contains v) (records (snd (loan_data p query))))
  /\ (In loanType loan_type_keys ->
      Forall (type_contains ("Nano " ++ loanType ++ "D"))
        (records (snd (loan_data_by_type p query loanType)))).
Proof.
  intros Hp. split.
  - intros Hq Hne Hv. apply Forall_forall. intros x Hx. apply list_elem_of_In in Hx.
    apply (records_of_pattern db p _ v x Hp (loan_data_outcome p query)); auto.
    apply Forall_forall. intros st Hst. apply list_elem_of_In in Hst.
    apply loan_data_sent in Hst as (t & _ & ->).
    cbn [carries conditions general_statement].
    apply in_or_app. right. apply in_or_app. left.
    unfold type_conditions. rewrite Hq. cbn [truthy_param default from_option id].
    unfold truthy_str. destruct (String.eqb_spec v "") as [E | _]; [contradiction|].
    now left.
  - intros Hkey. apply Forall_forall. intros x Hx. apply list_elem_of_In in Hx.
    apply (records_of_pattern db p _ _ x Hp (loan_data_by_type_outcome p query loanType));
      auto.
    + apply Forall_forall. intros st Hst. apply list_elem_of_In in Hst.
      apply loan_data_by_type_sent in Hst as (t & dbLoanType & Hmap & _ & ->).
      cbn [carries conditions typed_statement]. apply in_or_app. left.
      destruct Hkey as [<- | [<- | [<- | [<- | []]]]];
        injection Hmap as <-; now left.
    + destruct Hkey as [<- | [<- | [<- | [<- | []]]]]; reflexivity.
Qed.

Lemma records_contain_the_loan_type_witness :
  Forall (type_contains "7D") (records (snd (loan_data sample_pool seven_day_type)))
  /\ Forall (type_contains ("Nano " ++ "14" ++ "D"))
       (records (snd (loan_data_by_type sample_pool ∅ "14")))
  /\ (length (records (snd (loan_data sample_pool seven_day_type))) = 3)%nat.
Proof.
  pose proof (records_contain_the_loan_type sample_db sample_pool seven_day_type
                "7" "7D" ltac:(reflexivity)) as [H1 _].
  pose proof (records_contain_the_loan_type sample_db sample_pool ∅
                "14" "" ltac:(reflexivity)) as [_ H2].
  split; [|split].
  - apply H1; [reflexivity | discriminate | reflexivity].
  - apply H2. simpl. auto.
  - vm_compute. reflexivity.
Defined.









End MoreHandlerFacts.

(** ** The summary handler and the routes *)

Section SummaryAndRoutes.
Import JS.

Lemma shadowed_route (a b c n : string) (segs : list string)
    (params : list (string * string)) :
  toLowerCase c <> "" ->
  match_route [Literal a; Literal b; Literal c] segs = Some params ->
  match_route [Literal a; Literal b; Named n] segs <> None.
Proof.
  intros Hc.
  destruct segs as [|s1 [|s2 [|s3 [|s4 segs]]]]; simpl;
    try discriminate;
    destruct (String.eqb (toLowerCase a) (toLowerCase s1)); try discriminate;
    destruct (String.eqb (toLowerCase b) (toLowerCase s2)); try discriminate.
  - destruct (String.eqb_spec (toLowerCase c) (toLowerCase s3)) as [E | _];
      [|discriminate].
    destruct (String.eqb_spec s3 "") as [-> | _]; [|discriminate].
    now rewrite E in Hc.
  - destruct (String.eqb (toLowerCase c) (toLowerCase s3)); discriminate.
Qed.

(** X18. No path is ever given to the summary handler: whatever path the
    router resolves, the endpoint it finds is not the summary one, because
    every path that matches /api/loan-data/summary matches the route
    /api/loan-data/:loanType registered before it. *)
Theorem summary_handler_is_never_reached (path : string) (e : endpoint)
    (params : list (string * string)) :
  dispatch path = Some (e, params) -> is_summary e = false.
Proof.
  unfold dispatch. destruct (path_segments path) as [segs|]; [|discriminate].
  unfold routes. cbn [first_match].
  destruct (match_route [Literal "api"; Literal "health"] segs);
    [intros H; injection H as <- _; reflexivity|].
  destruct (match_route [Literal "api"; Literal "loan-data"] segs);
    [intros H; injection H as <- _; reflexivity|].
  destruct (match_route [Literal "api"; Literal "loan-data"; Named "loanType"] segs)
    eqn:Etype; [intros H; injection H as <- _; reflexivity|].
  destruct (match_route [Literal "api"; Literal "loan-data"; Literal "summary"] segs)
    as [ps|] eqn:Esum.
  { exfalso.
    assert (Hc : toLowerCase "summary" <> "") by (vm_compute; discriminate).
    apply (shadowed_route "api" "loan-data" "summary" "loanType" segs ps Hc Esum).
    exact Etype. }
  repeat match goal with
  | |- context [match match_route ?pat segs with _ => _ end] =>
      destruct (match_route pat segs);
      [intros H; injection H as <- _; reflexivity|]
  end.
  discriminate.
Qed.

Lemma summary_handler_is_never_reached_witness :
  is_summary LoanDataByType = false.
Proof.
  apply (summary_handler_is_never_reached "/api/loan-data/Summary/" LoanDataByType
           [("loanType", "Summary")]).
  reflexivity.
Defined.

Lemma append_cons (a : string) (c : ascii) (b : string) :
  (a ++ String c "") ++ b = a ++ String c b.
Proof.
  induction a as [|x a IH]; [reflexivity|].
  change (String x ((a ++ String c "") ++ b) = String x (a ++ String c b)).
  now rewrite IH.
Qed.

Lemma append_empty (a : string) : a ++ "" = a.
Proof.
  induction a as [|x a IH]; [reflexivity|].
  change (String x (a ++ "") = String x a). now rewrite IH.
Qed.

Lemma split_path_segment (s current : string) :
  forallb segment_char (list_ascii_of_string s) = true ->
  split_path s current = [current ++ s].
Proof.
  revert current. induction s as [|c s IH]; intros current Hs; simpl.
  - now rewrite append_empty.
  - simpl in Hs. apply andb_true_iff in Hs as [Hc Hs].
    unfold segment_char in Hc. apply negb_true_iff in Hc.
    rewrite !orb_false_iff in Hc. destruct Hc as [[[Hc _] _] _].
    rewrite Hc, (IH _ Hs). now rewrite append_cons.
Qed.

(** X19. Any one segment after /api/loan-data/ is a loan type: for a
    non-empty text without a slash, a percent sign, a question mark or a
    hash sign the application gives the request to the per-type handler
    with [loanType] bound to the text as it stands. *)
Theorem loan_type_is_the_path_segment (p : pool) (query : gmap string string)
    (s : string) :
  s <> "" ->
  forallb segment_char (list_ascii_of_string s) = true ->
  app p ("/api/loan-data/" ++ s) query = Served (loan_data_by_type p query s).
Proof.
  intros Hne Hs.
  assert (Hd : dispatch ("/api/loan-data/" ++ s) = Some (LoanDataByType, [("loanType", s)])).
  { unfold dispatch, path_segments.
    assert (Hp : split_path ("/api/loan-data/" ++ s) "" = [""; "api"; "loan-data"; s]).
    { simpl. change ("" ++ s) with s.
      now rewrite (split_path_segment s "" Hs). }
    rewrite Hp. destruct s as [|c s']; [contradiction|]. reflexivity. }
  unfold app. rewrite Hd. reflexivity.
Qed.

Lemma loan_type_is_the_path_segment_witness :
  app sample_pool ("/api/loan-data/" ++ "summary") ∅ =
    Served (loan_data_by_type sample_pool ∅ "summary").
Proof.
  apply (loan_type_is_the_path_segment sample_pool ∅ "summary");
    [discriminate | reflexivity].
Defined.

Lemma summary_tables (telco : string) :
  ((if String.eqb (toLowerCase telco) "airtel" || String.eqb (toLowerCase telco) "both"
    then [airtel_loan_data] else [])
   ++ (if String.eqb (toLowerCase telco) "mtn" || String.eqb (toLowerCase telco) "both"
       then [MTN_loan_data] else []))%list
  = tables_of telco.
Proof.
  unfold tables_of.
  destruct (String.eqb_spec (toLowerCase telco) "airtel") as [E | _];
    [rewrite ?E; reflexivity|].
  destruct (String.eqb_spec (toLowerCase telco) "mtn") as [E | _];
    [rewrite ?E; reflexivity|].
  destruct (String.eqb (toLowerCase telco) "both"); reflexivity.
Qed.

Lemma query_summaries_outcome (p : pool) (qs : list select_summary) :
  match query_summaries p qs with
  | (sent, Rows _) => sent = map SelectSummary qs
  | (sent, Failed e) =>
      exists before q,
        sent = (before ++ [SelectSummary q])%list /\ query_summary p q = Failed e
  end.
Proof.
  induction qs as [|q qs IH]; [reflexivity|].
  cbn [query_summaries]. destruct (query_summary p q) as [rows|e] eqn:E.
  - destruct (query_summaries p qs) as [sent [all|e]].
    + simpl. now rewrite IH.
    + destruct IH as (before & q' & -> & Hq').
      exists (SelectSummary q :: before), q'. split; [reflexivity | exact Hq'].
  - exists [], q. split; [reflexivity | exact E].
Qed.

(** X20. The summary handler never rejects a request whose parameters
    other than [telco] are single texts: it answers 200 or 500 only. When
    [telco] is an array or object the answer is 500 "Summary query failed"
    with the message of the TypeError and nothing is sent. Otherwise it
    chooses its tables as the loan handlers do, one statement per table
    with [parseInt(days)] unguarded, so an operator filter outside airtel,
    mtn and both gets 200 with an empty summary and no statement; and a 500
    is "Summary query failed" with the error of the last statement sent. *)
Theorem summary_handler_never_rejects (p : pool) (telco : option parameter)
    (query : gmap string string) :
  let h := get_loan_data_summary p telco query in
  (status (snd h) = 200 \/ status (snd h) = 500)
  /\ (telco = Some Composite -> h = thrown "Summary query failed")
  /\ (forall q, with_telco telco query = Some q ->
        let name := default "both" (q !! "telco") in
        let days := parseInt (VStr (default "30" (q !! "days"))) in
        Forall (fun s => exists t, In t (tables_of name)
                           /\ s = SelectSummary {| summary_from := t;
                                                   summary_days := days |})
          (fst h)
        /\ (tables_of name = [] ->
            h = ([], {| status := 200; json := Summary [] name days |}))
        /\ (status (snd h) = 500 ->
            exists before q' e,
              fst h = (before ++ [SelectSummary q'])%list
              /\ query_summary p q' = Failed e
              /\ json (snd h) = Error "Summary query failed" (Some e))).
Proof.
  intros h. unfold h, get_loan_data_summary.
  split; [|split].
  - destruct (with_telco telco query) as [q|]; [|now right].
    unfold loan_data_summary. cbv zeta.
    destruct (query_summaries p _) as [sent [all|e]]; simpl; auto.
  - intros ->. reflexivity.
  - intros q ->.
    set (name := default "both" (q !! "telco")).
    set (days := parseInt (VStr (default "30" (q !! "days")))).
    unfold loan_data_summary. cbv zeta.
    fold name. fold days. rewrite (summary_tables name).
    split; [|split].
    + match goal with |- context [query_summaries p ?qs] =>
        pose proof (query_summaries_sent p qs) as Hsent;
        destruct (query_summaries p qs) as [sent r] end.
      assert (Hgoal : Forall (fun s => exists t, In t (tables_of name)
                               /\ s = SelectSummary {| summary_from := t;
                                                       summary_days := days |}) sent).
      { apply Forall_forall. intros s Hs. apply list_elem_of_In in Hs.
        destruct (Hsent s Hs) as (q' & -> & Hq).
        apply in_map_iff in Hq as (t & <- & Ht). exists t. auto. }
      destruct r; exact Hgoal.
    + intros ->. reflexivity.
    + match goal with |- context [query_summaries p ?qs] =>
        pose proof (query_summaries_outcome p qs) as Hout;
        destruct (query_summaries p qs) as [sent [all|e]] end;
        cbn [fst snd status json]; [discriminate|].
      intros _. destruct Hout as (before & q' & -> & Hq). exists before, q', e. auto.
Qed.

Lemma summary_handler_never_rejects_witness :
  get_loan_data_summary sample_pool (Some Composite) ∅ = thrown "Summary query failed"
  /\ get_loan_data_summary sample_pool (Some (Text "vodafone")) ∅ =
       ([], {| status := 200; json := Summary [] "vodafone" 30 |}).
Proof.
  split.
  - exact (proj1 (proj2 (summary_handler_never_rejects sample_pool (Some Composite) ∅))
             eq_refl).
  - pose proof (proj2 (proj2 (summary_handler_never_rejects sample_pool
                               (Some (Text "vodafone")) ∅)) _ eq_refl)
      as (_ & H & _).
    rewrite H; vm_compute; reflexivity.
Defined.

End SummaryAndRoutes.

(** ** The formatted rows of the NPL and the summary handler *)

Section Formatters.
Import JS.

Ltac numbers_of f :=
  intros name Hin; unfold holds_number;
  repeat (destruct Hin as [<- | Hin];
          [eexists; split;
           [unfold f; cbv zeta;
            rewrite ?lookup_insert_ne by discriminate; apply lookup_insert_eq
           |split; [apply amount_not_nan | apply amount_non_numeric]]|]);
  destruct Hin.

Ltac others_of f H :=
  unfold f; cbv zeta;
  rewrite !lookup_insert_ne
    by (let E := fresh in intros E; first [ congruence | apply H; rewrite <- E; simpl; tauto ]);
  reflexivity.

(** X21. The NPL handler formats a row by overwriting thirteen of its
    properties and passing every other one through: each of the twelve
    numeric properties becomes a number other than NaN, 0 when the row's
    value is null, missing or non-numeric; [report_date] becomes a text;
    and any other property of the row is answered unchanged. *)
Theorem formatNpl_overrides (row : dated_row) :
  (forall name, In name npl_numbers ->
     holds_number (formatNpl row) (row_fields row) name)
  /\ (exists text, formatNpl row !! "report_date" = Some (VStr text))
  /\ (forall name, ~ In name npl_numbers -> name <> "report_date" ->
        formatNpl row !! name = row_fields row !! name).
Proof.
  split; [|split].
  - numbers_of formatNpl.
  - eexists. unfold formatNpl. cbv zeta.
    rewrite !lookup_insert_ne by discriminate. apply lookup_insert_eq.
  - intros name Hn Hd. others_of formatNpl Hn.
Qed.

Lemma formatNpl_overrides_witness :
  holds_number (formatNpl (Npl.fetch (npl_row "Grand Total" "600")))
    (row_fields (Npl.fetch (npl_row "Grand Total" "600"))) "within_tenure".
Proof.
  apply (proj1 (formatNpl_overrides (Npl.fetch (npl_row "Grand Total" "600")))).
  simpl. auto.
Defined.

(** X22. The summary handler formats a row in the same way: each of the
    five totals and averages it names becomes a number other than NaN, 0
    when the row's value is null, missing or non-numeric; [latest_date]
    becomes a text; and any other property of the row ([loan_type],
    [record_count], the two transaction totals, [telco]) is answered
    unchanged. *)
Theorem formatSummary_overrides (row : dated_row) :
  (forall name, In name summary_numbers ->
     holds_number (formatSummary row) (row_fields row) name)
  /\ (exists text, formatSummary row !! "latest_date" = Some (VStr text))
  /\ (forall name, ~ In name summary_numbers -> name <> "latest_date" ->
        formatSummary row !! name = row_fields row !! name).
Proof.
  split; [|split].
  - numbers_of formatSummary.
  - eexists. unfold formatSummary. cbv zeta.
    rewrite !lookup_insert_ne by discriminate. apply lookup_insert_eq.
  - intros name Hn Hd. others_of formatSummary Hn.
Qed.

Lemma formatSummary_overrides_witness :
  holds_number (formatSummary {| row_date := None; row_fields := ∅ |}) ∅
    "avg_qualified_base".
Proof.
  apply (proj1 (formatSummary_overrides {| row_date := None; row_fields := ∅ |})).
  do 4 right. left. reflexivity.
Defined.

Lemma Prim2SF_nan_is_nan (x : float) : Prim2SF x = S754_nan -> is_nan x = true.
Proof.
  intros H. unfold is_nan. rewrite FloatAxioms.eqb_spec, H. reflexivity.
Qed.

Lemma add_nan_l (x y : float) : Prim2SF x = S754_nan -> Prim2SF (x + y) = S754_nan.
Proof. intros H. rewrite FloatAxioms.add_spec, H. reflexivity. Qed.

(** X23. The two derived amounts are computed from guarded operands but are
    not guarded themselves: when the gross amount lent and the service fee
    lent are both read as Infinity, [principal_lent] is NaN, and when the
    recovered principal is read as Infinity and the recovered service fee as
    -Infinity, [gross_recovered] is NaN, whatever the other columns hold. *)
Theorem derived_amounts_are_not_guarded (row : raw_row) :
  let r := convertRow row in
  (gross_lent r = infinity -> sfee_lent r = infinity ->
   is_nan (principal_lent r) = true)
  /\ (principal_recovered r = infinity -> sfee_recovered r = neg_infinity ->
      is_nan (gross_recovered r) = true).
Proof.
  intros r. split.
  - intros Hg Hs.
    change (principal_lent r) with (gross_lent r - sfee_lent r)%float.
    rewrite Hg, Hs. reflexivity.
  - intros Hp Hs.
    change (gross_recovered r) with
      (principal_recovered r + sfee_recovered r + late_fees_recovered r
       + setup_fees_recovered r + interest_fees_recovered r
       + daily_fees_recovered r)%float.
    rewrite Hp, Hs. apply Prim2SF_nan_is_nan.
    do 4 apply add_nan_l. reflexivity.
Qed.

Lemma derived_amounts_are_not_guarded_witness :
  is_nan (principal_lent (convertRow unbounded_row)) = true
  /\ is_nan (gross_recovered (convertRow unbounded_row)) = true.
Proof.
  pose proof (derived_amounts_are_not_guarded unbounded_row) as [H1 H2].
  split; [apply H1 | apply H2]; vm_compute; reflexivity.
Defined.

End Formatters.

(** ** The status handler *)

Section StatusFacts.
Import MySQL.

Lemma max_load_date_spec (rows : list db_row) :
  match Status.max_load_date rows with
  | None => forall r, In r rows -> c_load_date r = None
  | Some d =>
      exists r, In r rows /\ c_load_date r = Some d
        /\ forall r' d', In r' rows -> c_load_date r' = Some d' ->
                         day_number d' <= day_number d
  end.
Proof.
  induction rows as [|x rows IH]; [intros r []|].
  cbn [Status.max_load_date].
  destruct (c_load_date x) as [d|] eqn:Ex; destruct (Status.max_load_date rows) as [m|].
  - destruct IH as (r & Hr & Hd & Hmax).
    destruct (day_number d <? day_number m) eqn:E.
    + apply Z.ltb_lt in E. exists r. split; [now right|]. split; [exact Hd|].
      intros r' d' [<- | Hr'] Hd'; [|now apply (Hmax r')].
      rewrite Ex in Hd'. injection Hd' as <-. lia.
    + apply Z.ltb_ge in E. exists x. split; [now left|]. split; [exact Ex|].
      intros r' d' [<- | Hr'] Hd'.
      * rewrite Ex in Hd'. injection Hd' as <-. lia.
      * specialize (Hmax r' d' Hr' Hd'). lia.
  - exists x. split; [now left|]. split; [exact Ex|].
    intros r' d' [<- | Hr'] Hd'.
    + rewrite Ex in Hd'. injection Hd' as <-. lia.
    + rewrite (IH r' Hr') in Hd'. discriminate.
  - destruct IH as (r & Hr & Hd & Hmax).
    exists r. split; [now right|]. split; [exact Hd|].
    intros r' d' [<- | Hr'] Hd'; [rewrite Ex in Hd'; discriminate | now apply (Hmax r')].
  - intros r [<- | Hr]; [exact Ex | now apply IH].
Qed.

Lemma shown_latest (rows : list db_row) (n : Z) :
  latest_of rows
    (Status.shown_latest_date
       (Status.shown
          {| Status.latest_date := option_map driver_Date (Status.max_load_date rows);
             Status.total_records := n |})).
Proof.
  pose proof (max_load_date_spec rows) as H.
  unfold Status.shown. cbn [Status.shown_latest_date Status.latest_date].
  destruct (Status.max_load_date rows) as [d|]; [|exact H]. cbn [option_map].
  destruct H as (r & Hr & Hd & Hmax). exists r, d. auto.
Qed.

(** X24. Against the database the status handler always answers 200 after
    one statement on each table, Airtel first: for each table the number of
    its rows and, as latest date, null when no row has a load date and
    otherwise the formatted load date of a row that none exceeds. *)
Theorem status_reports_each_table (db : database) :
  exists a m,
    Status.handler (Status.run db) =
      ([airtel_loan_data; MTN_loan_data], (200, Status.Active a m))
    /\ Status.shown_total_records a = Z.of_nat (length (rows_of db airtel_loan_data))
    /\ Status.shown_total_records m = Z.of_nat (length (rows_of db MTN_loan_data))
    /\ latest_of (rows_of db airtel_loan_data) (Status.shown_latest_date a)
    /\ latest_of (rows_of db MTN_loan_data) (Status.shown_latest_date m).
Proof.
  eexists _, _. split; [reflexivity|].
  split; [reflexivity|]. split; [reflexivity|].
  split; apply shown_latest.
Qed.

(** X25. For any answers of the pool the status handler answers 200 or
    500; 200 exactly when both statements succeed with a first row; and the
    MTN table is queried exactly when the Airtel statement succeeded. *)
Theorem status_needs_both_tables (query : table -> result Status.aggregate) :
  let h := Status.handler query in
  (fst (snd h) = 200 \/ fst (snd h) = 500)
  /\ (fst (snd h) = 200 <->
      exists a la m lm,
        query airtel_loan_data = Rows (a :: la)
        /\ query MTN_loan_data = Rows (m :: lm))
  /\ (In MTN_loan_data (fst h) <-> exists rows, query airtel_loan_data = Rows rows).
Proof.
  intros h. unfold h, Status.handler.
  destruct (query airtel_loan_data) as [[|a la]|ea];
    destruct (query MTN_loan_data) as [[|m lm]|em]; cbn [fst snd];
    (split; [auto|]); split; split;
    try discriminate;
    try (intros (? & ? & ? & ? & ? & ?); discriminate);
    try (intros [? | [? | []]]; discriminate);
    try (intros [? | []]; discriminate);
    try (intros (? & ?); discriminate);
    try (intros _; simpl; tauto);
    try (intros _; eauto 10).
Qed.

Lemma status_needs_both_tables_witness :
  fst (snd (Status.handler (Status.run sample_db))) = 200.
Proof.
  apply (proj1 (proj2 (status_needs_both_tables (Status.run sample_db)))).
  do 4 eexists. split; reflexivity.
Defined.

End StatusFacts.
